(** * Workflow builders of [matmethods.vasp.workflows.base.adsorption]

    A shallow embedding of the two workflow builders [get_wf_adsorption]
    and [get_wf_molecules], and the properties of the job graphs they
    assemble.

    The builders are glue code over pymatgen (structures, slabs, input
    sets) and FireWorks (job descriptors).  Objects of those libraries are
    opaque here and reached through the attributes and calls the builders
    use; Python's mutable dictionaries live in an explicit store so that
    the default-argument dictionaries of [get_wf_adsorption] are shared
    between calls exactly as the interpreter shares them. *)

From Stdlib Require Import ZArith QArith Qround Qfield Lqa String Ascii List Lia
  DecimalString.
From stdpp Require Import base option list gmap strings fin_maps.
Import ListNotations.

Set Warnings "-register-all".

Local Open Scope Z_scope.

(** ** Python values *)

(** The builders do no more with floating point numbers than divide,
    subtract and [round] them; the interface keeps them abstract. *)
Class PyFloat := {
  float : Type;
  float_div : float -> float -> float;   (* x / y *)
  float_sub : float -> float -> float;   (* x - y *)
  py_round : float -> Z;                 (* round(x) *)
  float_lit_0 : float;                   (* the literal 0. *)
  float_lit_0_5 : float;                 (* the literal 0.5 *)
}.

Section Values.
Context `{PyFloat}.

Inductive PyVal :=
  | PyBool (b : bool)
  | PyInt (n : Z)
  | PyStr (s : string)
  | PyFloatV (x : float)
  | PyList (l : list PyVal).

(** [v == "..."] against a string literal. *)
Definition py_eq_str (v : PyVal) (s : string) : bool :=
  match v with
  | PyStr s' => String.eqb s' s
  | _ => false
  end.

End Values.

(** A Python [dict] with string keys (INCAR overrides, site properties). *)
Abbreviation PyDict := (gmap string PyVal).

(** [d.update(other)]: the keys of [other] override those of [d]. *)
Definition dict_update_val `{PyFloat} (d other : PyDict) : PyDict := other ∪ d.

(** ** Strings and integers *)

(** [str(i)] for an integer. *)
Definition py_str (i : Z) : string := NilZero.string_of_int (Z.to_int i).

(** [''.join(l)]. *)
Definition join (l : list string) : string := fold_right String.append "" l.

(** The ASCII digits '0' to '9', and the strings made of them only. *)
Definition is_digit (c : ascii) : bool :=
  let n := nat_of_ascii c in (48 <=? n)%nat && (n <=? 57)%nat.

Definition all_digits (s : string) : bool :=
  forallb is_digit (list_ascii_of_string s).

(** A Python text string is held as its UTF-8 encoding; iterating over
    it yields its characters, one code point each. *)

(** A continuation byte, [10xxxxxx]. *)
Definition is_continuation (b : N) : bool := ((128 <=? b) && (b <=? 191))%N.

(** The well-formed sequences of two, three and four bytes: no overlong
    form, no surrogate, nothing above U+10FFFF. *)
Definition two_bytes (b c1 : N) : bool :=
  ((194 <=? b) && (b <=? 223))%N && is_continuation c1.

Definition three_bytes (b c1 c2 : N) : bool :=
  ((224 <=? b) && (b <=? 239))%N && is_continuation c1 && is_continuation c2
  && (negb (b =? 224)%N || (160 <=? c1)%N)
  && (negb (b =? 237)%N || (c1 <=? 159)%N).

Definition four_bytes (b c1 c2 c3 : N) : bool :=
  ((240 <=? b) && (b <=? 244))%N
  && is_continuation c1 && is_continuation c2 && is_continuation c3
  && (negb (b =? 240)%N || (144 <=? c1)%N)
  && (negb (b =? 244)%N || (c1 <=? 143)%N).

(** A byte that starts no well-formed sequence is read as the lone
    surrogate Python's [surrogateescape] gives it; no text holds one. *)
Definition escaped_byte (b : N) : N := (56320 + b)%N.

Fixpoint decode_utf8 (bs : list N) : list N :=
  match bs with
  | [] => []
  | b :: rest =>
      if (b <? 128)%N then b :: decode_utf8 rest
      else
        match rest with
        | c1 :: r1 =>
            if two_bytes b c1 then
              ((b - 192) * 64 + (c1 - 128))%N :: decode_utf8 r1
            else
              match r1 with
              | c2 :: r2 =>
                  if three_bytes b c1 c2 then
                    ((b - 224) * 4096 + (c1 - 128) * 64 + (c2 - 128))%N
                      :: decode_utf8 r2
                  else
                    match r2 with
                    | c3 :: r3 =>
                        if four_bytes b c1 c2 c3 then
                          ((b - 240) * 262144 + (c1 - 128) * 4096
                           + (c2 - 128) * 64 + (c3 - 128))%N
                            :: decode_utf8 r3
                        else escaped_byte b :: decode_utf8 rest
                    | [] => escaped_byte b :: decode_utf8 rest
                    end
              | [] => escaped_byte b :: decode_utf8 rest
              end
        | [] => escaped_byte b :: decode_utf8 rest
        end
  end.

(** The characters of a string, as [for i in s] yields them. *)
Definition code_points (s : string) : list N :=
  decode_utf8 (map N_of_ascii (list_ascii_of_string s)).

(** The decimal digits of the interpreter's Unicode database: the digit
    value [int] gives a one-character string, for the characters of
    category Nd.  The table differs between Python versions; in all of
    them a digit value is below ten and the decimal digits of ASCII are
    '0' to '9'. *)
Class PyUnicode := {
  unicode_decimal : N -> option Z;
  unicode_decimal_range c d : unicode_decimal c = Some d -> 0 <= d <= 9;
  unicode_decimal_ascii c :
    (c < 128)%N ->
    unicode_decimal c
    = if ((48 <=? c) && (c <=? 57))%N then Some (Z.of_N c - 48) else None;
}.

(** Whether [int] accepts the character. *)
Definition is_decimal `{PyUnicode} (c : N) : bool :=
  match unicode_decimal c with
  | Some _ => true
  | None => false
  end.

(** ** Exceptions, interpreter state and the builder monad *)

Inductive PyExn :=
  | ValueError_int (c : N)
      (* int(i): invalid literal for int() with base 10, for the
         one-character string i of code point c *)
  | ValueError_max_empty
      (* max([]): max() arg is an empty sequence *)
  | ValueError_miller (mi_strings : list string)
      (* "Miller index not in generated slab list. Unique slabs are {}"
         formatted with mi_strings *)
  | KeyError (k : string)
      (* d[k] on a dict without the key k *)
  | IndexError
      (* l[i] out of range *).

Inductive Outcome (A : Type) :=
  | Return (a : A)
  | Raise (e : PyExn).
Arguments Return {A} a.
Arguments Raise {A} e.

(** Dictionary objects are addressed by location.  Locations 0 and 1 hold
    the two dictionaries created once, when [def get_wf_adsorption] is
    evaluated, for the defaults [slab_incar_params={}] and
    [ads_incar_params={}]. *)
Definition loc := nat.
Definition default_slab_incar_params : loc := 0%nat.
Definition default_ads_incar_params : loc := 1%nat.

Section Monad.
Context `{PyFloat}.

Record Interp := {
  dicts : gmap loc PyDict;     (* the dictionary objects alive *)
  fireworks_built : nat;       (* Firework constructors run so far *)
}.

(** The interpreter right after the module is imported. *)
Definition fresh_interp : Interp :=
  {| dicts := {[ default_slab_incar_params := ∅; default_ads_incar_params := ∅ ]};
     fireworks_built := 0 |}.

Definition Py (A : Type) : Type := Interp -> Outcome A * Interp.

Definition ret {A} (a : A) : Py A := fun st => (Return a, st).
Definition raise {A} (e : PyExn) : Py A := fun st => (Raise e, st).
Definition bind {A B} (m : Py A) (k : A -> Py B) : Py B :=
  fun st =>
    match m st with
    | (Return a, st') => k a st'
    | (Raise e, st') => (Raise e, st')
    end.

Definition read_dict (l : loc) : Py PyDict :=
  fun st => (Return (default ∅ (dicts st !! l)), st).

(** [l.update(other)] on the object at [l]. *)
Definition dict_update (l : loc) (other : PyDict) : Py unit :=
  fun st =>
    (Return tt,
     {| dicts := <[ l := dict_update_val (default ∅ (dicts st !! l)) other ]> (dicts st);
        fireworks_built := fireworks_built st |}).

(** Allocation of a dictionary a caller builds before the call. *)
Definition new_dict (d : PyDict) : Py loc :=
  fun st =>
    let l := fresh (dom (dicts st)) in
    (Return l,
     {| dicts := <[ l := d ]> (dicts st);
        fireworks_built := fireworks_built st |}).

End Monad.

Notation "'let!' x ':=' m 'in' k" := (bind m (fun x => k))
  (at level 10, x name, m at level 100, k at level 200).
Notation "'run!' m 'in' k" := (bind m (fun _ => k))
  (at level 10, m at level 100, k at level 200).

(** ** Control structures *)

Section Control.
Context `{PyFloat} `{PyUnicode}.

(** A [for] loop whose body rebinds or appends to a local variable: the
    variable is the accumulator. *)
Fixpoint py_for {A B} (l : list A) (acc : B) (body : B -> A -> Py B) : Py B :=
  match l with
  | [] => ret acc
  | x :: l' => let! acc' := body acc x in py_for l' acc' body
  end.

(** A list comprehension [[f(x) for x in l]]. *)
Fixpoint py_map {A B} (f : A -> Py B) (l : list A) : Py (list B) :=
  match l with
  | [] => ret []
  | x :: l' => let! y := f x in let! ys := py_map f l' in ret (y :: ys)
  end.

(** A list comprehension [[x for x in l if c(x)]]. *)
Fixpoint py_filter {A} (c : A -> Py bool) (l : list A) : Py (list A) :=
  match l with
  | [] => ret []
  | x :: l' =>
      let! b := c x in
      let! ys := py_filter c l' in
      ret (if b then x :: ys else ys)
  end.

(** [int(i)] for a one-character string [i], given by its code point:
    the digit value of a decimal digit, an error for any other
    character. *)
Definition py_int (c : N) : Py Z :=
  match unicode_decimal c with
  | Some d => ret d
  | None => raise (ValueError_int c)
  end.

(** [max(l)]. *)
Definition py_max (l : list Z) : Py Z :=
  match l with
  | [] => raise ValueError_max_empty
  | x :: l' => ret (fold_left Z.max l' x)
  end.

(** [l[i]]. *)
Definition py_index {A} (l : list A) (i : nat) : Py A :=
  match l !! i with
  | Some x => ret x
  | None => raise IndexError
  end.

(** [d[k]] on a dictionary value. *)
Definition py_getitem (d : PyDict) (k : string) : Py PyVal :=
  match d !! k with
  | Some v => ret v
  | None => raise (KeyError k)
  end.

End Control.

(** ** The pymatgen interface

    Structures, slabs, molecules and sites are pymatgen objects; only the
    attributes and calls used by the builders appear.  A [Slab] is a
    [Structure] (subclass): [slab_structure] is the upcast. *)
Class Pymatgen `{PyFloat} := {
  Molecule : Type; Structure : Type; Slab : Type; Site : Type;
  ConfigDict : Type;
  reduced_formula : Structure -> string;        (* s.composition.reduced_formula *)
  molecule_formula : Molecule -> string;        (* m.composition.reduced_formula *)
  slab_structure : Slab -> Structure;
  miller_index : Slab -> list Z;                (* slab.miller_index *)
  shift : Slab -> float;                        (* slab.shift *)
  lattice_a : Structure -> float;               (* s.lattice.a *)
  lattice_b : Structure -> float;               (* s.lattice.b *)
  sites : Structure -> list Site;               (* iteration over s *)
  num_sites : Structure -> nat;                 (* s.num_sites, len(s) *)
  species_string : Site -> string;
  frac_coords : Site -> list float;             (* site.frac_coords.tolist() *)
  properties : Site -> PyDict;                  (* site.properties *)
  site_properties : Structure -> PyDict;        (* s.site_properties *)
  add_site_property : Structure -> string -> list PyVal -> Structure;
  get_sorted_structure : Structure -> Structure;
  (* SpacegroupAnalyzer(s).get_conventional_standard_structure() *)
  get_conventional_standard_structure : Structure -> Structure;
  (* generate_decorated_slabs(s, max_index, min_slab_size, min_vacuum_size,
                              max_normal_search, center_slab) *)
  generate_decorated_slabs :
    Structure -> Z -> float -> float -> Z -> bool -> list Slab;
  (* AdsorbateSiteFinder(slab, selective_dynamics=True)
       .generate_adsorption_structures(molecule) *)
  generate_adsorption_structures : Slab -> Molecule -> list Structure;
  (* Structure(Lattice.cubic(a), m.species_and_occu, m.cart_coords,
               coords_are_cartesian=True) *)
  cubic_cell_structure : float -> Molecule -> Structure;
  (* np.average(s.frac_coords, axis=0) *)
  average_frac_coords : Structure -> list float;
  (* s.translate_sites(indices, vector) *)
  translate_sites : Structure -> list nat -> list float -> Structure;
  (* d["KPOINTS"].update(other) on a config dictionary *)
  kpoints_update : ConfigDict -> PyDict -> ConfigDict;
}.

Section Jobs.
Context `{Pymatgen}.

(** VASP input sets, as the constructor calls that make them.  An
    argument left out of a call is [None]; a dictionary argument is
    recorded with the contents it has when the call is made. *)
Inductive InputSet :=
  | MVLSlabSet (s : Structure) (bulk : option bool)
      (user_incar_settings : option PyDict)
  | MPRelaxSet (s : Structure) (user_incar_settings : option PyDict)
  | DictSet (s : Structure) (config_dict : ConfigDict).

(** The keyword arguments of [SlabTransformation]. *)
Record SlabTransParams := {
  p_miller_index : list Z;
  p_min_slab_size : float;
  p_min_vacuum_size : float;
  p_shift : float;
  p_center_slab : bool;
  p_max_normal_search : Z;
}.

(** One entry of a [transformation_params] list. *)
Inductive TransParams :=
  | SlabParams (p : SlabTransParams)
  (* {"scaling_matrix":
        SupercellTransformation.from_scaling_factors(a, b).scaling_matrix} *)
  | SupercellParams (scale_a scale_b : Z)
  | InsertSitesParams (species : list string) (coords : list (list float))
  | SitePropertyParams (props : PyDict).

(** Modelled from the spec: the job descriptors [OptimizeFW] and
    [TransmuterFW] of [matmethods.vasp.fireworks.core], which the module
    imports.  A job descriptor holds a name, a target structure, a
    transformation list with its parameters, an input set, the external
    command, the credentials path and its parent references.  A value is
    the constructor call with the arguments the builders pass. *)
Inductive Firework :=
  | OptimizeFW (structure : Structure) (vasp_input_set : InputSet)
      (vasp_cmd : string) (db_file : option string)
  | TransmuterFW (name : string) (structure : Structure)
      (transformations : list string)
      (transformation_params : list TransParams)
      (copy_vasp_outputs : bool) (db_file : option string)
      (vasp_cmd : string) (parents : Firework)
      (vasp_input_set : InputSet).

(** Modelled from the spec: the parent references of a job descriptor.
    [OptimizeFW] is called without [parents] and is the parentless root;
    [TransmuterFW] is called with one parent. *)
Definition fw_parents (fw : Firework) : list Firework :=
  match fw with
  | OptimizeFW _ _ _ _ => []
  | TransmuterFW _ _ _ _ _ _ _ p _ => [p]
  end.

(** The target structure of a job descriptor. *)
Definition fw_structure (fw : Firework) : Structure :=
  match fw with
  | OptimizeFW s _ _ _ => s
  | TransmuterFW _ s _ _ _ _ _ _ _ => s
  end.

Definition fw_transformations (fw : Firework) : list string :=
  match fw with
  | OptimizeFW _ _ _ _ => []
  | TransmuterFW _ _ ts _ _ _ _ _ _ => ts
  end.

Definition fw_transformation_params (fw : Firework) : list TransParams :=
  match fw with
  | OptimizeFW _ _ _ _ => []
  | TransmuterFW _ _ _ ps _ _ _ _ _ => ps
  end.

Definition fw_vasp_input_set (fw : Firework) : InputSet :=
  match fw with
  | OptimizeFW _ v _ _ => v
  | TransmuterFW _ _ _ _ _ _ _ _ v => v
  end.

(** The INCAR overrides an input set was built with. *)
Definition user_incar_settings_of (v : InputSet) : PyDict :=
  match v with
  | MVLSlabSet _ _ (Some d) | MPRelaxSet _ (Some d) => d
  | _ => ∅
  end.

(** The [center_slab] entries among the transformation parameters. *)
Definition fw_center_flags (fw : Firework) : list bool :=
  flat_map (fun p => match p with SlabParams q => [p_center_slab q] | _ => [] end)
    (fw_transformation_params fw).

(** [Workflow(fws, name=wfname)]. *)
Record Workflow := {
  fws : list Firework;
  wf_name : string;
}.

(** The jobs of the workflow a run returned (none when it raised). *)
Definition returned_jobs (r : Outcome Workflow * Interp) : list Firework :=
  match fst r with
  | Return wf => fws wf
  | Raise _ => []
  end.

(** The overrides of the job at index 1 of a run, the first slab job. *)
Definition slab_job_overrides (r : Outcome Workflow * Interp) : PyDict :=
  match returned_jobs r !! 1%nat with
  | Some fw => user_incar_settings_of (fw_vasp_input_set fw)
  | None => ∅
  end.

(** Running a job-descriptor constructor. *)
Definition new_fw (fw : Firework) : Py Firework :=
  fun st =>
    (Return fw,
     {| dicts := dicts st; fireworks_built := S (fireworks_built st) |}).

End Jobs.

(** What the builders read off an input set. *)
Class VaspSets `{Pymatgen} := {
  (* truth value of v.incar.get("LDAU", None) *)
  incar_LDAU : InputSet -> bool;
  (* v.config_dict *)
  config_dict_of : InputSet -> ConfigDict;
}.

(** ** [get_wf_adsorption] *)

Section Adsorption.
Context `{VaspSets} `{PyUnicode}.

(** The arguments of a call.  [adsorbate_config] lists the items of the
    dictionary (unique keys, in iteration order); [slab_incar_params] and
    [ads_incar_params] are references to dictionary objects, the two
    default objects when the caller leaves them out.  [slab_gen_config]
    is never read and is left out. *)
Record AdsorptionArgs := {
  structure : Structure;
  adsorbate_config : list (string * list Molecule);
  vasp_input_set : option InputSet;
  min_slab_size : float;
  min_vacuum_size : float;
  center_slab : bool;
  max_normal_search : Z;
  vasp_cmd : string;
  db_file : option string;
  conventional : bool;
  slab_incar_params : loc;
  ads_incar_params : loc;
  auto_dipole : bool;
}.

Definition config_keys (cfg : list (string * list Molecule)) : list string :=
  map fst cfg.

(** [cfg[k]], with [None] when [k not in cfg.keys()]. *)
Fixpoint config_get (cfg : list (string * list Molecule)) (k : string)
  : option (list Molecule) :=
  match cfg with
  | [] => None
  | (k', ms) :: cfg' => if String.eqb k' k then Some ms else config_get cfg' k
  end.

(** [''.join([str(i) for i in slab.miller_index])]. *)
Definition mi_string_of (slab : Slab) : string :=
  join (map py_str (miller_index slab)).

(** [max([int(i) for i in ''.join(adsorbate_config.keys())])]. *)
Definition compute_max_index (cfg : list (string * list Molecule)) : Py Z :=
  let! digits := py_map py_int (code_points (join (config_keys cfg))) in
  py_max digits.

Definition dipole_dict : PyDict :=
  {[ "LDIPOL" := PyStr "True";
     "IDIPOL" := PyInt 3;
     "DIPOL" := PyList [PyInt 0; PyInt 0; PyFloatV float_lit_0_5] ]}.

Definition trans_ads : list string :=
  ["SlabTransformation"; "SupercellTransformation";
   "InsertSitesTransformation"; "AddSitePropertyTransformation"].

(** [site.properties["surface_properties"] == "adsorbate"]. *)
Definition is_adsorbate_site (site : Site) : Py bool :=
  let! v := py_getitem (properties site) "surface_properties" in
  ret (py_eq_str v "adsorbate").

(** Body of [for struct in structures] (lines 173-201). *)
Definition adsorbate_step (a : AdsorptionArgs) (structure : Structure)
    (slab : Slab) (slab_trans_params : SlabTransParams) (mi_string : string)
    (molecule : Molecule) (fws : list Firework) (struct : Structure)
  : Py (list Firework) :=
  let struct := get_sorted_structure struct in
  let ads_fw_name :=
    molecule_formula molecule +:+ "-" +:+ reduced_formula structure +:+ "_"
      +:+ mi_string +:+ " adsorbate optimization" in
  let struct :=
    add_site_property struct "velocities"
      (replicate (num_sites struct)
         (PyList [PyFloatV float_lit_0; PyFloatV float_lit_0; PyFloatV float_lit_0])) in
  let scale_a :=
    py_round (float_div (lattice_a struct) (lattice_a (slab_structure slab))) in
  let scale_b :=
    py_round (float_div (lattice_b struct) (lattice_b (slab_structure slab))) in
  let! ads_sites := py_filter is_adsorbate_site (sites struct) in
  let trans_ads_params :=
    [SlabParams slab_trans_params;
     SupercellParams scale_a scale_b;
     InsertSitesParams (map species_string ads_sites) (map frac_coords ads_sites);
     SitePropertyParams (site_properties struct)] in
  let! ads_incar := read_dict (ads_incar_params a) in
  let vis_ads := MVLSlabSet structure None (Some ads_incar) in
  let! parent := py_index fws 0 in
  let! fw := new_fw (TransmuterFW ads_fw_name structure trans_ads trans_ads_params
                       true (db_file a) (vasp_cmd a) parent vis_ads) in
  ret (fws ++ [fw]).

(** Body of [for molecule in adsorbate_config[mi_string]] (lines 171-201). *)
Definition molecule_step (a : AdsorptionArgs) (structure : Structure)
    (slab : Slab) (slab_trans_params : SlabTransParams) (mi_string : string)
    (fws : list Firework) (molecule : Molecule) : Py (list Firework) :=
  let structures := generate_adsorption_structures slab molecule in
  py_for structures fws
    (adsorbate_step a structure slab slab_trans_params mi_string molecule).

(** Body of [for slab in slabs] (lines 135-201). *)
Definition slab_step (a : AdsorptionArgs) (structure : Structure)
    (fws : list Firework) (slab : Slab) : Py (list Firework) :=
  let mi_string := mi_string_of slab in
  match config_get (adsorbate_config a) mi_string with
  | None => ret fws
  | Some molecules =>
      run! (if auto_dipole a then
              run! dict_update (slab_incar_params a) dipole_dict in
              dict_update (ads_incar_params a) dipole_dict
            else ret tt) in
      let slab_trans_params :=
        {| p_miller_index := miller_index slab;
           p_min_slab_size := min_slab_size a;
           p_min_vacuum_size := min_vacuum_size a;
           p_shift := shift slab;
           p_center_slab := true;
           p_max_normal_search := max_normal_search a |} in
      let fw_name :=
        reduced_formula (slab_structure slab) +:+ "_" +:+ mi_string
          +:+ " slab optimization" in
      let! slab_incar := read_dict (slab_incar_params a) in
      let vis_slab := MVLSlabSet (slab_structure slab) None (Some slab_incar) in
      let! parent := py_index fws 0 in
      let! fw := new_fw (TransmuterFW fw_name structure ["SlabTransformation"]
                           [SlabParams slab_trans_params]
                           true (db_file a) (vasp_cmd a) parent vis_slab) in
      py_for molecules (fws ++ [fw])
        (molecule_step a structure slab slab_trans_params mi_string)
  end.

(** Body of [for key in adsorbate_config.keys()] (lines 130-132); the
    loop carries no variable. *)
Definition check_key (mi_strings : list string) (_ : unit) (key : string) : Py unit :=
  if bool_decide (key ∈ mi_strings) then ret tt
  else raise (ValueError_miller mi_strings).

(** Lines 127-203: everything after the slabs are enumerated. *)
Definition jobs_from_slabs (a : AdsorptionArgs) (structure : Structure)
    (fws : list Firework) (slabs : list Slab) : Py Workflow :=
  let mi_strings := map mi_string_of slabs in
  run! py_for (config_keys (adsorbate_config a)) tt (check_key mi_strings) in
  let! fws := py_for slabs fws (slab_step a structure) in
  let wfname := reduced_formula structure +:+ ":" +:+ "Adsorbate calculations" in
  ret {| fws := fws; wf_name := wfname |}.

(** Lines 110-113. *)
Definition normalized_structure (a : AdsorptionArgs) : Structure :=
  if conventional a then get_conventional_standard_structure (structure a)
  else structure a.

Definition bulk_input_set (a : AdsorptionArgs) : InputSet :=
  match vasp_input_set a with
  | Some v => v
  | None => MVLSlabSet (normalized_structure a) (Some true) None
  end.

(** Lines 114-116. *)
Definition ldau_defaults (a : AdsorptionArgs) (v : InputSet) : Py unit :=
  if negb (incar_LDAU v) then
    run! dict_update (ads_incar_params a) {[ "LDAU" := PyBool false ]} in
    dict_update (slab_incar_params a) {[ "LDAU" := PyBool false ]}
  else ret tt.

Definition get_wf_adsorption (a : AdsorptionArgs) : Py Workflow :=
  let structure := normalized_structure a in
  let v := bulk_input_set a in
  run! ldau_defaults a v in
  let fws := [] in
  let! bulk := new_fw (OptimizeFW structure v (vasp_cmd a) (db_file a)) in
  let fws := fws ++ [bulk] in
  let! max_index := compute_max_index (adsorbate_config a) in
  let slabs :=
    generate_decorated_slabs structure max_index (min_slab_size a)
      (min_vacuum_size a) (max_normal_search a) (center_slab a) in
  jobs_from_slabs a structure fws slabs.

End Adsorption.

(** ** [get_wf_molecules] *)

Section Molecules.
Context `{VaspSets} `{PyUnicode}.

(** Body of [for molecule, vis in zip(molecules, vasp_input_sets)]
    (lines 229-240).  The update of [v.config_dict["KPOINTS"]] is made in
    place; the model keeps the dictionary handed on to [DictSet]. *)
Definition molecule_job_step (min_vacuum_size : float) (vasp_cmd : string)
    (db_file : option string) (fws : list Firework)
    (mv : Molecule * option InputSet) : Py (list Firework) :=
  let (molecule, vis) := mv in
  let m_struct := cubic_cell_structure min_vacuum_size molecule in
  let m_struct :=
    translate_sites m_struct (seq 0 (num_sites m_struct))
      (zip_with float_sub (replicate 3 float_lit_0_5)
         (average_frac_coords m_struct)) in
  let v :=
    match vis with
    | Some v => v
    | None =>
        MPRelaxSet m_struct
          (Some {[ "ISMEAR" := PyInt 0; "IBRION" := PyInt 5; "ISIF" := PyInt 2 ]})
    end in
  let cfg := kpoints_update (config_dict_of v) {[ "reciprocal_density" := PyInt 1 ]} in
  let v := DictSet m_struct cfg in
  let! fw := new_fw (OptimizeFW m_struct v vasp_cmd db_file) in
  ret (fws ++ [fw]).

(** [vasp_input_sets or [None for m in molecules]]: [None] and the empty
    list are both false. *)
Definition input_sets_or_none (molecules : list Molecule)
    (vasp_input_sets : option (list (option InputSet)))
  : list (option InputSet) :=
  match vasp_input_sets with
  | Some (v :: vs) => v :: vs
  | _ => map (fun _ => None) molecules
  end.

Definition get_wf_molecules (molecules : list Molecule)
    (vasp_input_sets : option (list (option InputSet)))
    (min_vacuum_size : float) (vasp_cmd : string) (db_file : option string)
  : Py Workflow :=
  let fws := [] in
  let vasp_input_sets := input_sets_or_none molecules vasp_input_sets in
  let! fws := py_for (zip molecules vasp_input_sets) fws
                (molecule_job_step min_vacuum_size vasp_cmd db_file) in
  let wfname := "Molecule calculations" in
  ret {| fws := fws; wf_name := wfname |}.

End Molecules.



(** ** Reference behaviour of [get_wf_adsorption]

    The jobs a returning call is expected to hold after the bulk job, in
    build order, and the condition under which a call returns. *)

Section Plan.
Context `{VaspSets} `{PyUnicode}.

(** Outcome of the [max_index] computation; it reads no state. *)
Definition max_index_of (cfg : list (string * list Molecule)) : Outcome Z :=
  fst (compute_max_index cfg fresh_interp).

(** The slabs a call enumerates (none when [max_index] raises). *)
Definition generated_slabs (a : AdsorptionArgs) : list Slab :=
  match max_index_of (adsorbate_config a) with
  | Return m =>
      generate_decorated_slabs (normalized_structure a) m (min_slab_size a)
        (min_vacuum_size a) (max_normal_search a) (center_slab a)
  | Raise _ => []
  end.

Definition generated_mi_strings (a : AdsorptionArgs) : list string :=
  map mi_string_of (generated_slabs a).

(** The bulk relaxation job. *)
Definition bulk_job (a : AdsorptionArgs) : Firework :=
  OptimizeFW (normalized_structure a) (bulk_input_set a) (vasp_cmd a) (db_file a).

(** The bulk job sits at index 0 of the job list. *)
Definition rooted (a : AdsorptionArgs) (fws : list Firework) : Prop :=
  fws !! 0%nat = Some (bulk_job a).

Inductive JobPlan :=
  | SlabJob (slab : Slab)
  | AdsorbateJob (slab : Slab) (molecule : Molecule) (struct : Structure).

Definition slab_plan (a : AdsorptionArgs) (slab : Slab) : list JobPlan :=
  match config_get (adsorbate_config a) (mi_string_of slab) with
  | None => []
  | Some molecules =>
      SlabJob slab ::
      flat_map (fun molecule =>
                  map (AdsorbateJob slab molecule)
                    (generate_adsorption_structures slab molecule))
        molecules
  end.

Definition job_plan (a : AdsorptionArgs) (slabs : list Slab) : list JobPlan :=
  flat_map (slab_plan a) slabs.

(** The candidate structure as the job sees it: sorted, with zero
    velocities attached. *)
Definition prepared (struct : Structure) : Structure :=
  let s := get_sorted_structure struct in
  add_site_property s "velocities"
    (replicate (num_sites s)
       (PyList [PyFloatV float_lit_0; PyFloatV float_lit_0; PyFloatV float_lit_0])).

(** A site flagged as adsorbate. *)
Definition adsorbate_tagged (site : Site) : bool :=
  match properties site !! "surface_properties" with
  | Some v => py_eq_str v "adsorbate"
  | None => false
  end.

Definition has_surface_tag (site : Site) : bool :=
  bool_decide (is_Some (properties site !! "surface_properties")).

(** The slab-cut parameters the code attaches to the jobs of [slab]. *)
Definition slab_cut_params (a : AdsorptionArgs) (slab : Slab) : SlabTransParams :=
  {| p_miller_index := miller_index slab;
     p_min_slab_size := min_slab_size a;
     p_min_vacuum_size := min_vacuum_size a;
     p_shift := shift slab;
     p_center_slab := true;
     p_max_normal_search := max_normal_search a |}.

(** The four parameter dictionaries of an adsorbate job. *)
Definition adsorbate_chain_params (a : AdsorptionArgs) (slab : Slab)
    (struct : Structure) : list TransParams :=
  let s := prepared struct in
  let ads_sites := filter (fun site => adsorbate_tagged site = true) (sites s) in
  [SlabParams (slab_cut_params a slab);
   SupercellParams
     (py_round (float_div (lattice_a s) (lattice_a (slab_structure slab))))
     (py_round (float_div (lattice_b s) (lattice_b (slab_structure slab))));
   InsertSitesParams (map species_string ads_sites) (map frac_coords ads_sites);
   SitePropertyParams (site_properties s)].

(** [fw] is the job built for plan entry [p]; only the contents of the
    INCAR overrides at the time of the call are left open. *)
Definition realizes (a : AdsorptionArgs) (p : JobPlan) (fw : Firework) : Prop :=
  match p with
  | SlabJob slab =>
      exists d,
        fw = TransmuterFW
               (reduced_formula (slab_structure slab) +:+ "_" +:+ mi_string_of slab
                  +:+ " slab optimization")
               (normalized_structure a) ["SlabTransformation"]
               [SlabParams (slab_cut_params a slab)]
               true (db_file a) (vasp_cmd a) (bulk_job a)
               (MVLSlabSet (slab_structure slab) None (Some d))
  | AdsorbateJob slab molecule struct =>
      exists d,
        fw = TransmuterFW
               (molecule_formula molecule +:+ "-"
                  +:+ reduced_formula (normalized_structure a) +:+ "_"
                  +:+ mi_string_of slab +:+ " adsorbate optimization")
               (normalized_structure a) trans_ads
               (adsorbate_chain_params a slab struct)
               true (db_file a) (vasp_cmd a) (bulk_job a)
               (MVLSlabSet (normalized_structure a) None (Some d))
  end.

(** Every site of every candidate built for a requested slab carries the
    ["surface_properties"] tag. *)
Definition plan_entry_tagged (p : JobPlan) : bool :=
  match p with
  | SlabJob _ => true
  | AdsorbateJob _ _ struct => forallb has_surface_tag (sites (prepared struct))
  end.

Definition candidates_tagged (a : AdsorptionArgs) (slabs : list Slab) : bool :=
  forallb plan_entry_tagged (job_plan a slabs).

(** The same condition for the candidates of one slab. *)
Definition slab_tagged (a : AdsorptionArgs) (slab : Slab) : bool :=
  match config_get (adsorbate_config a) (mi_string_of slab) with
  | Some molecules =>
      forallb
        (fun molecule =>
           forallb (fun struct => forallb has_surface_tag (sites (prepared struct)))
             (generate_adsorption_structures slab molecule))
        molecules
  | None => true
  end.

(** The call returns a workflow: [max_index] is defined, every requested
    key names a generated slab, and the candidates are tagged. *)
Definition valid_call (a : AdsorptionArgs) : bool :=
  match max_index_of (adsorbate_config a) with
  | Return _ =>
      forallb (fun key => bool_decide (key ∈ generated_mi_strings a))
        (config_keys (adsorbate_config a))
      && candidates_tagged a (generated_slabs a)
  | Raise _ => false
  end.

Definition is_adsorbate_plan (p : JobPlan) : bool :=
  match p with
  | AdsorbateJob _ _ _ => true
  | SlabJob _ => false
  end.

(** Candidate structures over the requested molecules of the matching
    slabs. *)
Definition candidate_count (a : AdsorptionArgs) (slabs : list Slab) : nat :=
  sum_list_with
    (fun slab =>
       match config_get (adsorbate_config a) (mi_string_of slab) with
       | Some molecules =>
           sum_list_with
             (fun molecule => length (generate_adsorption_structures slab molecule))
             molecules
       | None => 0%nat
       end)
    slabs.

(** Job kinds, read off the transformation list. *)
Definition is_slab_job (fw : Firework) : bool :=
  bool_decide (fw_transformations fw = ["SlabTransformation"]).

Definition is_adsorbate_job (fw : Firework) : bool :=
  bool_decide (fw_transformations fw = trans_ads).

Definition parentless (fw : Firework) : bool :=
  match fw_parents fw with
  | [] => true
  | _ => false
  end.

(** Digits of a string of ASCII decimal digits, and the largest of
    them. *)
Definition digit_values (s : string) : list Z :=
  map (fun c => Z.of_nat (nat_of_ascii c - 48)) (list_ascii_of_string s).

Definition is_max_digit (s : string) (m : Z) : Prop :=
  m ∈ digit_values s /\ Forall (fun d => d <= m) (digit_values s).

End Plan.

(** ** What a call does to the override dictionaries *)

Section Overrides.
Context `{VaspSets} `{PyUnicode}.

(** Contents of the dictionary object at [l]. *)
Definition dict_at (st : Interp) (l : loc) : PyDict := default ∅ (dicts st !! l).

(** An override dictionary holding [d] when the call starts, after lines
    114-116. *)
Definition with_ldau_default (a : AdsorptionArgs) (d : PyDict) : PyDict :=
  if negb (incar_LDAU (bulk_input_set a)) then {[ "LDAU" := PyBool false ]} ∪ d
  else d.

(** The same dictionary once a requested slab has been reached (lines
    138-146). *)
Definition overrides_after (a : AdsorptionArgs) (d : PyDict) : PyDict :=
  if auto_dipole a then dipole_dict ∪ with_ldau_default a d
  else with_ldau_default a d.

(** The job built for plan entry [p] when the slab and adsorbate
    overrides hold [ds] and [da]. *)
Definition planned_job (a : AdsorptionArgs) (ds da : PyDict) (p : JobPlan)
  : Firework :=
  match p with
  | SlabJob slab =>
      TransmuterFW
        (reduced_formula (slab_structure slab) +:+ "_" +:+ mi_string_of slab
           +:+ " slab optimization")
        (normalized_structure a) ["SlabTransformation"]
        [SlabParams (slab_cut_params a slab)]
        true (db_file a) (vasp_cmd a) (bulk_job a)
        (MVLSlabSet (slab_structure slab) None (Some ds))
  | AdsorbateJob slab molecule struct =>
      TransmuterFW
        (molecule_formula molecule +:+ "-"
           +:+ reduced_formula (normalized_structure a) +:+ "_"
           +:+ mi_string_of slab +:+ " adsorbate optimization")
        (normalized_structure a) trans_ads
        (adsorbate_chain_params a slab struct)
        true (db_file a) (vasp_cmd a) (bulk_job a)
        (MVLSlabSet (normalized_structure a) None (Some da))
  end.

(** The requested slabs among [slabs]. *)
Definition requested_slabs (a : AdsorptionArgs) (slabs : list Slab) : list Slab :=
  filter (fun slab => is_Some (config_get (adsorbate_config a) (mi_string_of slab)))
    slabs.

(** Lines 117-203, run once the LDAU defaults are written. *)
Definition after_defaults (a : AdsorptionArgs) : Py Workflow :=
  let structure := normalized_structure a in
  let! bulk := new_fw (bulk_job a) in
  let! max_index := compute_max_index (adsorbate_config a) in
  let slabs :=
    generate_decorated_slabs structure max_index (min_slab_size a)
      (min_vacuum_size a) (max_normal_search a) (center_slab a) in
  jobs_from_slabs a structure ([] ++ [bulk]) slabs.

(** The call with another [adsorbate_config]. *)
Definition with_config (a : AdsorptionArgs)
    (cfg : list (string * list Molecule)) : AdsorptionArgs :=
  {| structure := structure a;
     adsorbate_config := cfg;
     vasp_input_set := vasp_input_set a;
     min_slab_size := min_slab_size a;
     min_vacuum_size := min_vacuum_size a;
     center_slab := center_slab a;
     max_normal_search := max_normal_search a;
     vasp_cmd := vasp_cmd a;
     db_file := db_file a;
     conventional := conventional a;
     slab_incar_params := slab_incar_params a;
     ads_incar_params := ads_incar_params a;
     auto_dipole := auto_dipole a |}.

(** The job [get_wf_molecules] builds for one molecule and its input
    set (lines 229-240). *)
Definition molecule_job (min_vacuum_size : float) (vasp_cmd : string)
    (db_file : option string) (mv : Molecule * option InputSet) : Firework :=
  let m_struct := cubic_cell_structure min_vacuum_size (fst mv) in
  let m_struct :=
    translate_sites m_struct (seq 0 (num_sites m_struct))
      (zip_with float_sub (replicate 3 float_lit_0_5)
         (average_frac_coords m_struct)) in
  let v :=
    match snd mv with
    | Some v => v
    | None =>
        MPRelaxSet m_struct
          (Some {[ "ISMEAR" := PyInt 0; "IBRION" := PyInt 5; "ISIF" := PyInt 2 ]})
    end in
  OptimizeFW m_struct
    (DictSet m_struct
       (kpoints_update (config_dict_of v) {[ "reciprocal_density" := PyInt 1 ]}))
    vasp_cmd db_file.

(** The state between two slabs: each override dictionary holds either
    what lines 114-116 left or what the first requested slab made of
    it. *)
Definition between_slabs (a : AdsorptionArgs) (d0s d0a : PyDict) (st : Interp)
  : Prop :=
  (dict_at st (slab_incar_params a) = with_ldau_default a d0s
   \/ dict_at st (slab_incar_params a) = overrides_after a d0s)
  /\ (dict_at st (ads_incar_params a) = with_ldau_default a d0a
      \/ dict_at st (ads_incar_params a) = overrides_after a d0a).

(** The state once a requested slab has been reached. *)
Definition settled (a : AdsorptionArgs) (d0s d0a : PyDict) (st : Interp) : Prop :=
  dict_at st (slab_incar_params a) = overrides_after a d0s
  /\ dict_at st (ads_incar_params a) = overrides_after a d0a.

(** The slab a plan entry belongs to. *)
Definition plan_slab (p : JobPlan) : Slab :=
  match p with
  | SlabJob slab => slab
  | AdsorbateJob slab _ _ => slab
  end.

(** A property of the store that job construction and the four updates
    of the override dictionaries keep. *)
Definition kept_by_call (a : AdsorptionArgs) (P : Interp -> Prop) : Prop :=
  (forall st n, P st -> P {| dicts := dicts st; fireworks_built := n |})
  /\ (forall st l o,
        l = slab_incar_params a \/ l = ads_incar_params a ->
        o = {[ "LDAU" := PyBool false ]} \/ o = dipole_dict ->
        P st -> P (snd (dict_update l o st))).

End Overrides.

(** ** A concrete pymatgen: palladium with hydrogen

    A small executable instance of the interfaces, after the module's own
    [__main__] block (bulk Pd, an H2 molecule, the (111) surface).
    Floats are exact rationals; [round] is to the nearest integer, ties
    to even. *)

Module Demo.

Definition q_round (x : Q) : Z :=
  let f := Qfloor x in
  match Qcompare (x - inject_Z f) (1 # 2) with
  | Lt => f
  | Gt => f + 1
  | Eq => if Z.even f then f else f + 1
  end.

#[export] Instance q_float : PyFloat := {|
  float := Q;
  float_div := Qdiv;
  float_sub := Qminus;
  py_round := q_round;
  float_lit_0 := 0%Q;
  float_lit_0_5 := (1 # 2)%Q;
|}.

Record site := {
  s_species : string;
  s_frac : list Q;
  s_props : PyDict;
}.

Record crystal := {
  c_formula : string;
  c_a : Q;
  c_b : Q;
  c_sites : list site;
}.

Record slab := {
  sl_crystal : crystal;
  sl_miller : list Z;
  sl_shift : Q;
}.

Record molecule := {
  m_formula : string;
  m_atoms : list (string * list Q);    (* species, cartesian coordinates *)
}.

Definition tagged (tag : string) (sp : string) (xyz : list Q) : site :=
  {| s_species := sp; s_frac := xyz;
     s_props := {[ "surface_properties" := PyStr tag ]} |}.

Definition set_prop (k : string) (vs : list PyVal) (c : crystal) : crystal :=
  {| c_formula := c_formula c; c_a := c_a c; c_b := c_b c;
     c_sites :=
       zip_with (fun s v =>
                   {| s_species := s_species s; s_frac := s_frac s;
                      s_props := <[ k := v ]> (s_props s) |})
         (c_sites c) vs |}.

(** Each property name of the first site with the values of all sites. *)
Definition props_of (c : crystal) : PyDict :=
  match c_sites c with
  | [] => ∅
  | s0 :: _ =>
      map_imap
        (fun k _ =>
           Some (PyList (map (fun s => default (PyStr "") (s_props s !! k)) (c_sites c))))
        (s_props s0)
  end.

(** Two distinct surfaces, (1,1,1) and (1,0,0), each kept when its
    indices do not exceed [max_index]. *)
Definition demo_slabs (c : crystal) (max_index : Z) (size vac : Q)
    (max_normal_search : Z) (center : bool) : list slab :=
  filter (fun sl => bool_decide (Forall (fun i => Z.abs i <= max_index) (sl_miller sl)))
    [ {| sl_crystal :=
           {| c_formula := c_formula c; c_a := c_a c; c_b := c_b c;
              c_sites := [tagged "surface" "Pd" [0; 0; 1 # 2]%Q] |};
         sl_miller := [1; 1; 1]; sl_shift := (1 # 2)%Q |};
      {| sl_crystal :=
           {| c_formula := c_formula c; c_a := c_a c; c_b := c_b c;
              c_sites := [tagged "surface" "Pd" [0; 0; 1 # 2]%Q] |};
         sl_miller := [1; 0; 0]; sl_shift := (1 # 4)%Q |} ].

(** One candidate per (slab, molecule): the molecule over the doubled
    surface cell. *)
Definition demo_candidates (sl : slab) (m : molecule) : list crystal :=
  [ {| c_formula := c_formula (sl_crystal sl) +:+ m_formula m;
       c_a := (2 * c_a (sl_crystal sl))%Q;
       c_b := (2 * c_b (sl_crystal sl))%Q;
       c_sites :=
         c_sites (sl_crystal sl)
           ++ map (fun at_ => tagged "adsorbate" (fst at_) (snd at_)) (m_atoms m) |} ].

(** [np.mod(x, 1)]: the coordinate brought back into [0, 1). *)
Definition wrap (x : Q) : Q := (x - inject_Z (Qfloor x))%Q.

Definition qsum (l : list Q) : Q := foldr Qplus 0%Q l.

Definition mean (l : list Q) : Q :=
  (qsum l / inject_Z (Z.of_nat (length l)))%Q.

(** Column [k] of [frac_coords]. *)
Definition axis (k : nat) (c : crystal) : list Q :=
  map (fun s => nth k (s_frac s) 0%Q) (c_sites c).

(** [np.average(s.frac_coords, axis=0)]: the mean of the fractional
    coordinates, axis by axis. *)
Definition centroid (c : crystal) : list Q :=
  map (fun k => mean (axis k c)) [0; 1; 2]%nat.

(** [s.translate_sites(indices, v)]: the sites listed in [indices] are
    moved by the fractional vector [v] and, [to_unit_cell] being left at
    its default, brought back into the unit cell. *)
Definition shift_sites (c : crystal) (indices : list nat) (v : list Q) : crystal :=
  {| c_formula := c_formula c; c_a := c_a c; c_b := c_b c;
     c_sites :=
       imap (fun i s =>
               if bool_decide (i ∈ indices) then
                 {| s_species := s_species s;
                    s_frac := map wrap (zip_with Qplus (s_frac s) v);
                    s_props := s_props s |}
               else s)
         (c_sites c) |}.

#[export] Instance demo_pymatgen : Pymatgen := {|
  Molecule := molecule; Structure := crystal; Slab := slab; Site := site;
  ConfigDict := PyDict;
  reduced_formula := c_formula;
  molecule_formula := m_formula;
  slab_structure := sl_crystal;
  miller_index := sl_miller;
  shift := sl_shift;
  lattice_a := c_a;
  lattice_b := c_b;
  sites := c_sites;
  num_sites := fun c => length (c_sites c);
  species_string := s_species;
  frac_coords := s_frac;
  properties := s_props;
  site_properties := props_of;
  add_site_property := fun c k vs => set_prop k vs c;
  get_sorted_structure := fun c => c;
  get_conventional_standard_structure := fun c => c;
  generate_decorated_slabs := demo_slabs;
  generate_adsorption_structures := demo_candidates;
  cubic_cell_structure := fun a m =>
    {| c_formula := m_formula m; c_a := a; c_b := a;
       c_sites := map (fun at_ => tagged "molecule" (fst at_) (map (fun x => x / a)%Q (snd at_)))
                    (m_atoms m) |};
  average_frac_coords := centroid;
  translate_sites := shift_sites;
  kpoints_update := fun d other => other ∪ d;
|}.

(** The preset input sets carry no Hubbard-U flag unless the caller's
    overrides set one. *)
#[export] Instance demo_sets : VaspSets := {|
  incar_LDAU := fun v =>
    match v with
    | MVLSlabSet _ _ (Some d) | MPRelaxSet _ (Some d) =>
        match d !! "LDAU" with Some (PyBool true) => true | _ => false end
    | _ => false
    end;
  config_dict_of := fun v =>
    match v with
    | MVLSlabSet _ _ (Some d) | MPRelaxSet _ (Some d) => d
    | _ => ∅
    end;
|}.

(** The decimal digits of three Unicode blocks: ASCII, Arabic-Indic
    (U+0660 to U+0669) and fullwidth (U+FF10 to U+FF19). *)
Definition demo_decimal (c : N) : option Z :=
  if ((48 <=? c) && (c <=? 57))%N then Some (Z.of_N c - 48)
  else if ((1632 <=? c) && (c <=? 1641))%N then Some (Z.of_N c - 1632)
  else if ((65296 <=? c) && (c <=? 65305))%N then Some (Z.of_N c - 65296)
  else None.

Lemma demo_decimal_range (c : N) (d : Z) :
  demo_decimal c = Some d -> 0 <= d <= 9.
Proof.
  unfold demo_decimal.
  destruct (48 <=? c)%N eqn:H1, (c <=? 57)%N eqn:H2,
           (1632 <=? c)%N eqn:H3, (c <=? 1641)%N eqn:H4,
           (65296 <=? c)%N eqn:H5, (c <=? 65305)%N eqn:H6;
    simpl; intros [= <-];
    rewrite ?N.leb_le in *; lia.
Qed.

Lemma demo_decimal_ascii (c : N) :
  (c < 128)%N ->
  demo_decimal c
  = if ((48 <=? c) && (c <=? 57))%N then Some (Z.of_N c - 48) else None.
Proof.
  intros Hc. unfold demo_decimal.
  destruct ((48 <=? c) && (c <=? 57))%N; [done |].
  assert ((1632 <=? c)%N = false) as -> by (apply N.leb_gt; lia).
  assert ((65296 <=? c)%N = false) as -> by (apply N.leb_gt; lia).
  done.
Qed.

#[export] Instance demo_unicode : PyUnicode := {|
  unicode_decimal := demo_decimal;
  unicode_decimal_range := demo_decimal_range;
  unicode_decimal_ascii := demo_decimal_ascii;
|}.

Definition pd : crystal :=
  {| c_formula := "Pd"; c_a := (389 # 100)%Q; c_b := (389 # 100)%Q;
     c_sites := [tagged "bulk" "Pd" [0; 0; 0]%Q] |}.

Definition h2 : molecule :=
  {| m_formula := "H2";
     m_atoms := [("H", [35 # 100; 0; 0]%Q); ("H", [-(35 # 100); 0; 0]%Q)] |}.

(** Four hydrogen atoms on a line, 12 units from end to end. *)
Definition stretched_h4 : molecule :=
  {| m_formula := "H4";
     m_atoms := [("H", [0; 0; 0]%Q); ("H", [1; 0; 0]%Q);
                 ("H", [2; 0; 0]%Q); ("H", [12; 0; 0]%Q)] |}.

(** The key [111] written with fullwidth digits (U+FF11), in UTF-8. *)
Definition fullwidth_111 : string :=
  let one := String "239" (String "188" (String "145" EmptyString)) in
  one +:+ one +:+ one.

(** A molecule with at least one atom, each atom with three
    coordinates. *)
Definition has_atoms (m : molecule) : bool :=
  negb (bool_decide (m_atoms m = []))
  && forallb (fun at_ => bool_decide (length (snd at_) = 3%nat)) (m_atoms m).

(** Whether every atom of the molecule, in the cubic cell of edge [a],
    lies within half a cell edge of the centroid along each axis: at
    least [-1/2] and less than [1/2] from it in fractional coordinates,
    so that centring the molecule takes no coordinate out of [0, 1). *)
Definition fits_cell (a : Q) (m : molecule) : bool :=
  let s := cubic_cell_structure a m in
  forallb
    (fun k =>
       forallb
         (fun x =>
            Qle_bool (- (1 # 2)) (x - mean (axis k s))
            && negb (Qle_bool (1 # 2) (x - mean (axis k s))))
         (axis k s))
    [0; 1; 2]%nat.

(** The structure of the job of molecule [m]. *)
Definition centred (a : Q) (m : molecule) : crystal :=
  let s := cubic_cell_structure a m in
  translate_sites s (seq 0 (num_sites s))
    (zip_with float_sub (replicate 3 float_lit_0_5) (average_frac_coords s)).

(** What centring asks of the job built for molecule [m] in the cell of
    edge [a]. *)
Definition centred_job (a : Q) (m : molecule) (fw : Firework) : Prop :=
  let s0 := cubic_cell_structure a m in
  let t := zip_with Qminus [1 # 2; 1 # 2; 1 # 2]%Q (centroid s0) in
  let s := fw_structure fw in
  c_a s = a /\ c_b s = a
  /\ Forall2
       (fun site at_ =>
          s_species site = fst at_
          /\ Forall2 Qeq (s_frac site)
               (zip_with Qplus (map (fun x => x / a)%Q (snd at_)) t))
       (c_sites s) (m_atoms m)
  /\ Forall2 Qeq (centroid s) [1 # 2; 1 # 2; 1 # 2]%Q.

(** [get_wf_adsorption(pd, config, center_slab=.., auto_dipole=..,
    slab_incar_params=.., ads_incar_params=..)], the other arguments at
    their defaults. *)
Definition pd_args (config : list (string * list molecule))
    (center dipole : bool) (slab_params ads_params : loc) : AdsorptionArgs :=
  {| structure := pd;
     adsorbate_config := config;
     vasp_input_set := None;
     min_slab_size := 7%Q;
     min_vacuum_size := 12%Q;
     center_slab := center;
     max_normal_search := 1;
     vasp_cmd := "vasp";
     db_file := None;
     conventional := true;
     slab_incar_params := slab_params;
     ads_incar_params := ads_params;
     auto_dipole := dipole |}.

(** [get_wf_adsorption(pd, config)]. *)
Definition default_args (config : list (string * list molecule)) : AdsorptionArgs :=
  pd_args config true true default_slab_incar_params default_ads_incar_params.

(** [get_wf_adsorption(pd, config, auto_dipole=False)]. *)
Definition no_dipole_args (config : list (string * list molecule)) : AdsorptionArgs :=
  pd_args config true false default_slab_incar_params default_ads_incar_params.

(** [get_wf_adsorption(pd, config, center_slab=False)]. *)
Definition off_center_args (config : list (string * list molecule)) : AdsorptionArgs :=
  pd_args config false true default_slab_incar_params default_ads_incar_params.

End Demo.

(** * Properties *)

(** ** The builder monad and its loops *)

Section MonadFacts.
Context `{PyFloat}.

Lemma bind_Return {A B} (m : Py A) (k : A -> Py B) st b st' :
  bind m k st = (Return b, st') <->
  exists a st1, m st = (Return a, st1) /\ k a st1 = (Return b, st').
Proof.
  unfold bind. split.
  - destruct (m st) as [[a|e] st1]; [eauto | discriminate].
  - intros (a & st1 & -> & Hk). exact Hk.
Qed.

Lemma bind_eq_Return {A B} (m : Py A) (k : A -> Py B) st a st1 :
  m st = (Return a, st1) -> bind m k st = k a st1.
Proof. unfold bind. intros ->. reflexivity. Qed.

Lemma bind_eq_Raise {A B} (m : Py A) (k : A -> Py B) st e st1 :
  m st = (Raise e, st1) -> bind m k st = (Raise e, st1).
Proof. unfold bind. intros ->. reflexivity. Qed.

(** A loop that only appends: what it appends is described entry by
    entry by [tmpl], under an invariant [I] of the list that appending
    preserves. *)
Lemma py_for_appends {A B T} (R : T -> B -> Prop) (tmpl : A -> list T)
    (I : list B -> Prop) (body : list B -> A -> Py (list B)) :
  (forall acc new, I acc -> I (acc ++ new)) ->
  (forall x acc st acc' st',
      I acc -> body acc x st = (Return acc', st') ->
      exists new, acc' = acc ++ new /\ Forall2 R (tmpl x) new) ->
  forall l acc st acc' st',
    I acc -> py_for l acc body st = (Return acc', st') ->
    exists new, acc' = acc ++ new /\ Forall2 R (flat_map tmpl l) new.
Proof.
  intros Happ Hbody l.
  induction l as [|x l IH]; intros acc st acc' st' HI Hrun; simpl in *.
  - injection Hrun as <- <-. exists []. rewrite app_nil_r. split; [done | constructor].
  - apply bind_Return in Hrun. destruct Hrun as (acc1 & st1 & Hx & Hrest).
    destruct (Hbody _ _ _ _ _ HI Hx) as (new1 & -> & H1).
    destruct (IH _ _ _ _ (Happ _ new1 HI) Hrest) as (new2 & -> & H2).
    exists (new1 ++ new2). rewrite <- app_assoc. split; [done |].
    by apply Forall2_app.
Qed.

(** A loop returns when its body does on every element. *)
Lemma py_for_returns {A B} (P : A -> Prop) (I : B -> Prop)
    (body : B -> A -> Py B) :
  (forall x acc st,
      P x -> I acc -> exists acc' st', body acc x st = (Return acc', st') /\ I acc') ->
  forall l acc st,
    Forall P l -> I acc ->
    exists acc' st', py_for l acc body st = (Return acc', st') /\ I acc'.
Proof.
  intros Hbody l.
  induction l as [|x l IH]; intros acc st HP HI; simpl.
  - by exists acc, st.
  - apply Forall_cons in HP as [Hx Hl].
    destruct (Hbody x acc st Hx HI) as (acc1 & st1 & E1 & HI1).
    destruct (IH acc1 st1 Hl HI1) as (acc2 & st2 & E2 & HI2).
    exists acc2, st2. split; [| done].
    by rewrite (bind_eq_Return _ _ _ _ _ E1).
Qed.

(** The comprehension filter agrees with [filter] when it returns, and
    reads no state. *)
Lemma py_filter_pure {A} (c : A -> Py bool) (f : A -> bool) :
  (forall x st b st', c x st = (Return b, st') -> b = f x /\ st' = st) ->
  forall l st l' st',
    py_filter c l st = (Return l', st') ->
    l' = filter (fun x => f x = true) l /\ st' = st.
Proof.
  intros Hc l. induction l as [|x l IH]; intros st l' st' Hrun; simpl in *.
  - by injection Hrun as <- <-.
  - apply bind_Return in Hrun. destruct Hrun as (b & st1 & Hb & Hrun).
    apply bind_Return in Hrun. destruct Hrun as (ys & st2 & Hys & Hrun).
    injection Hrun as <- <-.
    destruct (Hc _ _ _ _ Hb) as [-> ->].
    destruct (IH _ _ _ Hys) as [-> ->].
    split; [| done].
    rewrite filter_cons. destruct (f x); by case_decide.
Qed.

Lemma py_filter_returns {A} (c : A -> Py bool) (f : A -> bool) (P : A -> Prop) :
  (forall x st, P x -> c x st = (Return (f x), st)) ->
  forall l st, Forall P l ->
    py_filter c l st = (Return (filter (fun x => f x = true) l), st).
Proof.
  intros Hc l. induction l as [|x l IH]; intros st HP; simpl.
  - done.
  - apply Forall_cons in HP as [Hx Hl].
    rewrite (bind_eq_Return _ _ _ _ _ (Hc x st Hx)).
    rewrite (bind_eq_Return _ _ _ _ _ (IH st Hl)).
    unfold ret. rewrite filter_cons. destruct (f x); by case_decide.
Qed.

(** A loop that returned ran its body to a return on every element. *)
Lemma py_for_Return_Forall {A B} (P : A -> Prop) (body : B -> A -> Py B) :
  (forall x acc st acc' st', body acc x st = (Return acc', st') -> P x) ->
  forall l acc st acc' st',
    py_for l acc body st = (Return acc', st') -> Forall P l.
Proof.
  intros Hbody l. induction l as [|x l IH]; intros acc st acc' st' Hrun.
  - constructor.
  - simpl in Hrun. apply bind_Return in Hrun as (acc1 & st1 & Hx & Hrest).
    constructor; [by eapply Hbody | by eapply IH].
Qed.

Lemma py_filter_Return_Forall {A} (P : A -> Prop) (c : A -> Py bool) :
  (forall x st b st', c x st = (Return b, st') -> P x) ->
  forall l st l' st', py_filter c l st = (Return l', st') -> Forall P l.
Proof.
  intros Hc l. induction l as [|x l IH]; intros st l' st' Hrun.
  - constructor.
  - simpl in Hrun. apply bind_Return in Hrun as (b & st1 & Hb & Hrun).
    apply bind_Return in Hrun as (ys & st2 & Hys & _).
    constructor; [by eapply Hc | by eapply IH].
Qed.

Lemma forallb_Forall {A} (f : A -> bool) (l : list A) :
  forallb f l = true <-> Forall (fun x => f x = true) l.
Proof.
  induction l as [|x l IH]; simpl.
  - split; [constructor | done].
  - rewrite andb_true_iff, IH, Forall_cons. done.
Qed.

Lemma forallb_flat_map {A B} (f : B -> bool) (g : A -> list B) (l : list A) :
  forallb f (flat_map g l) = forallb (fun x => forallb f (g x)) l.
Proof.
  induction l as [|x l IH]; simpl; [done |]. by rewrite forallb_app, IH.
Qed.

Lemma forallb_map {A B} (f : B -> bool) (g : A -> B) (l : list A) :
  forallb f (map g l) = forallb (fun x => f (g x)) l.
Proof. induction l as [|x l IH]; simpl; [done | by rewrite IH]. Qed.

End MonadFacts.

(** ** The [max_index] computation *)

Section MaxIndex.
Context `{VaspSets} `{PyUnicode}.

Lemma chars_app (s1 s2 : string) :
  list_ascii_of_string (s1 +:+ s2) = list_ascii_of_string s1 ++ list_ascii_of_string s2.
Proof. induction s1 as [|c s1 IH]; simpl; [done | by rewrite IH]. Qed.

Lemma all_digits_join (keys : list string) :
  Forall (fun key => all_digits key = true) keys -> all_digits (join keys) = true.
Proof.
  induction 1 as [|key keys Hk _ IH]; [done |].
  unfold all_digits in *. simpl. rewrite chars_app, forallb_app, Hk. exact IH.
Qed.

Lemma decode_utf8_ascii (bs : list N) :
  Forall (fun b => (b < 128)%N) bs -> decode_utf8 bs = bs.
Proof.
  induction 1 as [|b bs Hb _ IH]; [done |].
  simpl. apply N.ltb_lt in Hb. by rewrite Hb, IH.
Qed.

Lemma decode_utf8_nil (bs : list N) : decode_utf8 bs = [] -> bs = [].
Proof.
  destruct bs as [|b rest]; [done |]. simpl.
  destruct (b <? 128)%N; [done |].
  destruct rest as [|c1 r1]; [done |].
  destruct (two_bytes b c1); [done |].
  destruct r1 as [|c2 r2]; [done |].
  destruct (three_bytes b c1 c2); [done |].
  destruct r2 as [|c3 r3]; [done |].
  by destruct (four_bytes b c1 c2 c3).
Qed.

Lemma is_continuation_ge (b : N) : is_continuation b = true -> (128 <= b)%N.
Proof. unfold is_continuation. intros [Hlo _]%andb_prop. by apply N.leb_le. Qed.

Lemma two_bytes_ge (b c1 : N) : two_bytes b c1 = true -> (128 <= c1)%N.
Proof. unfold two_bytes. by intros [_ Hc1%is_continuation_ge]%andb_prop. Qed.

Lemma three_bytes_ge (b c1 c2 : N) :
  three_bytes b c1 c2 = true -> (128 <= c1)%N /\ (128 <= c2)%N.
Proof.
  unfold three_bytes.
  intros [[[[_ Hc1%is_continuation_ge]%andb_prop
              Hc2%is_continuation_ge]%andb_prop _]%andb_prop _]%andb_prop.
  done.
Qed.

Lemma four_bytes_ge (b c1 c2 c3 : N) :
  four_bytes b c1 c2 c3 = true -> (128 <= c1)%N /\ (128 <= c2)%N /\ (128 <= c3)%N.
Proof.
  unfold four_bytes.
  intros [[[[[_ Hc1%is_continuation_ge]%andb_prop
               Hc2%is_continuation_ge]%andb_prop
              Hc3%is_continuation_ge]%andb_prop _]%andb_prop _]%andb_prop.
  done.
Qed.

(** An ASCII byte of the encoding is a character of the text. *)
Lemma decode_utf8_keeps_ascii (bs : list N) (b : N) :
  b ∈ bs -> (b < 128)%N -> b ∈ decode_utf8 bs.
Proof.
  remember (length bs) as n eqn:Hn. revert bs Hn.
  induction n as [n IH] using lt_wf_ind. intros bs Hn Hin Hb.
  destruct bs as [|b0 rest]; [by apply elem_of_nil in Hin |].
  assert (Hrec : forall l, (length l < n)%nat -> b ∈ l -> b ∈ decode_utf8 l).
  { intros l Hl Hbl. by eapply IH. }
  simpl in Hn. cbn [decode_utf8].
  destruct (b0 <? 128)%N eqn:Hb0.
  { apply elem_of_cons in Hin as [-> | Hin]; [by left | right].
    apply Hrec; [lia | done]. }
  apply N.ltb_ge in Hb0.
  apply elem_of_cons in Hin as [-> | Hin]; [lia |].
  assert (Hesc : b ∈ escaped_byte b0 :: decode_utf8 rest).
  { right. apply Hrec; [lia | done]. }
  destruct rest as [|c1 r1]; [done |].
  destruct (two_bytes b0 c1) eqn:E2.
  { apply two_bytes_ge in E2.
    apply elem_of_cons in Hin as [-> | Hin]; [lia |].
    right. apply Hrec; [simpl in *; lia | done]. }
  destruct r1 as [|c2 r2]; [done |].
  destruct (three_bytes b0 c1 c2) eqn:E3.
  { apply three_bytes_ge in E3 as [Hc1 Hc2].
    apply elem_of_cons in Hin as [-> | Hin]; [lia |].
    apply elem_of_cons in Hin as [-> | Hin]; [lia |].
    right. apply Hrec; [simpl in *; lia | done]. }
  destruct r2 as [|c3 r3]; [done |].
  destruct (four_bytes b0 c1 c2 c3) eqn:E4; [| done].
  apply four_bytes_ge in E4 as (Hc1 & Hc2 & Hc3).
  apply elem_of_cons in Hin as [-> | Hin]; [lia |].
  apply elem_of_cons in Hin as [-> | Hin]; [lia |].
  apply elem_of_cons in Hin as [-> | Hin]; [lia |].
  right. apply Hrec; [simpl in *; lia | done].
Qed.

Lemma is_digit_code (c : ascii) :
  is_digit c = true ->
  (N_of_ascii c < 128)%N
  /\ unicode_decimal (N_of_ascii c) = Some (Z.of_nat (nat_of_ascii c - 48)).
Proof.
  unfold is_digit, nat_of_ascii. intros [Hlo Hhi]%andb_prop.
  apply Nat.leb_le in Hlo, Hhi.
  assert (Hc : (N_of_ascii c < 128)%N) by lia.
  split; [done |].
  rewrite (unicode_decimal_ascii _ Hc).
  assert (((48 <=? N_of_ascii c) && (N_of_ascii c <=? 57))%N = true) as ->.
  { apply andb_true_intro. split; apply N.leb_le; lia. }
  f_equal. lia.
Qed.

(** A string of ASCII digits has one character per byte. *)
Lemma code_points_digits (s : string) :
  all_digits s = true -> code_points s = map N_of_ascii (list_ascii_of_string s).
Proof.
  unfold all_digits, code_points. intros Hd. apply decode_utf8_ascii.
  apply Forall_forall. intros b Hb.
  apply list_elem_of_fmap in Hb as (c & -> & Hc).
  rewrite forallb_forall in Hd.
  by apply is_digit_code, Hd, list_elem_of_In.
Qed.

Lemma py_int_decimal (c : N) (d : Z) (st : Interp) :
  unicode_decimal c = Some d -> py_int c st = (Return d, st).
Proof. unfold py_int. by intros ->. Qed.

Lemma py_int_other (c : N) (st : Interp) :
  unicode_decimal c = None -> py_int c st = (Raise (ValueError_int c), st).
Proof. unfold py_int. by intros ->. Qed.

(** The comprehension [[int(i) for i in s]] on decimal digits. *)
Lemma py_map_int_decimal (cs : list N) (ds : list Z) (st : Interp) :
  map unicode_decimal cs = map Some ds ->
  py_map py_int cs st = (Return ds, st).
Proof.
  revert ds. induction cs as [|c cs IH]; intros [|d ds] Hmap; try discriminate.
  - done.
  - simpl in Hmap. injection Hmap as Hc Hcs. simpl.
    rewrite (bind_eq_Return _ _ _ _ _ (py_int_decimal c d st Hc)).
    by rewrite (bind_eq_Return _ _ _ _ _ (IH _ Hcs)).
Qed.

Lemma py_map_int_digits (s : string) (st : Interp) :
  all_digits s = true ->
  py_map py_int (code_points s) st = (Return (digit_values s), st).
Proof.
  intros Hd. apply py_map_int_decimal.
  rewrite (code_points_digits _ Hd). unfold digit_values, all_digits in *.
  induction (list_ascii_of_string s) as [|c cs IH]; [done |].
  simpl in Hd. apply andb_prop in Hd as [Hc Hcs].
  simpl. rewrite (IH Hcs). f_equal. by apply is_digit_code.
Qed.

(** It raises on the first character that is not a decimal digit. *)
Lemma py_map_int_raises (cs1 cs2 : list N) (c : N) (st : Interp) :
  Forall (fun x => is_Some (unicode_decimal x)) cs1 ->
  unicode_decimal c = None ->
  py_map py_int (cs1 ++ c :: cs2) st = (Raise (ValueError_int c), st).
Proof.
  intros Hcs1 Hc. induction Hcs1 as [|c1 cs1 [d Hd] _ IH]; simpl.
  - by rewrite (bind_eq_Raise _ _ _ _ _ (py_int_other c st Hc)).
  - rewrite (bind_eq_Return _ _ _ _ _ (py_int_decimal c1 d st Hd)).
    by rewrite (bind_eq_Raise _ _ _ _ _ IH).
Qed.

Lemma py_map_int_stateless (cs : list N) :
  exists o, forall st : Interp, py_map py_int cs st = (o, st).
Proof.
  induction cs as [|c cs [o IH]]; simpl.
  - by eexists.
  - destruct (unicode_decimal c) as [d|] eqn:Hc.
    + destruct o as [ds|e].
      * eexists. intros st.
        rewrite (bind_eq_Return _ _ _ _ _ (py_int_decimal c d st Hc)).
        by rewrite (bind_eq_Return _ _ _ _ _ (IH st)).
      * eexists. intros st.
        rewrite (bind_eq_Return _ _ _ _ _ (py_int_decimal c d st Hc)).
        by rewrite (bind_eq_Raise _ _ _ _ _ (IH st)).
    + eexists. intros st.
      by rewrite (bind_eq_Raise _ _ _ _ _ (py_int_other c st Hc)).
Qed.

Lemma compute_max_index_stateless (cfg : list (string * list Molecule)) (st : Interp) :
  compute_max_index cfg st = (max_index_of cfg, st).
Proof.
  unfold max_index_of, compute_max_index.
  destruct (py_map_int_stateless (code_points (join (config_keys cfg))))
    as [o Ho].
  unfold bind. rewrite !Ho.
  destruct o as [ds|e]; [| done].
  by destruct ds.
Qed.

Lemma fold_left_max_spec (l : list Z) (x : Z) :
  fold_left Z.max l x ∈ x :: l /\ Forall (fun d => d <= fold_left Z.max l x) (x :: l).
Proof.
  revert x. induction l as [|y l IH]; intros x; simpl.
  - split; [by left | by repeat constructor].
  - destruct (IH (Z.max x y)) as [Hin Hall].
    apply Forall_cons in Hall as [Hxy Hl].
    split.
    + apply elem_of_cons in Hin as [-> | Hin].
      * destruct (Z.max_spec x y) as [[_ ->] | [_ ->]];
          [right; by left | by left].
      * by do 2 right.
    + repeat constructor; [lia | lia | done].
Qed.

Lemma is_max_digit_unique (s : string) (m m' : Z) :
  is_max_digit s m -> is_max_digit s m' -> m = m'.
Proof.
  intros [Hin Hle] [Hin' Hle'].
  rewrite Forall_forall in Hle, Hle'.
  specialize (Hle _ Hin'). specialize (Hle' _ Hin). lia.
Qed.

(** On digit keys with at least one digit, [max_index] is the largest
    digit of the joined keys. *)
Lemma max_index_of_digits (cfg : list (string * list Molecule)) :
  all_digits (join (config_keys cfg)) = true ->
  join (config_keys cfg) <> "" ->
  exists m, max_index_of cfg = Return m /\ is_max_digit (join (config_keys cfg)) m.
Proof.
  intros Hd Hne. unfold max_index_of, compute_max_index, is_max_digit.
  unfold bind. rewrite (py_map_int_digits _ _ Hd). unfold digit_values.
  destruct (list_ascii_of_string (join (config_keys cfg))) as [|c cs] eqn:E.
  - destruct (join (config_keys cfg)); [done | discriminate].
  - simpl. eexists. split; [done |]. apply fold_left_max_spec.
Qed.

Lemma max_index_of_max_digit (cfg : list (string * list Molecule)) (m : Z) :
  all_digits (join (config_keys cfg)) = true ->
  is_max_digit (join (config_keys cfg)) m ->
  max_index_of cfg = Return m.
Proof.
  intros Hd Hm.
  destruct (max_index_of_digits cfg Hd) as (m' & E & Hm').
  - intros E. destruct Hm as [Hin _]. unfold digit_values in Hin.
    rewrite E in Hin. by apply elem_of_nil in Hin.
  - by rewrite (is_max_digit_unique _ _ _ Hm Hm').
Qed.

(** No key at all: [max] is applied to the empty list. *)
Lemma max_index_of_empty : max_index_of [] = Raise ValueError_max_empty.
Proof. reflexivity. Qed.

End MaxIndex.

(** ** The loops of [get_wf_adsorption] *)

Section AdsorptionFacts.
Context `{VaspSets} `{PyUnicode}.

Implicit Types (a : AdsorptionArgs) (st : Interp) (fws : list Firework).

Lemma rooted_app a fws new : rooted a fws -> rooted a (fws ++ new).
Proof. unfold rooted. intros Hr. by rewrite lookup_app_l_Some with (x := bulk_job a). Qed.

Lemma py_index_rooted a fws st :
  rooted a fws -> py_index fws 0 st = (Return (bulk_job a), st).
Proof. unfold rooted, py_index. by intros ->. Qed.

Lemma is_adsorbate_site_pure (site : Site) st b st' :
  is_adsorbate_site site st = (Return b, st') -> b = adsorbate_tagged site /\ st' = st.
Proof.
  unfold is_adsorbate_site, adsorbate_tagged, py_getitem, bind.
  destruct (properties site !! "surface_properties"); simpl; [| discriminate].
  by intros [= <- <-].
Qed.

Lemma is_adsorbate_site_returns (site : Site) st :
  has_surface_tag site = true ->
  is_adsorbate_site site st = (Return (adsorbate_tagged site), st).
Proof.
  unfold has_surface_tag, is_adsorbate_site, adsorbate_tagged, py_getitem, bind.
  intros [v ->]%bool_decide_eq_true. done.
Qed.

(** One candidate structure appends one adsorbate job. *)
Lemma adsorbate_step_spec a slab molecule fws struct st fws' st' :
  rooted a fws ->
  adsorbate_step a (normalized_structure a) slab (slab_cut_params a slab)
    (mi_string_of slab) molecule fws struct st = (Return fws', st') ->
  exists new, fws' = fws ++ new
              /\ Forall2 (realizes a) [AdsorbateJob slab molecule struct] new.
Proof.
  intros Hroot Hrun. unfold adsorbate_step in Hrun.
  apply bind_Return in Hrun as (ads_sites & st1 & Hsites & Hrun).
  apply (py_filter_pure _ adsorbate_tagged is_adsorbate_site_pure) in Hsites
    as [-> ->].
  apply bind_Return in Hrun as (d & st2 & Hd & Hrun).
  injection Hd as <- <-.
  rewrite (bind_eq_Return _ _ _ _ _ (py_index_rooted _ _ _ Hroot)) in Hrun.
  apply bind_Return in Hrun as (fw & st3 & Hfw & Hrun).
  injection Hfw as <- <-. injection Hrun as <- <-.
  eexists. split; [done |].
  repeat constructor. by eexists.
Qed.

Lemma adsorbate_step_returns a slab molecule fws struct st :
  forallb has_surface_tag (sites (prepared struct)) = true ->
  rooted a fws ->
  exists fws' st',
    adsorbate_step a (normalized_structure a) slab (slab_cut_params a slab)
      (mi_string_of slab) molecule fws struct st = (Return fws', st')
    /\ rooted a fws'.
Proof.
  intros Htag Hroot. unfold adsorbate_step.
  rewrite forallb_forall in Htag.
  assert (Hall : Forall (fun site => has_surface_tag site = true) (sites (prepared struct))).
  { apply Forall_forall. intros site Hin. apply Htag. by apply list_elem_of_In. }
  rewrite (bind_eq_Return _ _ _ _ _
             (py_filter_returns _ adsorbate_tagged _ is_adsorbate_site_returns _ st Hall)).
  unfold read_dict at 1. unfold bind at 1.
  rewrite (bind_eq_Return _ _ _ _ _ (py_index_rooted _ _ _ Hroot)).
  unfold new_fw, bind, ret.
  do 2 eexists. split; [done |]. by apply rooted_app.
Qed.

Lemma flat_map_singleton {A B} (f : A -> B) (l : list A) :
  flat_map (fun x => [f x]) l = map f l.
Proof. induction l as [|x l IH]; simpl; [done | by rewrite IH]. Qed.

(** One requested molecule appends one job per candidate. *)
Lemma molecule_step_spec a slab fws molecule st fws' st' :
  rooted a fws ->
  molecule_step a (normalized_structure a) slab (slab_cut_params a slab)
    (mi_string_of slab) fws molecule st = (Return fws', st') ->
  exists new, fws' = fws ++ new
              /\ Forall2 (realizes a)
                   (map (AdsorbateJob slab molecule)
                      (generate_adsorption_structures slab molecule)) new.
Proof.
  intros Hroot Hrun. unfold molecule_step in Hrun.
  rewrite <- flat_map_singleton.
  eapply (py_for_appends (realizes a) _ (rooted a)); [| | exact Hroot | exact Hrun].
  - intros. by apply rooted_app.
  - intros struct acc s acc' s' Hacc Hstep. by eapply adsorbate_step_spec.
Qed.

Lemma molecule_step_returns a slab fws molecule st :
  Forall (fun struct => forallb has_surface_tag (sites (prepared struct)) = true)
    (generate_adsorption_structures slab molecule) ->
  rooted a fws ->
  exists fws' st',
    molecule_step a (normalized_structure a) slab (slab_cut_params a slab)
      (mi_string_of slab) fws molecule st = (Return fws', st')
    /\ rooted a fws'.
Proof.
  intros Htag Hroot. unfold molecule_step.
  eapply (py_for_returns _ (rooted a)); [| exact Htag | exact Hroot].
  intros struct acc s Hs Hacc. by apply adsorbate_step_returns.
Qed.

End AdsorptionFacts.

Section SlabLoop.
Context `{VaspSets} `{PyUnicode}.

Implicit Types (a : AdsorptionArgs) (st : Interp) (fws : list Firework).

(** Updates of the override dictionaries always return and build no job. *)
Lemma dict_update_run (l : loc) (other : PyDict) st :
  exists st1, dict_update l other st = (Return tt, st1)
              /\ fireworks_built st1 = fireworks_built st.
Proof. by eexists. Qed.

Lemma dict_update_twice_run (l1 l2 : loc) (d1 d2 : PyDict) (b : bool) st :
  exists st1,
    (if b then run! dict_update l1 d1 in dict_update l2 d2 else ret tt) st
    = (Return tt, st1)
    /\ fireworks_built st1 = fireworks_built st.
Proof. destruct b; by eexists. Qed.

Lemma ldau_defaults_run a (v : InputSet) st :
  exists st1, ldau_defaults a v st = (Return tt, st1)
              /\ fireworks_built st1 = fireworks_built st.
Proof.
  unfold ldau_defaults.
  destruct (dict_update_twice_run (ads_incar_params a) (slab_incar_params a)
              {[ "LDAU" := PyBool false ]} {[ "LDAU" := PyBool false ]}
              (negb (incar_LDAU v)) st) as (st1 & E & Hb).
  by exists st1.
Qed.

(** One slab: nothing when its Miller-index string is not requested,
    otherwise its slab job followed by its adsorbate jobs. *)
Lemma slab_step_spec a fws slab st fws' st' :
  rooted a fws ->
  slab_step a (normalized_structure a) fws slab st = (Return fws', st') ->
  exists new, fws' = fws ++ new /\ Forall2 (realizes a) (slab_plan a slab) new.
Proof.
  intros Hroot Hrun. unfold slab_step in Hrun. unfold slab_plan.
  destruct (config_get (adsorbate_config a) (mi_string_of slab)) as [molecules|].
  - apply bind_Return in Hrun as ([] & st1 & _ & Hrun).
    apply bind_Return in Hrun as (d & st2 & Hd & Hrun).
    injection Hd as <- <-.
    rewrite (bind_eq_Return _ _ _ _ _ (py_index_rooted _ _ _ Hroot)) in Hrun.
    apply bind_Return in Hrun as (fw & st3 & Hfw & Hrun).
    injection Hfw as <- <-.
    eapply (py_for_appends (realizes a)
              (fun molecule => map (AdsorbateJob slab molecule)
                                 (generate_adsorption_structures slab molecule))
              (rooted a)) in Hrun as (new & -> & Hnew).
    + eexists. rewrite <- app_assoc. split; [done |].
      simpl. constructor; [by eexists | done].
    + intros. by apply rooted_app.
    + intros molecule acc s acc' s' Hacc Hstep. by eapply molecule_step_spec.
    + by apply rooted_app.
  - injection Hrun as <- <-. exists []. by rewrite app_nil_r.
Qed.

(** The tag condition, slab by slab. *)
Lemma candidates_tagged_slabs a (slabs : list Slab) :
  candidates_tagged a slabs = forallb (slab_tagged a) slabs.
Proof.
  unfold candidates_tagged, job_plan. rewrite forallb_flat_map.
  induction slabs as [|slab slabs IH]; [done |].
  simpl. rewrite IH. f_equal.
  unfold slab_plan, slab_tagged.
  destruct (config_get (adsorbate_config a) (mi_string_of slab)) as [molecules|];
    [| done].
  simpl. rewrite forallb_flat_map.
  induction molecules as [|molecule molecules IHm]; [done |].
  simpl. by rewrite IHm, forallb_map.
Qed.

Lemma slab_step_returns a fws slab st :
  slab_tagged a slab = true ->
  rooted a fws ->
  exists fws' st',
    slab_step a (normalized_structure a) fws slab st = (Return fws', st')
    /\ rooted a fws'.
Proof.
  intros Htag Hroot. unfold slab_step. unfold slab_tagged in Htag.
  destruct (config_get (adsorbate_config a) (mi_string_of slab)) as [molecules|].
  - destruct (dict_update_twice_run (slab_incar_params a) (ads_incar_params a)
                dipole_dict dipole_dict (auto_dipole a) st) as (st1 & E1 & _).
    rewrite (bind_eq_Return _ _ _ _ _ E1).
    unfold read_dict at 1. unfold bind at 1.
    rewrite (bind_eq_Return _ _ _ _ _ (py_index_rooted _ _ _ Hroot)).
    unfold new_fw at 1. unfold bind at 1.
    apply forallb_Forall in Htag.
    eapply (py_for_returns _ (rooted a)); [| exact Htag |].
    + intros molecule acc s Hm Hacc. apply molecule_step_returns; [| done].
      by apply forallb_Forall.
    + by apply rooted_app.
  - by exists fws, st.
Qed.

(** The loop over the generated slabs. *)
Lemma slabs_loop_spec a fws slabs st fws' st' :
  rooted a fws ->
  py_for slabs fws (slab_step a (normalized_structure a)) st = (Return fws', st') ->
  exists new, fws' = fws ++ new /\ Forall2 (realizes a) (job_plan a slabs) new.
Proof.
  intros Hroot Hrun.
  eapply (py_for_appends (realizes a) (slab_plan a) (rooted a));
    [| | exact Hroot | exact Hrun].
  - intros. by apply rooted_app.
  - intros slab acc s acc' s' Hacc Hstep. by eapply slab_step_spec.
Qed.

Lemma slabs_loop_returns a fws slabs st :
  candidates_tagged a slabs = true ->
  rooted a fws ->
  exists fws' st',
    py_for slabs fws (slab_step a (normalized_structure a)) st = (Return fws', st').
Proof.
  rewrite candidates_tagged_slabs.
  revert fws st. induction slabs as [|slab slabs IH]; intros fws st Htag Hroot; simpl.
  - by exists fws, st.
  - simpl in Htag. apply andb_prop in Htag as [Hslab Hrest].
    destruct (slab_step_returns a fws slab st Hslab Hroot) as (fws1 & st1 & E1 & Hroot1).
    rewrite (bind_eq_Return _ _ _ _ _ E1). by apply IH.
Qed.

(** Conversely, the loops return only on tagged candidates. *)
Lemma is_adsorbate_site_Return (site : Site) st b st' :
  is_adsorbate_site site st = (Return b, st') -> has_surface_tag site = true.
Proof.
  unfold is_adsorbate_site, has_surface_tag, py_getitem, bind.
  destruct (properties site !! "surface_properties") eqn:E; [| discriminate].
  intros _. by apply bool_decide_eq_true.
Qed.

Lemma adsorbate_step_Return_tagged a (s0 : Structure) slab
    (q : SlabTransParams) (mi : string) molecule fws struct st fws' st' :
  adsorbate_step a s0 slab q mi molecule fws struct st = (Return fws', st') ->
  forallb has_surface_tag (sites (prepared struct)) = true.
Proof.
  unfold adsorbate_step. intros Hrun.
  apply bind_Return in Hrun as (ads_sites & st1 & Hsites & _).
  apply forallb_Forall.
  eapply py_filter_Return_Forall; [| exact Hsites].
  intros site s b s'. apply is_adsorbate_site_Return.
Qed.

Lemma slab_step_Return_tagged a (s0 : Structure) fws slab st fws' st' :
  slab_step a s0 fws slab st = (Return fws', st') -> slab_tagged a slab = true.
Proof.
  unfold slab_step, slab_tagged. intros Hrun.
  destruct (config_get (adsorbate_config a) (mi_string_of slab)) as [molecules|];
    [| done].
  apply bind_Return in Hrun as ([] & st1 & _ & Hrun).
  apply bind_Return in Hrun as (d & st2 & _ & Hrun).
  apply bind_Return in Hrun as (parent & st3 & _ & Hrun).
  apply bind_Return in Hrun as (fw & st4 & _ & Hrun).
  apply forallb_Forall.
  eapply py_for_Return_Forall; [| exact Hrun].
  intros molecule acc s acc' s' Hstep. unfold molecule_step in Hstep.
  apply forallb_Forall.
  eapply py_for_Return_Forall; [| exact Hstep].
  intros struct acc2 s2 acc2' s2'. apply adsorbate_step_Return_tagged.
Qed.

Lemma slabs_loop_Return_tagged a (s0 : Structure) fws slabs st fws' st' :
  py_for slabs fws (slab_step a s0) st = (Return fws', st') ->
  candidates_tagged a slabs = true.
Proof.
  intros Hrun. rewrite candidates_tagged_slabs. apply forallb_Forall.
  eapply py_for_Return_Forall; [| exact Hrun].
  intros slab acc s acc' s'. apply slab_step_Return_tagged.
Qed.

(** The validation loop over the requested keys. *)
Lemma check_keys_ok (mi_strings keys : list string) st :
  forallb (fun key => bool_decide (key ∈ mi_strings)) keys = true ->
  py_for keys tt (check_key mi_strings) st = (Return tt, st).
Proof.
  induction keys as [|key keys IH]; simpl; [done |].
  intros [Hk Hks]%andb_prop.
  unfold bind, check_key at 1. rewrite Hk. simpl. by apply IH.
Qed.

Lemma check_keys_fail (mi_strings keys : list string) st :
  forallb (fun key => bool_decide (key ∈ mi_strings)) keys = false ->
  py_for keys tt (check_key mi_strings) st = (Raise (ValueError_miller mi_strings), st).
Proof.
  induction keys as [|key keys IH]; simpl; [done |].
  unfold bind, check_key at 1.
  destruct (bool_decide (key ∈ mi_strings)); simpl; [exact IH | done].
Qed.

End SlabLoop.

(** ** The whole of [get_wf_adsorption] *)

Section AdsorptionRun.
Context `{VaspSets} `{PyUnicode}.

Implicit Types (a : AdsorptionArgs) (st : Interp) (fws : list Firework).

(** Lines 110-126: the overrides are updated and the bulk job is built
    before [max_index] is computed; then the slabs are enumerated. *)
Lemma get_wf_adsorption_run a st :
  exists st1,
    fireworks_built st1 = S (fireworks_built st)
    /\ get_wf_adsorption a st
       = match max_index_of (adsorbate_config a) with
         | Return m =>
             jobs_from_slabs a (normalized_structure a) [bulk_job a]
               (generate_decorated_slabs (normalized_structure a) m
                  (min_slab_size a) (min_vacuum_size a) (max_normal_search a)
                  (center_slab a)) st1
         | Raise e => (Raise e, st1)
         end.
Proof.
  destruct (ldau_defaults_run a (bulk_input_set a) st) as (st0 & E0 & Hb0).
  exists {| dicts := dicts st0; fireworks_built := S (fireworks_built st0) |}.
  split; [simpl; by rewrite Hb0 |].
  unfold get_wf_adsorption.
  rewrite (bind_eq_Return _ _ _ _ _ E0).
  unfold new_fw at 1. unfold bind at 1.
  unfold bind at 1. rewrite compute_max_index_stateless.
  by destruct (max_index_of (adsorbate_config a)).
Qed.

Lemma jobs_from_slabs_invalid a fws slabs st :
  forallb (fun key => bool_decide (key ∈ map mi_string_of slabs))
    (config_keys (adsorbate_config a)) = false ->
  jobs_from_slabs a (normalized_structure a) fws slabs st
  = (Raise (ValueError_miller (map mi_string_of slabs)), st).
Proof.
  intros Hk. unfold jobs_from_slabs.
  by rewrite (bind_eq_Raise _ _ _ _ _ (check_keys_fail _ _ st Hk)).
Qed.

Lemma jobs_from_slabs_Return a (fws0 : list Firework) slabs st wf st' :
  jobs_from_slabs a (normalized_structure a) fws0 slabs st = (Return wf, st') ->
  forallb (fun key => bool_decide (key ∈ map mi_string_of slabs))
    (config_keys (adsorbate_config a)) = true
  /\ wf_name wf = reduced_formula (normalized_structure a) +:+ ":" +:+ "Adsorbate calculations"
  /\ py_for slabs fws0 (slab_step a (normalized_structure a)) st
     = (Return (fws wf), st').
Proof.
  intros Hrun.
  destruct (forallb (fun key => bool_decide (key ∈ map mi_string_of slabs))
              (config_keys (adsorbate_config a))) eqn:Hk.
  - unfold jobs_from_slabs in Hrun.
    rewrite (bind_eq_Return _ _ _ _ _ (check_keys_ok _ _ st Hk)) in Hrun.
    apply bind_Return in Hrun as (fws1 & st1 & Hloop & Hret).
    injection Hret as <- <-. by rewrite Hloop.
  - by rewrite (jobs_from_slabs_invalid _ _ _ _ Hk) in Hrun.
Qed.

(** A returned workflow holds the bulk job followed by the planned jobs. *)
Lemma get_wf_adsorption_spec a st wf st' :
  get_wf_adsorption a st = (Return wf, st') ->
  exists rest,
    fws wf = bulk_job a :: rest
    /\ Forall2 (realizes a) (job_plan a (generated_slabs a)) rest
    /\ wf_name wf
       = reduced_formula (normalized_structure a) +:+ ":" +:+ "Adsorbate calculations".
Proof.
  intros Hrun.
  destruct (get_wf_adsorption_run a st) as (st1 & _ & E). rewrite E in Hrun. clear E.
  unfold generated_slabs.
  destruct (max_index_of (adsorbate_config a)) as [m|e]; [| discriminate].
  apply jobs_from_slabs_Return in Hrun as (_ & Hname & Hloop).
  apply slabs_loop_spec in Hloop as (new & Hnew & Hplan); [| done].
  exists new. by rewrite Hnew.
Qed.

(** A valid call returns a workflow. *)
Lemma get_wf_adsorption_returns a st :
  valid_call a = true ->
  exists wf st', get_wf_adsorption a st = (Return wf, st').
Proof.
  unfold valid_call, generated_mi_strings, generated_slabs. intros Hvalid.
  destruct (get_wf_adsorption_run a st) as (st1 & _ & E). rewrite E. clear E.
  destruct (max_index_of (adsorbate_config a)) as [m|e]; [| discriminate].
  apply andb_prop in Hvalid as [Hkeys Htag].
  unfold jobs_from_slabs.
  rewrite (bind_eq_Return _ _ _ _ _ (check_keys_ok _ _ st1 Hkeys)).
  destruct (slabs_loop_returns a [bulk_job a] _ st1 Htag eq_refl) as (fws' & st' & E').
  rewrite (bind_eq_Return _ _ _ _ _ E'). by do 2 eexists.
Qed.

(** Only a valid call returns a workflow. *)
Lemma get_wf_adsorption_Return_valid a st wf st' :
  get_wf_adsorption a st = (Return wf, st') -> valid_call a = true.
Proof.
  intros Hrun. unfold valid_call, generated_mi_strings, generated_slabs.
  destruct (get_wf_adsorption_run a st) as (st1 & _ & E). rewrite E in Hrun. clear E.
  destruct (max_index_of (adsorbate_config a)) as [m|e]; [| discriminate].
  apply jobs_from_slabs_Return in Hrun as (Hkeys & _ & Hloop).
  rewrite Hkeys. simpl. by eapply slabs_loop_Return_tagged.
Qed.

End AdsorptionRun.

(** ** Shape of the job list *)

Section Shape.
Context `{VaspSets} `{PyUnicode}.

Implicit Types (a : AdsorptionArgs) (st : Interp).

Lemma Forall2_Forall_right {A B} (R : A -> B -> Prop) (Q : B -> Prop) l k :
  (forall x y, R x y -> Q y) -> Forall2 R l k -> Forall Q k.
Proof. intros HRQ. induction 1; constructor; eauto. Qed.

Lemma Forall2_elem_left {A B} (R : A -> B -> Prop) l k x :
  Forall2 R l k -> x ∈ l -> exists y, y ∈ k /\ R x y.
Proof.
  induction 1 as [|x' y' l k HR _ IH]; intros Hin.
  - by apply elem_of_nil in Hin.
  - apply elem_of_cons in Hin as [-> | Hin].
    + exists y'. split; [by left | done].
    + destruct (IH Hin) as (y & Hy & HRy). exists y. split; [by right | done].
Qed.

Lemma realizes_parents a p fw : realizes a p fw -> fw_parents fw = [bulk_job a].
Proof. destruct p; intros [d ->]; reflexivity. Qed.

Lemma realizes_kind a p fw :
  realizes a p fw -> is_adsorbate_job fw = is_adsorbate_plan p.
Proof. destruct p; intros [d ->]; reflexivity. Qed.

Lemma filter_parentless_rest a (rest : list Firework) :
  Forall (fun fw => fw_parents fw = [bulk_job a]) rest ->
  filter (fun fw => parentless fw = true) rest = [].
Proof.
  induction 1 as [|fw rest Hfw _ IH]; [done |].
  rewrite filter_cons. case_decide as Hp; [| exact IH].
  unfold parentless in Hp. by rewrite Hfw in Hp.
Qed.

Lemma count_adsorbate_jobs a (plan : list JobPlan) (rest : list Firework) :
  Forall2 (realizes a) plan rest ->
  length (filter (fun fw => is_adsorbate_job fw = true) rest)
  = length (filter (fun p => is_adsorbate_plan p = true) plan).
Proof.
  induction 1 as [|p fw plan rest Hr _ IH]; [done |].
  rewrite !filter_cons. rewrite (realizes_kind _ _ _ Hr).
  destruct (is_adsorbate_plan p); repeat case_decide; simpl; congruence.
Qed.

Lemma filter_app_length {A} (P : A -> Prop) `{!forall x, Decision (P x)} (l k : list A) :
  length (filter P (l ++ k)) = (length (filter P l) + length (filter P k))%nat.
Proof. by rewrite filter_app, length_app. Qed.

Lemma count_adsorbate_plan_molecules (slab : Slab) (molecules : list Molecule) :
  length (filter (fun p => is_adsorbate_plan p = true)
            (flat_map (fun molecule =>
                         map (AdsorbateJob slab molecule)
                           (generate_adsorption_structures slab molecule))
               molecules))
  = sum_list_with
      (fun molecule => length (generate_adsorption_structures slab molecule))
      molecules.
Proof.
  induction molecules as [|molecule molecules IH]; [done |].
  simpl. rewrite filter_app_length, IH. f_equal.
  induction (generate_adsorption_structures slab molecule) as [|s l IHl]; [done |].
  cbn [map length]. rewrite filter_cons_True by done.
  cbn [length]. by rewrite IHl.
Qed.

Lemma count_adsorbate_plan a (slabs : list Slab) :
  length (filter (fun p => is_adsorbate_plan p = true) (job_plan a slabs))
  = candidate_count a slabs.
Proof.
  unfold job_plan, candidate_count.
  induction slabs as [|slab slabs IH]; [done |].
  simpl. rewrite filter_app_length, IH. f_equal.
  unfold slab_plan.
  destruct (config_get (adsorbate_config a) (mi_string_of slab)) as [molecules|];
    [| done].
  rewrite filter_cons. case_decide; [discriminate |].
  apply count_adsorbate_plan_molecules.
Qed.

Lemma realizes_slab_kind a p fw :
  realizes a p fw -> is_slab_job fw = negb (is_adsorbate_plan p).
Proof. destruct p; intros [d ->]; reflexivity. Qed.

Lemma count_slab_jobs a (plan : list JobPlan) (rest : list Firework) :
  Forall2 (realizes a) plan rest ->
  length (filter (fun fw => is_slab_job fw = true) rest)
  = length (filter (fun p => is_adsorbate_plan p = false) plan).
Proof.
  induction 1 as [|p fw plan rest Hr _ IH]; [done |].
  rewrite !filter_cons. rewrite (realizes_slab_kind _ _ _ Hr).
  destruct (is_adsorbate_plan p); repeat case_decide; simpl in *; congruence.
Qed.

Lemma no_slab_plan_among_candidates (slab : Slab) (molecules : list Molecule) :
  filter (fun p => is_adsorbate_plan p = false)
    (flat_map (fun molecule =>
                 map (AdsorbateJob slab molecule)
                   (generate_adsorption_structures slab molecule))
       molecules)
  = [].
Proof.
  induction molecules as [|molecule molecules IH]; [done |].
  simpl. rewrite filter_app, IH, app_nil_r.
  induction (generate_adsorption_structures slab molecule) as [|s l IHl]; [done |].
  cbn [map]. by rewrite filter_cons_False.
Qed.

(** The requested slabs: those whose Miller-index string is a key. *)
Lemma count_slab_plan a (slabs : list Slab) :
  length (filter (fun p => is_adsorbate_plan p = false) (job_plan a slabs))
  = length (filter (fun slab =>
                      is_Some (config_get (adsorbate_config a) (mi_string_of slab)))
              slabs).
Proof.
  unfold job_plan.
  induction slabs as [|slab slabs IH]; [done |].
  simpl. rewrite filter_app_length, IH, filter_cons.
  unfold slab_plan.
  destruct (config_get (adsorbate_config a) (mi_string_of slab)) as [molecules|].
  - rewrite filter_cons_True by done.
    rewrite no_slab_plan_among_candidates.
    case_decide as Hs; [done |]. destruct Hs. by eexists.
  - case_decide as Hs; [by destruct Hs | done].
Qed.

Lemma config_get_Some_key (cfg : list (string * list Molecule)) (k : string) ms :
  config_get cfg k = Some ms -> k ∈ config_keys cfg.
Proof.
  induction cfg as [|[k' ms'] cfg IH]; simpl; [discriminate |].
  destruct (String.eqb k' k) eqn:E.
  - apply String.eqb_eq in E as ->. intros _. by left.
  - intros Hget. right. by apply IH.
Qed.

Lemma config_get_key (cfg : list (string * list Molecule)) (k : string) :
  k ∈ config_keys cfg -> is_Some (config_get cfg k).
Proof.
  induction cfg as [|[k' ms'] cfg IH]; simpl.
  - intros Hin. by apply elem_of_nil in Hin.
  - destruct (String.eqb k' k) eqn:E; [by eexists |].
    intros [-> | Hin]%elem_of_cons; [| by apply IH].
    by rewrite String.eqb_refl in E.
Qed.

Lemma slab_job_planned a (slabs : list Slab) (slab : Slab) :
  slab ∈ slabs -> mi_string_of slab ∈ config_keys (adsorbate_config a) ->
  SlabJob slab ∈ job_plan a slabs.
Proof.
  intros Hin Hkey. unfold job_plan.
  apply list_elem_of_In, in_flat_map. exists slab.
  split; [by apply list_elem_of_In |].
  unfold slab_plan. destruct (config_get_key _ _ Hkey) as [ms ->]. by left.
Qed.

End Shape.

(** ** Properties of [get_wf_adsorption] *)

Section AdsorptionClaims.
Context `{VaspSets} `{PyUnicode}.

Implicit Types (a : AdsorptionArgs) (st : Interp).

Lemma some_key_unknown (mi_strings keys : list string) (key : string) :
  key ∈ keys -> key ∉ mi_strings ->
  forallb (fun key => bool_decide (key ∈ mi_strings)) keys = false.
Proof.
  intros Hin Hnot.
  destruct (forallb _ keys) eqn:E; [| done].
  rewrite forallb_forall in E.
  specialize (E key (proj1 (list_elem_of_In _ _) Hin)).
  by apply bool_decide_eq_true in E.
Qed.

(** C1 (amended).  When the requested keys are strings of decimal digits
    with at least one digit in all, and one of them is not the
    Miller-index string of a generated slab, the call raises the
    [ValueError] whose message lists exactly the Miller-index strings of
    the generated slabs and returns no workflow.  The failure comes after
    the bulk job has been built and before any slab or adsorbate job is:
    exactly one job constructor has run. *)
Theorem unknown_miller_key_raises a st key :
  all_digits (join (config_keys (adsorbate_config a))) = true ->
  join (config_keys (adsorbate_config a)) <> "" ->
  key ∈ config_keys (adsorbate_config a) ->
  key ∉ generated_mi_strings a ->
  exists st',
    get_wf_adsorption a st
    = (Raise (ValueError_miller (generated_mi_strings a)), st')
    /\ fireworks_built st' = S (fireworks_built st).
Proof.
  intros Hd Hne Hin Hnot.
  destruct (max_index_of_digits _ Hd Hne) as (m & Em & _).
  destruct (get_wf_adsorption_run a st) as (st1 & Hb & E).
  exists st1. split; [| done].
  rewrite E. unfold generated_mi_strings, generated_slabs in *.
  rewrite Em in *.
  apply jobs_from_slabs_invalid. by eapply some_key_unknown.
Qed.

(** C10.  With an empty [adsorbate_config] the call raises the error of
    [max] on an empty sequence; a call that returns a workflow had at
    least one key. *)
Theorem empty_config_raises a st :
  (adsorbate_config a = [] ->
   exists st', get_wf_adsorption a st = (Raise ValueError_max_empty, st'))
  /\ (forall wf st',
        get_wf_adsorption a st = (Return wf, st') -> adsorbate_config a <> []).
Proof.
  destruct (get_wf_adsorption_run a st) as (st1 & _ & E).
  split.
  - intros Hcfg. exists st1. rewrite E, Hcfg. by rewrite max_index_of_empty.
  - intros wf st' Hrun Hcfg. rewrite E, Hcfg, max_index_of_empty in Hrun.
    discriminate.
Qed.

(** C5.  When every requested key is a non-empty string of decimal
    digits and [m] is the largest digit of the joined keys, the
    [max_index] computation yields [m], and the rest of the call runs on
    the slabs enumerated with [max_index = m]. *)
Theorem max_index_is_largest_digit a st m :
  Forall (fun key => key <> "" /\ all_digits key = true)
    (config_keys (adsorbate_config a)) ->
  is_max_digit (join (config_keys (adsorbate_config a))) m ->
  compute_max_index (adsorbate_config a) st = (Return m, st)
  /\ exists st1,
       get_wf_adsorption a st
       = jobs_from_slabs a (normalized_structure a) [bulk_job a]
           (generate_decorated_slabs (normalized_structure a) m
              (min_slab_size a) (min_vacuum_size a) (max_normal_search a)
              (center_slab a)) st1.
Proof.
  intros Hkeys Hm.
  assert (Hd : all_digits (join (config_keys (adsorbate_config a))) = true).
  { apply all_digits_join. eapply Forall_impl; [exact Hkeys |]. by intros key [_ ?]. }
  pose proof (max_index_of_max_digit _ _ Hd Hm) as Em.
  split.
  - by rewrite compute_max_index_stateless, Em.
  - destruct (get_wf_adsorption_run a st) as (st1 & _ & E).
    exists st1. by rewrite E, Em.
Qed.

(** C2.  A valid call returns a workflow whose first job is the bulk
    relaxation job; that job has no parents, every other job has the
    bulk job as its parent, and so exactly one job is parentless. *)
Theorem bulk_job_is_the_only_root a st :
  valid_call a = true ->
  exists wf st' rest,
    get_wf_adsorption a st = (Return wf, st')
    /\ fws wf = bulk_job a :: rest
    /\ fw_parents (bulk_job a) = []
    /\ Forall (fun fw => fw_parents fw = [bulk_job a]) rest
    /\ length (filter (fun fw => parentless fw = true) (fws wf)) = 1%nat.
Proof.
  intros Hvalid.
  destruct (get_wf_adsorption_returns a st Hvalid) as (wf & st' & Hrun).
  destruct (get_wf_adsorption_spec _ _ _ _ Hrun) as (rest & Hfws & Hplan & _).
  assert (Hrest : Forall (fun fw => fw_parents fw = [bulk_job a]) rest).
  { eapply Forall2_Forall_right; [| exact Hplan]. apply realizes_parents. }
  exists wf, st', rest. repeat split; try done.
  rewrite Hfws, filter_cons_True by done.
  by rewrite (filter_parentless_rest _ _ Hrest).
Qed.

(** A valid call builds one slab job per generated slab whose
    Miller-index string is requested: a job parented to the bulk job, with the
    single transformation ["SlabTransformation"] parameterized by the
    slab's Miller index and shift and the caller's sizes and
    [max_normal_search]; its [center_slab] entry is [True] whatever the
    caller passed. *)
Lemma slab_jobs_built a st :
  valid_call a = true ->
  exists wf st',
    get_wf_adsorption a st = (Return wf, st')
    /\ length (filter (fun fw => is_slab_job fw = true) (fws wf))
       = length (filter (fun slab =>
                           is_Some (config_get (adsorbate_config a) (mi_string_of slab)))
                   (generated_slabs a))
    /\ forall slab,
         slab ∈ generated_slabs a ->
         mi_string_of slab ∈ config_keys (adsorbate_config a) ->
         exists fw,
           fw ∈ fws wf
           /\ fw_parents fw = [bulk_job a]
           /\ fw_transformations fw = ["SlabTransformation"]
           /\ fw_transformation_params fw
              = [SlabParams
                   {| p_miller_index := miller_index slab;
                      p_min_slab_size := min_slab_size a;
                      p_min_vacuum_size := min_vacuum_size a;
                      p_shift := shift slab;
                      p_center_slab := true;
                      p_max_normal_search := max_normal_search a |}].
Proof.
  intros Hvalid.
  destruct (get_wf_adsorption_returns a st Hvalid) as (wf & st' & Hrun).
  destruct (get_wf_adsorption_spec _ _ _ _ Hrun) as (rest & Hfws & Hplan & _).
  exists wf, st'. split; [done |]. split.
  { rewrite Hfws, filter_cons_False by done.
    rewrite (count_slab_jobs _ _ _ Hplan). apply count_slab_plan. }
  intros slab Hslab Hkey.
  destruct (Forall2_elem_left _ _ _ _ Hplan (slab_job_planned a _ _ Hslab Hkey))
    as (fw & Hfw & d & ->).
  eexists. rewrite Hfws. split; [by right | done].
Qed.

(** C6.  In the workflow a valid call returns, the jobs after the bulk
    job follow the plan entry by entry (for each matching slab its slab
    job, then one job per candidate structure of each requested
    molecule).  Each adsorbate job carries exactly the four-step chain,
    in order; its supercell factors are the rounded ratios of the
    candidate's lattice parameters to the slab's, and its insertion step
    lists the species and fractional coordinates of exactly the sites of
    the sorted candidate that are flagged ["adsorbate"]. *)
Theorem adsorbate_jobs_carry_the_chain a st :
  valid_call a = true ->
  exists wf st' rest,
    get_wf_adsorption a st = (Return wf, st')
    /\ fws wf = bulk_job a :: rest
    /\ Forall2
         (fun p fw =>
            match p with
            | SlabJob _ => is_adsorbate_job fw = false
            | AdsorbateJob slab molecule struct =>
                let s := prepared struct in
                let ads_sites :=
                  filter (fun site => adsorbate_tagged site = true) (sites s) in
                fw_transformations fw
                = ["SlabTransformation"; "SupercellTransformation";
                   "InsertSitesTransformation"; "AddSitePropertyTransformation"]
                /\ fw_transformation_params fw
                   = [SlabParams (slab_cut_params a slab);
                      SupercellParams
                        (py_round (float_div (lattice_a s)
                                     (lattice_a (slab_structure slab))))
                        (py_round (float_div (lattice_b s)
                                     (lattice_b (slab_structure slab))));
                      InsertSitesParams (map species_string ads_sites)
                        (map frac_coords ads_sites);
                      SitePropertyParams (site_properties s)]
            end)
         (job_plan a (generated_slabs a)) rest.
Proof.
  intros Hvalid.
  destruct (get_wf_adsorption_returns a st Hvalid) as (wf & st' & Hrun).
  destruct (get_wf_adsorption_spec _ _ _ _ Hrun) as (rest & Hfws & Hplan & _).
  exists wf, st', rest. repeat split; try done.
  eapply Forall2_impl; [exact Hplan |].
  intros [slab | slab molecule struct] fw [d ->]; simpl; done.
Qed.

(** C7.  In the workflow a valid call returns, the number of adsorbate
    jobs is the number of candidate structures generated for each
    (matching slab, requested molecule) pair, summed over the requested
    molecules and the matching slabs. *)
Theorem adsorbate_job_count a st :
  valid_call a = true ->
  exists wf st',
    get_wf_adsorption a st = (Return wf, st')
    /\ length (filter (fun fw => is_adsorbate_job fw = true) (fws wf))
       = candidate_count a (generated_slabs a).
Proof.
  intros Hvalid.
  destruct (get_wf_adsorption_returns a st Hvalid) as (wf & st' & Hrun).
  destruct (get_wf_adsorption_spec _ _ _ _ Hrun) as (rest & Hfws & Hplan & _).
  exists wf, st'. split; [done |].
  rewrite Hfws, filter_cons_False by done.
  rewrite (count_adsorbate_jobs _ _ _ Hplan).
  apply count_adsorbate_plan.
Qed.

End AdsorptionClaims.

(** ** Properties of [get_wf_molecules] *)

Section MoleculeClaims.
Context `{VaspSets} `{PyUnicode}.

Lemma molecule_jobs_loop (mvs : float) (cmd : string) (db : option string)
    (l : list (Molecule * option InputSet)) (acc : list Firework) (st : Interp) :
  exists new st',
    py_for l acc (molecule_job_step mvs cmd db) st = (Return (acc ++ new), st')
    /\ length new = length l
    /\ Forall (fun fw => fw_parents fw = []) new.
Proof.
  revert acc st. induction l as [|[molecule vis] l IH]; intros acc st.
  - exists [], st. by rewrite app_nil_r.
  - cbn [py_for]. unfold molecule_job_step at 1.
    unfold new_fw at 1. unfold bind at 1 2. unfold ret at 1.
    match goal with
    | |- context [py_for l (acc ++ [?fw]) _ ?s] =>
        destruct (IH (acc ++ [fw]) s) as (new & st' & E & Hlen & Hall);
        exists (fw :: new), st'
    end.
    rewrite E, <- app_assoc. repeat split.
    + simpl. by rewrite Hlen.
    + by constructor.
Qed.

(** C9.  For every list of molecules the call returns a workflow with
    one job per (molecule, input set) pair; every job is parentless, so
    no job names another job of the workflow as a parent. *)
Theorem molecule_jobs_are_independent (molecules : list Molecule)
    (vasp_input_sets : option (list (option InputSet)))
    (mvs : float) (cmd : string) (db : option string) (st : Interp) :
  exists wf st',
    get_wf_molecules molecules vasp_input_sets mvs cmd db st = (Return wf, st')
    /\ length (fws wf)
       = length (zip molecules (input_sets_or_none molecules vasp_input_sets))
    /\ Forall (fun fw => fw_parents fw = []) (fws wf)
    /\ (forall fw fw', fw ∈ fws wf -> fw' ∈ fws wf -> fw' ∉ fw_parents fw).
Proof.
  unfold get_wf_molecules.
  destruct (molecule_jobs_loop mvs cmd db
              (zip molecules (input_sets_or_none molecules vasp_input_sets)) [] st)
    as (new & st' & E & Hlen & Hall).
  rewrite (bind_eq_Return _ _ _ _ _ E). unfold ret.
  do 2 eexists. split; [done |]. simpl.
  repeat split; [done | done |].
  intros fw fw' Hfw _. rewrite Forall_forall in Hall.
  rewrite (Hall _ Hfw). apply not_elem_of_nil.
Qed.

End MoleculeClaims.

(** ** More on the [max_index] computation and its errors *)

Section MaxIndexErrors.
Context `{VaspSets} `{PyUnicode}.

Implicit Types (a : AdsorptionArgs) (st : Interp).

Lemma forallb_first_failure {A} (f : A -> bool) (l : list A) :
  forallb f l = false ->
  exists l1 x l2, l = l1 ++ x :: l2 /\ forallb f l1 = true /\ f x = false.
Proof.
  induction l as [|y l IH]; simpl; [discriminate |].
  destruct (f y) eqn:Hy; simpl.
  - intros (l1 & x & l2 & -> & Hl1 & Hx)%IH.
    exists (y :: l1), x, l2. simpl. by rewrite Hy, Hl1.
  - intros _. by exists [], y, l.
Qed.

Lemma is_decimal_true (c : N) :
  is_decimal c = true -> is_Some (unicode_decimal c).
Proof. unfold is_decimal. by destruct (unicode_decimal c). Qed.

Lemma is_decimal_false (c : N) :
  is_decimal c = false -> unicode_decimal c = None.
Proof. unfold is_decimal. by destruct (unicode_decimal c). Qed.

Lemma decimal_values (cs : list N) :
  forallb is_decimal cs = true ->
  Forall (fun c => is_Some (unicode_decimal c)) cs
  /\ exists ds, map unicode_decimal cs = map Some ds.
Proof.
  induction cs as [|c cs IH]; simpl.
  - intros _. split; [constructor | by exists []].
  - intros [Hc Hcs]%andb_prop. destruct (IH Hcs) as (Hall & ds & Eds).
    pose proof (is_decimal_true _ Hc) as Hsome.
    split; [by constructor |].
    destruct Hsome as [d Hd]. exists (d :: ds). simpl. by rewrite Hd, Eds.
Qed.

Lemma all_decimal (cs : list N) (ds : list Z) :
  map unicode_decimal cs = map Some ds -> forallb is_decimal cs = true.
Proof.
  revert ds. induction cs as [|c cs IH]; intros [|d ds] E; try discriminate.
  - done.
  - simpl in E. injection E as Hc Hcs. simpl.
    unfold is_decimal at 1. rewrite Hc. by apply (IH ds).
Qed.

Lemma code_points_nil (s : string) : code_points s = [] -> s = "".
Proof.
  unfold code_points. intros E%decode_utf8_nil.
  apply map_eq_nil in E. by destruct s.
Qed.

(** The first character that is not a decimal digit stops the
    comprehension. *)
Lemma max_index_of_not_decimal (cfg : list (string * list Molecule))
    (cs1 cs2 : list N) (c : N) :
  code_points (join (config_keys cfg)) = cs1 ++ c :: cs2 ->
  Forall (fun x => is_Some (unicode_decimal x)) cs1 ->
  unicode_decimal c = None ->
  max_index_of cfg = Raise (ValueError_int c).
Proof.
  intros E Hcs1 Hc. unfold max_index_of, compute_max_index. rewrite E.
  by rewrite (bind_eq_Raise _ _ _ _ _ (py_map_int_raises cs1 cs2 c _ Hcs1 Hc)).
Qed.

Lemma max_index_of_blank (cfg : list (string * list Molecule)) :
  join (config_keys cfg) = "" -> max_index_of cfg = Raise ValueError_max_empty.
Proof. unfold max_index_of, compute_max_index. by intros ->. Qed.

(** The three outcomes of the [max_index] computation: no character at
    all, a first character that [int] refuses, or the largest of the
    digit values. *)
Lemma max_index_of_cases (cfg : list (string * list Molecule)) :
  (join (config_keys cfg) = "" /\ max_index_of cfg = Raise ValueError_max_empty)
  \/ (exists cs1 c cs2,
        code_points (join (config_keys cfg)) = cs1 ++ c :: cs2
        /\ Forall (fun x => is_Some (unicode_decimal x)) cs1
        /\ unicode_decimal c = None
        /\ max_index_of cfg = Raise (ValueError_int c))
  \/ (exists m ds,
        max_index_of cfg = Return m
        /\ map unicode_decimal (code_points (join (config_keys cfg))) = map Some ds
        /\ m ∈ ds
        /\ Forall (fun d => d <= m) ds).
Proof.
  destruct (forallb is_decimal (code_points (join (config_keys cfg)))) eqn:Hd.
  - destruct (decimal_values _ Hd) as (_ & ds & Eds).
    destruct ds as [|d ds].
    + left. apply map_eq_nil in Eds.
      pose proof (code_points_nil _ Eds) as Eb.
      split; [done | by apply max_index_of_blank].
    + right. right. exists (fold_left Z.max ds d), (d :: ds).
      split; [| split; [done | apply fold_left_max_spec]].
      unfold max_index_of, compute_max_index.
      by rewrite (bind_eq_Return _ _ _ _ _ (py_map_int_decimal _ _ _ Eds)).
  - right. left.
    apply forallb_first_failure in Hd as (cs1 & c & cs2 & E & Hcs1 & Hc).
    exists cs1, c, cs2.
    pose proof (is_decimal_false _ Hc) as Hnone.
    destruct (decimal_values _ Hcs1) as [Hall _].
    split; [done |]. split; [done |]. split; [done |].
    by apply (max_index_of_not_decimal _ cs1 cs2).
Qed.

(** When [max_index] is defined, every character of the keys is a
    decimal digit and [max_index] is the largest of their values. *)
Lemma max_index_of_Return (cfg : list (string * list Molecule)) (m : Z) :
  max_index_of cfg = Return m ->
  exists ds,
    map unicode_decimal (code_points (join (config_keys cfg))) = map Some ds
    /\ m ∈ ds
    /\ Forall (fun d => d <= m) ds.
Proof.
  intros Em.
  destruct (max_index_of_cases cfg)
    as [[_ E] | [(cs1 & c & cs2 & _ & _ & _ & E) | (m' & ds & E & Hds)]];
    rewrite Em in E; try discriminate.
  injection E as <-. by exists ds.
Qed.

Lemma decimal_value_bounds (cs : list N) (ds : list Z) (d : Z) :
  map unicode_decimal cs = map Some ds -> d ∈ ds -> 0 <= d <= 9.
Proof.
  revert ds. induction cs as [|c cs IH]; intros [|d' ds] E Hin; try discriminate.
  - by apply elem_of_nil in Hin.
  - simpl in E. injection E as Hc Hcs.
    apply elem_of_cons in Hin as [-> | Hin].
    + by apply (unicode_decimal_range c).
    + by apply (IH ds).
Qed.

(** X8.  [max_index], when the computation returns, is a single decimal
    digit value between 0 and 9: every character of the joined keys is
    a decimal digit for [int] (an ASCII digit or any other Unicode
    decimal digit), and [max_index] is the largest of their digit
    values.  No Miller index above 9 is ever asked of the slab
    enumeration. *)
Theorem max_index_is_a_single_digit (cfg : list (string * list Molecule)) (m : Z) :
  max_index_of cfg = Return m ->
  0 <= m <= 9
  /\ exists ds,
      map unicode_decimal (code_points (join (config_keys cfg))) = map Some ds
      /\ m ∈ ds
      /\ Forall (fun d => d <= m) ds.
Proof.
  intros Em. destruct (max_index_of_Return _ _ Em) as (ds & Eds & Hin & Hle).
  split; [by apply (decimal_value_bounds _ _ _ Eds) | by exists ds].
Qed.

(** X9.  When some character of the joined keys is not a decimal digit
    for [int], the call raises the [ValueError] of [int] on the first
    such character (every character before it being a decimal digit),
    whether or not the keys name a slab; the bulk job is the only job
    built by then. *)
Theorem non_digit_key_raises a st (cs1 cs2 : list N) (c : N) :
  code_points (join (config_keys (adsorbate_config a))) = cs1 ++ c :: cs2 ->
  Forall (fun x => is_Some (unicode_decimal x)) cs1 ->
  unicode_decimal c = None ->
  exists st',
    get_wf_adsorption a st = (Raise (ValueError_int c), st')
    /\ fireworks_built st' = S (fireworks_built st).
Proof.
  intros E Hcs1 Hc.
  pose proof (max_index_of_not_decimal _ _ _ _ E Hcs1 Hc) as Ec.
  destruct (get_wf_adsorption_run a st) as (st1 & Hb & E1).
  exists st1. rewrite E1, Ec. done.
Qed.

Lemma chars_join (keys : list string) (key : string) (c : ascii) :
  key ∈ keys -> c ∈ list_ascii_of_string key ->
  c ∈ list_ascii_of_string (join keys).
Proof.
  intros Hin Hc. induction keys as [|k keys IH]; [by apply elem_of_nil in Hin |].
  simpl. rewrite chars_app. apply elem_of_app.
  apply elem_of_cons in Hin as [<- | Hin]; [by left | right; by apply IH].
Qed.

Lemma py_str_minus (i : Z) : i < 0 -> "-"%char ∈ list_ascii_of_string (py_str i).
Proof. destruct i as [|p|p]; [lia | lia |]. intros _. by left. Qed.

(** A minus sign in the keys is a character of its own, and [int]
    refuses it. *)
Lemma minus_not_decimal (s : string) :
  "-"%char ∈ list_ascii_of_string s ->
  forallb is_decimal (code_points s) = false.
Proof.
  intros Hin. apply not_true_is_false. intros Hall.
  rewrite forallb_forall in Hall.
  assert (Hc : (45 ∈ code_points s)%N).
  { unfold code_points. apply decode_utf8_keeps_ascii; [| done].
    apply list_elem_of_fmap. by exists "-"%char. }
  apply list_elem_of_In, Hall, is_decimal_true in Hc.
  rewrite unicode_decimal_ascii in Hc by done. simpl in Hc. by destruct Hc.
Qed.

(** X10.  The Miller-index string of a slab with a negative index cannot be
    requested: the minus sign is not a decimal digit, and the call raises
    the [ValueError] of [int], on a character that is not a decimal
    digit, before any slab is enumerated. *)
Theorem negative_miller_index_cannot_be_requested a st (slab : Slab) (i : Z) :
  i ∈ miller_index slab -> i < 0 ->
  mi_string_of slab ∈ config_keys (adsorbate_config a) ->
  exists c st',
    unicode_decimal c = None
    /\ get_wf_adsorption a st = (Raise (ValueError_int c), st')
    /\ fireworks_built st' = S (fireworks_built st).
Proof.
  intros Hi Hneg Hkey.
  assert (Hs : "-"%char ∈ list_ascii_of_string (mi_string_of slab)).
  { unfold mi_string_of. apply (chars_join _ (py_str i)).
    - apply list_elem_of_fmap. by exists i.
    - by apply py_str_minus. }
  pose proof (minus_not_decimal _ (chars_join _ _ _ Hkey Hs)) as Hd.
  destruct (max_index_of_cases (adsorbate_config a))
    as [[Eb _] | [(cs1 & c & cs2 & _ & _ & Hc & Ec) | (m & ds & _ & Eds & _)]].
  - rewrite Eb in Hd. discriminate.
  - destruct (get_wf_adsorption_run a st) as (st1 & Hb & E).
    exists c, st1. rewrite E, Ec. done.
  - rewrite (all_decimal _ _ Eds) in Hd. discriminate.
Qed.

End MaxIndexErrors.

(** ** Loops with their effect on the state *)

Section StatefulLoops.
Context `{PyFloat}.

(** A loop that appends the jobs [f] makes of the entries [tmpl]
    describes, keeps a state property [P] and bumps the job counter by
    the number of entries. *)
Lemma py_for_maps {A B T} (f : T -> B) (tmpl : A -> list T)
    (I : list B -> Prop) (P : Interp -> Prop) (body : list B -> A -> Py (list B)) :
  (forall acc new, I acc -> I (acc ++ new)) ->
  (forall x acc st acc' st',
      I acc -> P st -> body acc x st = (Return acc', st') ->
      acc' = acc ++ map f (tmpl x) /\ P st'
      /\ fireworks_built st' = (fireworks_built st + length (tmpl x))%nat) ->
  forall l acc st acc' st',
    I acc -> P st -> py_for l acc body st = (Return acc', st') ->
    acc' = acc ++ map f (flat_map tmpl l) /\ P st'
    /\ fireworks_built st' = (fireworks_built st + length (flat_map tmpl l))%nat.
Proof.
  intros Happ Hbody l.
  induction l as [|x l IH]; intros acc st acc' st' HI HP Hrun; simpl in *.
  - injection Hrun as <- <-. rewrite app_nil_r. repeat split; [done | lia].
  - apply bind_Return in Hrun as (acc1 & st1 & Hx & Hrest).
    destruct (Hbody _ _ _ _ _ HI HP Hx) as (-> & HP1 & Hb1).
    destruct (IH _ _ _ _ (Happ _ _ HI) HP1 Hrest) as (-> & HP2 & Hb2).
    rewrite map_app, length_app, <- app_assoc. repeat split; [done | lia].
Qed.

(** A property of the state every step keeps holds after the loop,
    however the loop ends. *)
Lemma py_for_keeps {A B} (P : Interp -> Prop) (body : B -> A -> Py B) :
  (forall x acc st, P st -> P (snd (body acc x st))) ->
  forall l acc st, P st -> P (snd (py_for l acc body st)).
Proof.
  intros Hbody l. induction l as [|x l IH]; intros acc st HP; simpl; [done |].
  unfold bind. specialize (Hbody x acc st HP).
  destruct (body acc x st) as [[acc1|e] st1]; simpl in *; [by apply IH | done].
Qed.

Lemma bind_keeps {A B} (P : Interp -> Prop) (m : Py A) (k : A -> Py B) st :
  P (snd (m st)) -> (forall x st1, P st1 -> P (snd (k x st1))) ->
  P (snd (bind m k st)).
Proof.
  intros Hm Hk. unfold bind.
  destruct (m st) as [[x|e] st1]; simpl in *; [by apply Hk | done].
Qed.

(** Comprehensions leave the state alone. *)
Lemma py_filter_state {A} (c : A -> Py bool) :
  (forall x st, snd (c x st) = st) ->
  forall l st, snd (py_filter c l st) = st.
Proof.
  intros Hc l. induction l as [|x l IH]; intros st; simpl; [done |].
  unfold bind. specialize (Hc x st).
  destruct (c x st) as [[b|e] st1]; simpl in *; subst; [| done].
  specialize (IH st).
  destruct (py_filter c l st) as [[ys|e] st2]; simpl in *; by subst.
Qed.

(** A loop that raises does so in one of its steps, reached under the
    invariant. *)
Lemma py_for_Raise {A B} (I : B -> Prop) (body : B -> A -> Py B) :
  (forall x acc st acc' st', I acc -> body acc x st = (Return acc', st') -> I acc') ->
  forall l acc st e st',
    I acc -> py_for l acc body st = (Raise e, st') ->
    exists x acc0 st0, x ∈ l /\ I acc0 /\ body acc0 x st0 = (Raise e, st').
Proof.
  intros Hbody l. induction l as [|x l IH]; intros acc st e st' HI Hrun; simpl in *.
  - discriminate.
  - unfold bind in Hrun. destruct (body acc x st) as [[acc1|e1] st1] eqn:Hx.
    + destruct (IH _ _ _ _ (Hbody _ _ _ _ _ HI Hx) Hrun) as (y & acc0 & st0 & Hy & H0 & E).
      exists y, acc0, st0. split; [by right | done].
    + injection Hrun as <- <-. exists x, acc, st. split; [by left | done].
Qed.

End StatefulLoops.

(** ** The override dictionaries *)

Section DictFacts.
Context `{VaspSets} `{PyUnicode}.

Implicit Types (a : AdsorptionArgs) (st : Interp) (d o : PyDict) (l : loc).

Lemma read_dict_at l st : read_dict l st = (Return (dict_at st l), st).
Proof. reflexivity. Qed.

Lemma dict_at_update l o st l' :
  dict_at (snd (dict_update l o st)) l'
  = if decide (l = l') then o ∪ dict_at st l else dict_at st l'.
Proof.
  unfold dict_at, dict_update, dict_update_val. simpl.
  case_decide as E.
  - subst. by rewrite lookup_insert_eq.
  - by rewrite lookup_insert_ne.
Qed.

Lemma union_twice o d : o ∪ (o ∪ d) = o ∪ d.
Proof. by rewrite (assoc_L (∪)), (idemp_L (∪)). Qed.

(** The same update applied to both override dictionaries, which may be
    one object. *)
Lemma dict_at_update_both l1 l2 o st l :
  dict_at (snd ((run! dict_update l1 o in dict_update l2 o) st)) l
  = if decide (l = l1 \/ l = l2) then o ∪ dict_at st l else dict_at st l.
Proof.
  unfold bind. simpl.
  change (dict_at (snd (dict_update l2 o (snd (dict_update l1 o st)))) l
          = if decide (l = l1 \/ l = l2) then o ∪ dict_at st l else dict_at st l).
  rewrite dict_at_update.
  case_decide as E2.
  - subst l. rewrite dict_at_update.
    case_decide as E1.
    + subst l1. rewrite union_twice. by rewrite decide_True by auto.
    + by rewrite decide_True by auto.
  - rewrite dict_at_update.
    case_decide as E1.
    + subst l. by rewrite decide_True by auto.
    + rewrite decide_False; [done |]. intros [-> | ->]; done.
Qed.

Lemma dipole_has_no_ldau : dipole_dict !! "LDAU" = None.
Proof. reflexivity. Qed.

(** Writing the LDAU default again does not change a dictionary the call
    has already been through. *)
Lemma with_ldau_default_idemp a d :
  with_ldau_default a (with_ldau_default a d) = with_ldau_default a d.
Proof.
  unfold with_ldau_default. destruct (negb _); [apply union_twice | done].
Qed.

Lemma ldau_over_dipole d :
  {[ "LDAU" := PyBool false ]} ∪ (dipole_dict ∪ ({[ "LDAU" := PyBool false ]} ∪ d))
  = dipole_dict ∪ ({[ "LDAU" := PyBool false ]} ∪ d).
Proof.
  apply map_eq. intros k.
  destruct (decide (k = "LDAU")) as [-> | Hk].
  - rewrite (lookup_union_l' _ _ "LDAU") by (rewrite lookup_singleton_eq; by eexists).
    rewrite lookup_union_r by apply dipole_has_no_ldau.
    by rewrite (lookup_union_l' _ _ "LDAU") by (rewrite lookup_singleton_eq; by eexists).
  - rewrite lookup_union_r; [done |]. by rewrite lookup_singleton_ne.
Qed.

Lemma overrides_after_ldau a d :
  overrides_after a (with_ldau_default a d) = overrides_after a d.
Proof. unfold overrides_after. by rewrite with_ldau_default_idemp. Qed.

Lemma overrides_after_idemp a d :
  overrides_after a (overrides_after a d) = overrides_after a d.
Proof.
  unfold overrides_after at 2.
  destruct (auto_dipole a) eqn:Hdip; [| apply overrides_after_ldau].
  unfold overrides_after. rewrite Hdip.
  unfold with_ldau_default at 1.
  destruct (negb (incar_LDAU (bulk_input_set a))) eqn:Hl.
  - unfold with_ldau_default. rewrite Hl.
    rewrite ldau_over_dipole. apply union_twice.
  - apply union_twice.
Qed.

End DictFacts.

(** ** The returned workflow, job by job *)

Section Exact.
Context `{VaspSets} `{PyUnicode}.

Implicit Types (a : AdsorptionArgs) (st : Interp) (fws : list Firework)
  (d ds da : PyDict).

(** The update of both override dictionaries under a flag. *)
Lemma update_both_block (b : bool) (l1 l2 : loc) (o : PyDict) st :
  exists st1,
    (if b then run! dict_update l1 o in dict_update l2 o else ret tt) st
    = (Return tt, st1)
    /\ fireworks_built st1 = fireworks_built st
    /\ forall l,
         dict_at st1 l
         = if decide (l = l1 \/ l = l2)
           then (if b then o ∪ dict_at st l else dict_at st l)
           else dict_at st l.
Proof.
  destruct b.
  - exists (snd ((run! dict_update l1 o in dict_update l2 o) st)).
    repeat split. intros l. apply dict_at_update_both.
  - exists st. repeat split. intros l. by case_decide.
Qed.

Lemma adsorbate_step_exact a slab molecule fws struct st fws' st' ds :
  rooted a fws ->
  adsorbate_step a (normalized_structure a) slab (slab_cut_params a slab)
    (mi_string_of slab) molecule fws struct st = (Return fws', st') ->
  fws' = fws ++ [planned_job a ds (dict_at st (ads_incar_params a))
                   (AdsorbateJob slab molecule struct)]
  /\ dicts st' = dicts st
  /\ fireworks_built st' = S (fireworks_built st).
Proof.
  intros Hroot Hrun. unfold adsorbate_step in Hrun.
  apply bind_Return in Hrun as (ads_sites & st1 & Hsites & Hrun).
  apply (py_filter_pure _ adsorbate_tagged is_adsorbate_site_pure) in Hsites
    as [-> ->].
  rewrite (bind_eq_Return _ _ _ _ _ (read_dict_at _ _)) in Hrun.
  rewrite (bind_eq_Return _ _ _ _ _ (py_index_rooted _ _ _ Hroot)) in Hrun.
  apply bind_Return in Hrun as (fw & st3 & Hfw & Hrun).
  injection Hfw as <- <-. injection Hrun as <- <-. done.
Qed.

Lemma molecule_step_exact a slab ds da (D : gmap loc PyDict) fws molecule st fws' st' :
  default ∅ (D !! ads_incar_params a) = da ->
  rooted a fws -> dicts st = D ->
  molecule_step a (normalized_structure a) slab (slab_cut_params a slab)
    (mi_string_of slab) fws molecule st = (Return fws', st') ->
  fws' = fws ++ map (planned_job a ds da)
                  (map (AdsorbateJob slab molecule)
                     (generate_adsorption_structures slab molecule))
  /\ dicts st' = D
  /\ fireworks_built st'
     = (fireworks_built st
        + length (map (AdsorbateJob slab molecule)
                    (generate_adsorption_structures slab molecule)))%nat.
Proof.
  intros Hda Hroot HD Hrun. unfold molecule_step in Hrun.
  rewrite <- (flat_map_singleton (AdsorbateJob slab molecule)).
  eapply (py_for_maps (planned_job a ds da) _ (rooted a) (fun s => dicts s = D));
    [| | exact Hroot | exact HD | exact Hrun].
  - intros. by apply rooted_app.
  - intros struct acc s acc' s' Hacc Hs Hstep.
    destruct (adsorbate_step_exact _ _ _ _ _ _ _ _ ds Hacc Hstep) as (-> & Hd' & Hb').
    unfold dict_at. rewrite Hs, Hda. simpl. repeat split; [congruence | lia].
Qed.

Lemma dipole_settles a d0 d :
  d = with_ldau_default a d0 \/ d = overrides_after a d0 ->
  (if auto_dipole a then dipole_dict ∪ d else d) = overrides_after a d0.
Proof.
  unfold overrides_after. destruct (auto_dipole a); intros [-> | ->];
    try done. apply union_twice.
Qed.

Lemma slab_step_exact a d0s d0a fws slab st fws' st' :
  rooted a fws -> between_slabs a d0s d0a st ->
  slab_step a (normalized_structure a) fws slab st = (Return fws', st') ->
  fws' = fws ++ map (planned_job a (overrides_after a d0s) (overrides_after a d0a))
                  (slab_plan a slab)
  /\ between_slabs a d0s d0a st'
  /\ fireworks_built st' = (fireworks_built st + length (slab_plan a slab))%nat
  /\ (is_Some (config_get (adsorbate_config a) (mi_string_of slab))
      \/ settled a d0s d0a st ->
      settled a d0s d0a st').
Proof.
  intros Hroot [Hs Ha] Hrun. unfold slab_step in Hrun. unfold slab_plan.
  destruct (config_get (adsorbate_config a) (mi_string_of slab)) as [molecules|].
  - destruct (update_both_block (auto_dipole a) (slab_incar_params a)
                (ads_incar_params a) dipole_dict st) as (st1 & E1 & Hb1 & Hd1).
    rewrite (bind_eq_Return _ _ _ _ _ E1) in Hrun.
    rewrite (bind_eq_Return _ _ _ _ _ (read_dict_at _ _)) in Hrun.
    rewrite (bind_eq_Return _ _ _ _ _ (py_index_rooted _ _ _ Hroot)) in Hrun.
    apply bind_Return in Hrun as (fw & st3 & Hfw & Hrun).
    injection Hfw as <- <-.
    assert (Es : dict_at st1 (slab_incar_params a) = overrides_after a d0s).
    { rewrite Hd1, decide_True by auto. by apply dipole_settles. }
    assert (Ea : dict_at st1 (ads_incar_params a) = overrides_after a d0a).
    { rewrite Hd1, decide_True by auto. by apply dipole_settles. }
    eapply (py_for_maps
              (planned_job a (overrides_after a d0s) (overrides_after a d0a))
              (fun molecule => map (AdsorbateJob slab molecule)
                                 (generate_adsorption_structures slab molecule))
              (rooted a) (fun s => dicts s = dicts st1))
      in Hrun as (-> & HD & Hb).
    + rewrite <- app_assoc. simpl. rewrite Es.
      assert (Es' : dict_at st' (slab_incar_params a) = overrides_after a d0s)
        by (unfold dict_at; by rewrite HD).
      assert (Ea' : dict_at st' (ads_incar_params a) = overrides_after a d0a)
        by (unfold dict_at; by rewrite HD).
      split; [by rewrite <- Es |]. split; [split; by right |].
      split; [simpl in Hb; lia | intros _; by split].
    + intros. by apply rooted_app.
    + intros molecule acc s acc' s' Hacc Hs' Hstep.
      eapply molecule_step_exact; [exact Ea | exact Hacc | exact Hs' | exact Hstep].
    + by apply rooted_app.
    + done.
  - injection Hrun as <- <-. rewrite app_nil_r. simpl.
    split; [done |]. split; [done |]. split; [lia |].
    intros [[ms Hms] | Hset]; [discriminate | done].
Qed.

Lemma slabs_loop_exact a d0s d0a fws slabs st fws' st' :
  rooted a fws -> between_slabs a d0s d0a st ->
  py_for slabs fws (slab_step a (normalized_structure a)) st = (Return fws', st') ->
  fws' = fws ++ map (planned_job a (overrides_after a d0s) (overrides_after a d0a))
                  (job_plan a slabs)
  /\ between_slabs a d0s d0a st'
  /\ fireworks_built st' = (fireworks_built st + length (job_plan a slabs))%nat.
Proof.
  intros Hroot Hst Hrun.
  eapply (py_for_maps _ (slab_plan a) (rooted a) (between_slabs a d0s d0a));
    [| | exact Hroot | exact Hst | exact Hrun].
  - intros. by apply rooted_app.
  - intros slab acc s acc' s' Hacc Hs Hstep.
    destruct (slab_step_exact _ _ _ _ _ _ _ _ Hacc Hs Hstep) as (? & ? & ? & _).
    done.
Qed.

(** Once a requested slab has been met, both dictionaries hold their
    final contents. *)
Lemma slabs_loop_settles a d0s d0a fws slabs st fws' st' :
  rooted a fws -> between_slabs a d0s d0a st ->
  py_for slabs fws (slab_step a (normalized_structure a)) st = (Return fws', st') ->
  (exists slab,
      slab ∈ slabs /\ is_Some (config_get (adsorbate_config a) (mi_string_of slab)))
  \/ settled a d0s d0a st ->
  settled a d0s d0a st'.
Proof.
  revert fws st. induction slabs as [|slab slabs IH]; intros fws st Hroot Hst Hrun Hor.
  - simpl in Hrun. injection Hrun as <- <-.
    destruct Hor as [(slab & Hin & _) | Hset]; [by apply elem_of_nil in Hin | done].
  - simpl in Hrun. apply bind_Return in Hrun as (fws1 & st1 & Hstep & Hrest).
    destruct (slab_step_exact _ _ _ _ _ _ _ _ Hroot Hst Hstep)
      as (-> & Hst1 & _ & Hsettle).
    eapply IH; [by apply rooted_app | exact Hst1 | exact Hrest |].
    destruct Hor as [(slab' & [-> | Hin]%elem_of_cons & Hreq) | Hset].
    + right. apply Hsettle. by left.
    + left. by exists slab'.
    + right. apply Hsettle. by right.
Qed.

(** The state in which the bulk job is built. *)
Lemma ldau_defaults_exact a st :
  exists st0,
    ldau_defaults a (bulk_input_set a) st = (Return tt, st0)
    /\ fireworks_built st0 = fireworks_built st
    /\ dict_at st0 (slab_incar_params a)
       = with_ldau_default a (dict_at st (slab_incar_params a))
    /\ dict_at st0 (ads_incar_params a)
       = with_ldau_default a (dict_at st (ads_incar_params a)).
Proof.
  unfold ldau_defaults, with_ldau_default.
  destruct (update_both_block (negb (incar_LDAU (bulk_input_set a)))
              (ads_incar_params a) (slab_incar_params a)
              {[ "LDAU" := PyBool false ]} st) as (st0 & E & Hb & Hd).
  exists st0. split; [exact E |]. split; [exact Hb |].
  split; rewrite Hd, decide_True by auto; done.
Qed.

(** A returned workflow is a function of the arguments and of what the
    two override dictionaries hold when the call starts. *)
Lemma get_wf_adsorption_exact a st wf st' :
  get_wf_adsorption a st = (Return wf, st') ->
  fws wf
  = bulk_job a
    :: map (planned_job a
              (overrides_after a (dict_at st (slab_incar_params a)))
              (overrides_after a (dict_at st (ads_incar_params a))))
         (job_plan a (generated_slabs a))
  /\ between_slabs a (dict_at st (slab_incar_params a))
       (dict_at st (ads_incar_params a)) st'
  /\ fireworks_built st' = (fireworks_built st + length (fws wf))%nat.
Proof.
  intros Hrun. unfold get_wf_adsorption in Hrun.
  destruct (ldau_defaults_exact a st) as (st0 & E0 & Hb0 & Hs0 & Ha0).
  rewrite (bind_eq_Return _ _ _ _ _ E0) in Hrun.
  unfold new_fw at 1 in Hrun. unfold bind at 1 in Hrun.
  unfold bind at 1 in Hrun. rewrite compute_max_index_stateless in Hrun.
  unfold generated_slabs.
  destruct (max_index_of (adsorbate_config a)) as [m|e]; [| discriminate].
  apply jobs_from_slabs_Return in Hrun as (_ & _ & Hloop).
  eapply (slabs_loop_exact a (dict_at st (slab_incar_params a))
            (dict_at st (ads_incar_params a))) in Hloop as (Hfws & Hst' & Hb).
  - rewrite Hfws. split; [done |]. split; [done |].
    simpl in Hb. simpl. rewrite length_map. lia.
  - done.
  - split; left; done.
Qed.

(** After a call that returns and met a requested slab. *)
Lemma get_wf_adsorption_settles a st wf st' :
  get_wf_adsorption a st = (Return wf, st') ->
  (exists slab,
      slab ∈ generated_slabs a
      /\ is_Some (config_get (adsorbate_config a) (mi_string_of slab))) ->
  settled a (dict_at st (slab_incar_params a)) (dict_at st (ads_incar_params a)) st'.
Proof.
  intros Hrun Hreq. unfold get_wf_adsorption in Hrun.
  destruct (ldau_defaults_exact a st) as (st0 & E0 & Hb0 & Hs0 & Ha0).
  rewrite (bind_eq_Return _ _ _ _ _ E0) in Hrun.
  unfold new_fw at 1 in Hrun. unfold bind at 1 in Hrun.
  unfold bind at 1 in Hrun. rewrite compute_max_index_stateless in Hrun.
  unfold generated_slabs in Hreq.
  destruct (max_index_of (adsorbate_config a)) as [m|e]; [| discriminate].
  apply jobs_from_slabs_Return in Hrun as (_ & _ & Hloop).
  eapply slabs_loop_settles; [| | exact Hloop | by left].
  - done.
  - split; left; done.
Qed.

Lemma slab_plan_length a (slab : Slab) :
  length (slab_plan a slab)
  = match config_get (adsorbate_config a) (mi_string_of slab) with
    | Some molecules =>
        S (sum_list_with
             (fun molecule => length (generate_adsorption_structures slab molecule))
             molecules)
    | None => 0%nat
    end.
Proof.
  unfold slab_plan.
  destruct (config_get (adsorbate_config a) (mi_string_of slab)) as [molecules|];
    [| done].
  simpl. f_equal.
  induction molecules as [|molecule molecules IH]; [done |].
  simpl. by rewrite length_app, length_map, IH.
Qed.

Lemma job_plan_length a (slabs : list Slab) :
  length (job_plan a slabs)
  = (length (requested_slabs a slabs) + candidate_count a slabs)%nat.
Proof.
  unfold job_plan, requested_slabs, candidate_count.
  induction slabs as [|slab slabs IH]; [done |].
  simpl. rewrite length_app, IH, slab_plan_length, filter_cons.
  destruct (config_get (adsorbate_config a) (mi_string_of slab)) as [molecules|].
  - case_decide as Hs; [simpl; lia |]. destruct Hs. by eexists.
  - case_decide as Hs; [by destruct Hs | simpl; lia].
Qed.

End Exact.

(** ** Further properties of [get_wf_adsorption] *)

Section AdsorptionExtras.
Context `{VaspSets} `{PyUnicode}.

Implicit Types (a : AdsorptionArgs) (st : Interp).

(** X1.  With the library calls returning, a call returns a workflow
    exactly when it is valid: [max_index] is defined, every requested key is the Miller-index string of a
    generated slab, and every site of the candidates of the requested
    slabs carries the ["surface_properties"] tag. *)
Theorem returns_exactly_when_valid a st :
  (exists wf st', get_wf_adsorption a st = (Return wf, st'))
  <-> valid_call a = true.
Proof.
  split.
  - intros (wf & st' & Hrun). by eapply get_wf_adsorption_Return_valid.
  - apply get_wf_adsorption_returns.
Qed.

(** X2.  The workflow a valid call returns is determined job by job: the
    bulk job, then for each generated slab that is requested, in
    enumeration order, its slab job followed by one adsorbate job per
    candidate of each of its molecules.  All slab jobs carry the same
    INCAR overrides and all adsorbate jobs the same: what the
    dictionaries held when the call started, with the LDAU default and
    the dipole settings the call's flags add. *)
Theorem returned_workflow_is_the_plan a st :
  valid_call a = true ->
  exists wf st',
    get_wf_adsorption a st = (Return wf, st')
    /\ fws wf
       = bulk_job a
         :: map (planned_job a
                   (overrides_after a (dict_at st (slab_incar_params a)))
                   (overrides_after a (dict_at st (ads_incar_params a))))
              (job_plan a (generated_slabs a))
    /\ wf_name wf
       = reduced_formula (normalized_structure a) +:+ ":Adsorbate calculations".
Proof.
  intros Hvalid.
  destruct (get_wf_adsorption_returns a st Hvalid) as (wf & st' & Hrun).
  exists wf, st'. split; [done |].
  destruct (get_wf_adsorption_exact _ _ _ _ Hrun) as (Hfws & _ & _).
  destruct (get_wf_adsorption_spec _ _ _ _ Hrun) as (_ & _ & _ & Hname).
  done.
Qed.

(** X3.  Making the same valid call a second time, in the state the first
    one left, returns the same workflow: the updates of the override
    dictionaries are idempotent. *)
Theorem repeated_call_returns_the_same_workflow a st :
  valid_call a = true ->
  exists wf st' st'',
    get_wf_adsorption a st = (Return wf, st')
    /\ get_wf_adsorption a st' = (Return wf, st'').
Proof.
  intros Hvalid.
  destruct (get_wf_adsorption_returns a st Hvalid) as (wf & st' & Hrun).
  destruct (get_wf_adsorption_returns a st' Hvalid) as (wf2 & st'' & Hrun2).
  exists wf, st', st''. split; [done |].
  destruct (get_wf_adsorption_exact _ _ _ _ Hrun) as (Hfws & [Hs Ha] & _).
  destruct (get_wf_adsorption_exact _ _ _ _ Hrun2) as (Hfws2 & _ & _).
  destruct (get_wf_adsorption_spec _ _ _ _ Hrun) as (_ & _ & _ & Hname).
  destruct (get_wf_adsorption_spec _ _ _ _ Hrun2) as (_ & _ & _ & Hname2).
  assert (Es : overrides_after a (dict_at st' (slab_incar_params a))
               = overrides_after a (dict_at st (slab_incar_params a))).
  { destruct Hs as [-> | ->];
      [apply overrides_after_ldau | apply overrides_after_idemp]. }
  assert (Ea : overrides_after a (dict_at st' (ads_incar_params a))
               = overrides_after a (dict_at st (ads_incar_params a))).
  { destruct Ha as [-> | ->];
      [apply overrides_after_ldau | apply overrides_after_idemp]. }
  rewrite Es, Ea, <- Hfws in Hfws2. rewrite <- Hname in Hname2.
  rewrite Hrun2. destruct wf, wf2. simpl in *. by subst.
Qed.

(** A valid call requests at least one generated slab. *)
Lemma valid_call_requests_a_slab a :
  valid_call a = true ->
  exists slab,
    slab ∈ generated_slabs a
    /\ is_Some (config_get (adsorbate_config a) (mi_string_of slab)).
Proof.
  unfold valid_call. intros Hvalid.
  destruct (max_index_of (adsorbate_config a)) as [m|e] eqn:Em; [| discriminate].
  apply andb_prop in Hvalid as [Hkeys _].
  destruct (max_index_of_Return _ _ Em) as (ds & Eds & Hin & _).
  destruct (config_keys (adsorbate_config a)) as [|key keys] eqn:Ek.
  { destruct ds; [by apply elem_of_nil in Hin | discriminate]. }
  simpl in Hkeys. apply andb_prop in Hkeys as [Hkey _].
  apply bool_decide_eq_true in Hkey. unfold generated_mi_strings in Hkey.
  apply list_elem_of_fmap in Hkey as (slab & Hmi & Hslab).
  exists slab. split; [done |].
  apply config_get_key. rewrite Ek, <- Hmi. by left.
Qed.

(** X4.  When a valid call returns, each of the two override dictionaries
    holds what it held before the call with the LDAU default (if the
    bulk input set has no LDAU flag) and the dipole settings (if
    [auto_dipole]) written over it; with [auto_dipole] both hold
    [LDIPOL = "True"] from then on. *)
Theorem dictionaries_after_a_valid_call a st :
  valid_call a = true ->
  exists wf st',
    get_wf_adsorption a st = (Return wf, st')
    /\ dict_at st' (slab_incar_params a)
       = overrides_after a (dict_at st (slab_incar_params a))
    /\ dict_at st' (ads_incar_params a)
       = overrides_after a (dict_at st (ads_incar_params a))
    /\ (auto_dipole a = true ->
        dict_at st' (slab_incar_params a) !! "LDIPOL" = Some (PyStr "True")
        /\ dict_at st' (ads_incar_params a) !! "LDIPOL" = Some (PyStr "True")).
Proof.
  intros Hvalid.
  destruct (get_wf_adsorption_returns a st Hvalid) as (wf & st' & Hrun).
  exists wf, st'. split; [done |].
  destruct (get_wf_adsorption_settles _ _ _ _ Hrun (valid_call_requests_a_slab _ Hvalid))
    as [Hs Ha].
  split; [done |]. split; [done |].
  intros Hdip. rewrite Hs, Ha. unfold overrides_after. rewrite Hdip.
  split; by rewrite (lookup_union_l' _ _ "LDIPOL") by (by eexists).
Qed.

(** X6.  A valid call runs one job constructor per job of the workflow it
    returns, none is built and dropped, and the workflow holds the bulk
    job, one slab job per requested slab and one adsorbate job per
    candidate structure. *)
Theorem every_built_job_is_returned a st :
  valid_call a = true ->
  exists wf st',
    get_wf_adsorption a st = (Return wf, st')
    /\ fireworks_built st' = (fireworks_built st + length (fws wf))%nat
    /\ length (fws wf)
       = (1 + length (requested_slabs a (generated_slabs a))
          + candidate_count a (generated_slabs a))%nat.
Proof.
  intros Hvalid.
  destruct (get_wf_adsorption_returns a st Hvalid) as (wf & st' & Hrun).
  exists wf, st'. split; [done |].
  destruct (get_wf_adsorption_exact _ _ _ _ Hrun) as (Hfws & _ & Hb).
  split; [done |].
  rewrite Hfws. simpl. rewrite length_map, job_plan_length. lia.
Qed.

Lemma job_plan_slabs a (slabs : list Slab) (p : JobPlan) :
  p ∈ job_plan a slabs ->
  plan_slab p ∈ slabs
  /\ mi_string_of (plan_slab p) ∈ config_keys (adsorbate_config a).
Proof.
  unfold job_plan. intros Hp.
  apply list_elem_of_In, in_flat_map in Hp as (slab & Hslab & Hp).
  apply list_elem_of_In in Hslab, Hp. unfold slab_plan in Hp.
  destruct (config_get (adsorbate_config a) (mi_string_of slab)) as [molecules|] eqn:Hget;
    [| by apply elem_of_nil in Hp].
  assert (plan_slab p = slab) as ->.
  { apply elem_of_cons in Hp as [-> | Hp]; [done |].
    apply list_elem_of_In, in_flat_map in Hp as (molecule & _ & Hp).
    apply in_map_iff in Hp as (struct & <- & _). done. }
  split; [done | by eapply config_get_Some_key].
Qed.

(** X7.  A returned workflow holds no job for a surface that was not
    requested: every job other than the bulk job carries, as its first
    transformation parameters, the slab cut of a generated slab whose
    Miller-index string is a requested key. *)
Theorem jobs_only_for_requested_slabs a st :
  valid_call a = true ->
  exists wf st',
    get_wf_adsorption a st = (Return wf, st')
    /\ forall fw,
         fw ∈ fws wf ->
         fw = bulk_job a
         \/ exists slab,
              slab ∈ generated_slabs a
              /\ mi_string_of slab ∈ config_keys (adsorbate_config a)
              /\ head (fw_transformation_params fw)
                 = Some (SlabParams (slab_cut_params a slab)).
Proof.
  intros Hvalid.
  destruct (get_wf_adsorption_returns a st Hvalid) as (wf & st' & Hrun).
  exists wf, st'. split; [done |].
  destruct (get_wf_adsorption_exact _ _ _ _ Hrun) as (Hfws & _ & _).
  intros fw Hfw. rewrite Hfws in Hfw.
  apply elem_of_cons in Hfw as [-> | Hfw]; [by left | right].
  apply list_elem_of_fmap in Hfw as (p & -> & Hp).
  destruct (job_plan_slabs _ _ _ Hp) as [Hslab Hkey].
  exists (plan_slab p). split; [done |]. split; [done |].
  by destruct p.
Qed.

Lemma overrides_after_keep_ldipol a (d : PyDict) :
  d !! "LDIPOL" = Some (PyStr "True") ->
  overrides_after a d !! "LDIPOL" = Some (PyStr "True").
Proof.
  intros Hd.
  assert (Hl : with_ldau_default a d !! "LDIPOL" = Some (PyStr "True")).
  { unfold with_ldau_default. destruct (negb _); [| done].
    by rewrite lookup_union_r by (by rewrite lookup_singleton_ne). }
  unfold overrides_after. destruct (auto_dipole a); [| done].
  by rewrite (lookup_union_l' _ _ "LDIPOL") by (by eexists).
Qed.

(** X5.  The dipole settings a valid call with [auto_dipole] writes reach
    the next call that uses the same slab dictionary (the default one
    when both leave [slab_incar_params] out): every slab job of the
    workflow that call returns carries [LDIPOL = "True"] in its INCAR
    overrides, whatever its own [auto_dipole]. *)
Theorem dipole_settings_reach_the_next_call a b st :
  valid_call a = true -> valid_call b = true ->
  auto_dipole a = true ->
  slab_incar_params b = slab_incar_params a ->
  exists wf_a st' wf_b st'',
    get_wf_adsorption a st = (Return wf_a, st')
    /\ get_wf_adsorption b st' = (Return wf_b, st'')
    /\ forall fw,
         fw ∈ fws wf_b -> is_slab_job fw = true ->
         user_incar_settings_of (fw_vasp_input_set fw) !! "LDIPOL"
         = Some (PyStr "True").
Proof.
  intros Hva Hvb Hdip Hloc.
  destruct (get_wf_adsorption_returns a st Hva) as (wf_a & st' & Hrun_a).
  destruct (get_wf_adsorption_returns b st' Hvb) as (wf_b & st'' & Hrun_b).
  exists wf_a, st', wf_b, st''. split; [done |]. split; [done |].
  destruct (get_wf_adsorption_settles _ _ _ _ Hrun_a (valid_call_requests_a_slab _ Hva))
    as [Hs _].
  destruct (get_wf_adsorption_exact _ _ _ _ Hrun_b) as (Hfws & _ & _).
  assert (Hd : dict_at st' (slab_incar_params b) !! "LDIPOL" = Some (PyStr "True")).
  { rewrite Hloc, Hs. unfold overrides_after. rewrite Hdip.
    by rewrite (lookup_union_l' _ _ "LDIPOL") by (by eexists). }
  intros fw Hfw Hslab. rewrite Hfws in Hfw.
  apply elem_of_cons in Hfw as [-> | Hfw]; [discriminate |].
  apply list_elem_of_fmap in Hfw as (p & -> & _).
  destruct p as [slab | slab molecule struct]; [| discriminate].
  simpl. by apply overrides_after_keep_ldipol.
Qed.

End AdsorptionExtras.

(** ** What a call leaves in the store, however it ends *)

Section Effects.
Context `{VaspSets} `{PyUnicode}.

Implicit Types (a : AdsorptionArgs) (st : Interp).

Lemma is_adsorbate_site_state (site : Site) st : snd (is_adsorbate_site site st) = st.
Proof.
  unfold is_adsorbate_site, py_getitem, bind.
  by destruct (properties site !! "surface_properties").
Qed.

Lemma update_both_keeps a (P : Interp -> Prop) (b : bool) (l1 l2 : loc) (o : PyDict) st :
  kept_by_call a P ->
  l1 = slab_incar_params a \/ l1 = ads_incar_params a ->
  l2 = slab_incar_params a \/ l2 = ads_incar_params a ->
  o = {[ "LDAU" := PyBool false ]} \/ o = dipole_dict ->
  P st ->
  P (snd ((if b then run! dict_update l1 o in dict_update l2 o else ret tt) st)).
Proof.
  intros [_ Hupd] Hl1 Hl2 Ho HP. destruct b; [| done].
  unfold bind. simpl.
  change (P (snd (dict_update l2 o (snd (dict_update l1 o st))))).
  apply Hupd; [done | done |]. by apply Hupd.
Qed.

Lemma adsorbate_step_keeps a (P : Interp -> Prop) (s0 : Structure) slab
    (q : SlabTransParams) (mi : string) molecule (fws : list Firework) struct st :
  kept_by_call a P -> P st ->
  P (snd (adsorbate_step a s0 slab q mi molecule fws struct st)).
Proof.
  intros HK HP. unfold adsorbate_step.
  apply bind_keeps.
  { by rewrite (py_filter_state _ is_adsorbate_site_state). }
  intros ads_sites st1 HP1. apply bind_keeps; [done |].
  intros d st2 HP2. apply bind_keeps.
  { unfold py_index. by destruct (fws !! 0%nat). }
  intros parent st3 HP3. apply bind_keeps.
  { simpl. by apply HK. }
  intros fw st4 HP4. done.
Qed.

Lemma slab_step_keeps a (P : Interp -> Prop) (s0 : Structure)
    (fws : list Firework) slab st :
  kept_by_call a P -> P st -> P (snd (slab_step a s0 fws slab st)).
Proof.
  intros HK HP. unfold slab_step.
  destruct (config_get (adsorbate_config a) (mi_string_of slab)) as [molecules|];
    [| done].
  apply bind_keeps.
  { apply (update_both_keeps a); auto. }
  intros [] st1 HP1. apply bind_keeps; [done |].
  intros d st2 HP2. apply bind_keeps.
  { unfold py_index. by destruct (fws !! 0%nat). }
  intros parent st3 HP3. apply bind_keeps.
  { simpl. by apply HK. }
  intros fw st4 HP4. apply py_for_keeps; [| done].
  intros molecule acc s Hs. unfold molecule_step.
  apply py_for_keeps; [| done].
  intros struct acc2 s2 Hs2. by apply adsorbate_step_keeps.
Qed.

Lemma check_key_state (mi_strings : list string) (u : unit) (key : string) st :
  snd (check_key mi_strings u key st) = st.
Proof. unfold check_key. by destruct (bool_decide _). Qed.

Lemma jobs_from_slabs_keeps a (P : Interp -> Prop) (s0 : Structure)
    (fws : list Firework) slabs st :
  kept_by_call a P -> P st -> P (snd (jobs_from_slabs a s0 fws slabs st)).
Proof.
  intros HK HP. unfold jobs_from_slabs.
  apply bind_keeps.
  { apply py_for_keeps; [| done]. intros key u s Hs. by rewrite check_key_state. }
  intros [] st1 HP1. apply bind_keeps.
  { apply py_for_keeps; [| done]. intros slab acc s Hs. by apply slab_step_keeps. }
  intros fws' st2 HP2. done.
Qed.

Lemma after_defaults_keeps a (P : Interp -> Prop) st :
  kept_by_call a P -> P st -> P (snd (after_defaults a st)).
Proof.
  intros HK HP. unfold after_defaults.
  apply bind_keeps.
  { simpl. by apply HK. }
  intros bulk st1 HP1. apply bind_keeps.
  { by rewrite compute_max_index_stateless. }
  intros m st2 HP2. by apply jobs_from_slabs_keeps.
Qed.

(** The call is the LDAU defaults followed by the rest. *)
Lemma get_wf_adsorption_after_defaults a st :
  get_wf_adsorption a st
  = after_defaults a (snd (ldau_defaults a (bulk_input_set a) st)).
Proof.
  unfold get_wf_adsorption.
  destruct (ldau_defaults_run a (bulk_input_set a) st) as (st0 & E0 & _).
  rewrite (bind_eq_Return _ _ _ _ _ E0), E0. reflexivity.
Qed.

Lemma get_wf_adsorption_keeps a (P : Interp -> Prop) st :
  kept_by_call a P -> P st -> P (snd (get_wf_adsorption a st)).
Proof.
  intros HK HP. rewrite get_wf_adsorption_after_defaults.
  apply after_defaults_keeps; [done |].
  unfold ldau_defaults. apply (update_both_keeps a); auto.
Qed.

Lemma dipole_dict_other_key (k : string) :
  k <> "LDIPOL" -> k <> "IDIPOL" -> k <> "DIPOL" -> dipole_dict !! k = None.
Proof.
  intros H1' H2' H3'. unfold dipole_dict.
  rewrite !lookup_insert_ne by done. by rewrite lookup_singleton_ne.
Qed.

(** X11.  However a call ends, returning or raising, it has changed
    nothing in the store but the entries ["LDAU"], ["LDIPOL"],
    ["IDIPOL"] and ["DIPOL"] of the two dictionaries passed as
    [slab_incar_params] and [ads_incar_params]: every other dictionary
    and every other key holds what it held. *)
Theorem only_the_four_incar_keys_are_written a st (l : loc) (k : string) :
  (l <> slab_incar_params a /\ l <> ads_incar_params a)
  \/ (k <> "LDAU" /\ k <> "LDIPOL" /\ k <> "IDIPOL" /\ k <> "DIPOL") ->
  dict_at (snd (get_wf_adsorption a st)) l !! k = dict_at st l !! k.
Proof.
  intros Hlk.
  apply (get_wf_adsorption_keeps a
           (fun st1 => dict_at st1 l !! k = dict_at st l !! k)); [| done].
  split; [done |].
  intros st1 l1 o Hl1 Ho HP. rewrite dict_at_update.
  case_decide as E; [| done]. subst l1.
  destruct Hlk as [[Hs Ha] | (Hk1 & Hk2 & Hk3 & Hk4)].
  - destruct Hl1; congruence.
  - rewrite lookup_union_r; [done |].
    destruct Ho as [-> | ->].
    + by rewrite lookup_singleton_ne.
    + by apply dipole_dict_other_key.
Qed.

(** X12.  When the bulk input set has no LDAU flag, the call has written
    [LDAU = False] into both override dictionaries however it ends, so
    a call that raises still leaves the caller's (or the default)
    dictionaries modified. *)
Theorem ldau_default_is_written_whatever_the_outcome a st :
  incar_LDAU (bulk_input_set a) = false ->
  dict_at (snd (get_wf_adsorption a st)) (slab_incar_params a) !! "LDAU"
  = Some (PyBool false)
  /\ dict_at (snd (get_wf_adsorption a st)) (ads_incar_params a) !! "LDAU"
     = Some (PyBool false).
Proof.
  intros Hldau. rewrite get_wf_adsorption_after_defaults.
  destruct (ldau_defaults_exact a st) as (st0 & E0 & _ & Hs0 & Ha0).
  rewrite E0. simpl.
  apply (after_defaults_keeps a
           (fun st1 =>
              dict_at st1 (slab_incar_params a) !! "LDAU" = Some (PyBool false)
              /\ dict_at st1 (ads_incar_params a) !! "LDAU" = Some (PyBool false))).
  - split; [done |].
    intros st1 l o Hl Ho [HPs HPa]. rewrite !dict_at_update.
    assert (Hnew : forall d : PyDict,
               d !! "LDAU" = Some (PyBool false) ->
               (o ∪ d) !! "LDAU" = Some (PyBool false)).
    { intros d Hd. destruct Ho as [-> | ->].
      - by rewrite (lookup_union_l' _ _ "LDAU")
          by (rewrite lookup_singleton_eq; by eexists).
      - by rewrite lookup_union_r by apply dipole_has_no_ldau. }
    split; case_decide; subst; auto.
  - rewrite Hs0, Ha0. unfold with_ldau_default. rewrite Hldau. simpl.
    split; by rewrite (lookup_union_l' _ _ "LDAU")
      by (rewrite lookup_singleton_eq; by eexists).
Qed.

End Effects.

(** ** The exceptions of [get_wf_adsorption] *)

Section Errors.
Context `{VaspSets} `{PyUnicode}.

Implicit Types (a : AdsorptionArgs) (st : Interp) (fws : list Firework).

Lemma bind_Raise {A B} (m : Py A) (k : A -> Py B) st e st' :
  bind m k st = (Raise e, st') ->
  m st = (Raise e, st')
  \/ exists x st1, m st = (Return x, st1) /\ k x st1 = (Raise e, st').
Proof.
  unfold bind. destruct (m st) as [[x|e1] st1]; [| intros [= -> ->]; by left].
  intros Hk. right. by exists x, st1.
Qed.

Lemma py_filter_Raise {A} (c : A -> Py bool) (l : list A) st e st' :
  py_filter c l st = (Raise e, st') ->
  exists x st0, x ∈ l /\ c x st0 = (Raise e, st').
Proof.
  revert st. induction l as [|x l IH]; intros st Hrun; simpl in Hrun.
  - discriminate.
  - apply bind_Raise in Hrun as [Hc | (b & st1 & Hc & Hrun)].
    + exists x, st. split; [by left | done].
    + apply bind_Raise in Hrun as [Hl | (ys & st2 & _ & Hret)]; [| discriminate].
      destruct (IH _ Hl) as (y & st0 & Hy & E). exists y, st0.
      split; [by right | done].
Qed.

Lemma is_adsorbate_site_Raise (site : Site) st e st' :
  is_adsorbate_site site st = (Raise e, st') -> e = KeyError "surface_properties".
Proof.
  unfold is_adsorbate_site, py_getitem, bind.
  destruct (properties site !! "surface_properties"); [discriminate |].
  by intros [= <- _].
Qed.

(** With the bulk job in place, a candidate can only fail on a site
    without the tag. *)
Lemma adsorbate_step_Raise a slab molecule fws struct st e st' :
  rooted a fws ->
  adsorbate_step a (normalized_structure a) slab (slab_cut_params a slab)
    (mi_string_of slab) molecule fws struct st = (Raise e, st') ->
  e = KeyError "surface_properties".
Proof.
  intros Hroot Hrun. unfold adsorbate_step in Hrun.
  apply bind_Raise in Hrun as [Hf | (ads_sites & st1 & _ & Hrun)].
  { apply py_filter_Raise in Hf as (site & st0 & _ & Hsite).
    by eapply is_adsorbate_site_Raise. }
  rewrite (bind_eq_Return _ _ _ _ _ (read_dict_at _ _)) in Hrun.
  rewrite (bind_eq_Return _ _ _ _ _ (py_index_rooted _ _ _ Hroot)) in Hrun.
  discriminate.
Qed.

Lemma molecule_step_Raise a slab fws molecule st e st' :
  rooted a fws ->
  molecule_step a (normalized_structure a) slab (slab_cut_params a slab)
    (mi_string_of slab) fws molecule st = (Raise e, st') ->
  e = KeyError "surface_properties".
Proof.
  intros Hroot Hrun. unfold molecule_step in Hrun.
  eapply (py_for_Raise (rooted a)) in Hrun as (struct & acc0 & st0 & _ & Hacc & E);
    [by eapply adsorbate_step_Raise | | exact Hroot].
  intros struct acc s acc' s' Hacc Hstep.
  destruct (adsorbate_step_spec _ _ _ _ _ _ _ _ Hacc Hstep) as (new & -> & _).
  by apply rooted_app.
Qed.

Lemma slab_step_Raise a fws slab st e st' :
  rooted a fws ->
  slab_step a (normalized_structure a) fws slab st = (Raise e, st') ->
  e = KeyError "surface_properties".
Proof.
  intros Hroot Hrun. unfold slab_step in Hrun.
  destruct (config_get (adsorbate_config a) (mi_string_of slab)) as [molecules|];
    [| discriminate].
  destruct (dict_update_twice_run (slab_incar_params a) (ads_incar_params a)
              dipole_dict dipole_dict (auto_dipole a) st) as (st1 & E1 & _).
  rewrite (bind_eq_Return _ _ _ _ _ E1) in Hrun.
  rewrite (bind_eq_Return _ _ _ _ _ (read_dict_at _ _)) in Hrun.
  rewrite (bind_eq_Return _ _ _ _ _ (py_index_rooted _ _ _ Hroot)) in Hrun.
  unfold new_fw at 1 in Hrun. unfold bind at 1 in Hrun.
  eapply (py_for_Raise (rooted a)) in Hrun as (molecule & acc0 & st0 & _ & Hacc & E);
    [by eapply molecule_step_Raise | | by apply rooted_app].
  intros molecule acc s acc' s' Hacc Hstep.
  destruct (molecule_step_spec _ _ _ _ _ _ _ Hacc Hstep) as (new & -> & _).
  by apply rooted_app.
Qed.

Lemma slabs_loop_Raise a fws slabs st e st' :
  rooted a fws ->
  py_for slabs fws (slab_step a (normalized_structure a)) st = (Raise e, st') ->
  e = KeyError "surface_properties".
Proof.
  intros Hroot Hrun.
  eapply (py_for_Raise (rooted a)) in Hrun as (slab & acc0 & st0 & _ & Hacc & E);
    [by eapply slab_step_Raise | | exact Hroot].
  intros slab acc s acc' s' Hacc Hstep.
  destruct (slab_step_spec _ _ _ _ _ _ Hacc Hstep) as (new & -> & _).
  by apply rooted_app.
Qed.

(** X13.  The exceptions the builder's own code can raise (the library
    calls apart) are four: the error of [max] on
    an empty sequence when the joined keys are empty; the error of [int]
    on a character of the keys that is not a decimal digit; the Miller-index
    error, listing the generated strings, when a key is not among them;
    and a [KeyError] for ["surface_properties"] when a candidate site
    lacks the tag.  In particular [fws[0]] never raises [IndexError]. *)
Theorem exceptions_of_get_wf_adsorption a st e st' :
  get_wf_adsorption a st = (Raise e, st') ->
  (e = ValueError_max_empty /\ join (config_keys (adsorbate_config a)) = "")
  \/ (exists c,
        e = ValueError_int c /\ unicode_decimal c = None
        /\ c ∈ code_points (join (config_keys (adsorbate_config a))))
  \/ (e = ValueError_miller (generated_mi_strings a)
      /\ exists key,
           key ∈ config_keys (adsorbate_config a) /\ key ∉ generated_mi_strings a)
  \/ (e = KeyError "surface_properties"
      /\ candidates_tagged a (generated_slabs a) = false).
Proof.
  intros Hrun.
  assert (Hnot : valid_call a <> true).
  { intros Hvalid.
    destruct (get_wf_adsorption_returns a st Hvalid) as (wf & st2 & E).
    rewrite E in Hrun. discriminate. }
  destruct (get_wf_adsorption_run a st) as (st1 & _ & E). rewrite E in Hrun. clear E.
  unfold valid_call, generated_mi_strings, generated_slabs in *.
  destruct (max_index_of (adsorbate_config a)) as [m|e0] eqn:Em.
  - destruct (forallb (fun key => bool_decide (key ∈ map mi_string_of
                (generate_decorated_slabs (normalized_structure a) m (min_slab_size a)
                   (min_vacuum_size a) (max_normal_search a) (center_slab a))))
                (config_keys (adsorbate_config a))) eqn:Hkeys.
    + right. right. right.
      unfold jobs_from_slabs in Hrun.
      rewrite (bind_eq_Return _ _ _ _ _ (check_keys_ok _ _ st1 Hkeys)) in Hrun.
      apply bind_Raise in Hrun as [Hloop | (fws' & st2 & _ & Hret)]; [| discriminate].
      split; [by eapply (slabs_loop_Raise a [bulk_job a]) |].
      simpl in Hnot. by destruct (candidates_tagged a _).
    + right. right. left.
      rewrite (jobs_from_slabs_invalid _ _ _ _ Hkeys) in Hrun.
      injection Hrun as <- _. split; [done |].
      apply forallb_first_failure in Hkeys as (l1 & key & l2 & Ek & _ & Hkey).
      exists key. split.
      * rewrite Ek. apply elem_of_app. right. by left.
      * by apply bool_decide_eq_false in Hkey.
  - injection Hrun as <- _.
    destruct (max_index_of_cases (adsorbate_config a))
      as [[Hb Ec] | [(cs1 & c & cs2 & Ecs & _ & Hc & Ec) | (m & ds & Ec & _)]];
      rewrite Em in Ec; [| | discriminate].
    + left. by injection Ec as ->.
    + right. left. injection Ec as ->. exists c.
      split; [done |]. split; [done |].
      rewrite Ecs. apply elem_of_app. right. by left.
Qed.

End Errors.

(** ** The order of the requested keys *)

Section KeyOrder.
Context `{VaspSets} `{PyUnicode}.

Implicit Types (a : AdsorptionArgs) (st : Interp)
  (cfg : list (string * list Molecule)).

Lemma chars_join_Permutation (keys keys' : list string) :
  keys ≡ₚ keys' ->
  list_ascii_of_string (join keys) ≡ₚ list_ascii_of_string (join keys').
Proof.
  induction 1 as [|k l l' _ IH|k1 k2 l|l1 l2 l3 _ IH1 _ IH2]; simpl.
  - done.
  - rewrite !chars_app. by apply Permutation_app_head.
  - rewrite !chars_app. apply Permutation_app_swap_app.
  - by etransitivity.
Qed.

Lemma chars_nil (s : string) : list_ascii_of_string s = [] -> s = "".
Proof. by destruct s. Qed.

Lemma config_keys_Permutation cfg cfg' :
  cfg ≡ₚ cfg' -> config_keys cfg ≡ₚ config_keys cfg'.
Proof. apply Permutation_map. Qed.

Lemma config_get_not_key cfg (k : string) :
  k ∉ config_keys cfg -> config_get cfg k = None.
Proof.
  intros Hk. destruct (config_get cfg k) as [ms|] eqn:E; [| done].
  destruct Hk. by eapply config_get_Some_key.
Qed.

(** Lookup in a dictionary does not depend on the order of its items. *)
Lemma config_get_Permutation cfg cfg' (k : string) :
  NoDup (config_keys cfg) -> cfg ≡ₚ cfg' -> config_get cfg' k = config_get cfg k.
Proof.
  intros Hnd Hperm.
  induction Hperm as [|[k0 ms] l l' _ IH|[k1 ms1] [k2 ms2] l|l1 l2 l3 Hp1 IH1 _ IH2];
    simpl in *.
  - done.
  - apply NoDup_cons in Hnd as [_ Hnd]. by rewrite IH.
  - apply NoDup_cons in Hnd as [Hne _].
    destruct (String.eqb k1 k) eqn:E1, (String.eqb k2 k) eqn:E2; try done.
    apply String.eqb_eq in E1, E2. subst. destruct Hne. by left.
  - rewrite IH2, IH1; [done | done |].
    by rewrite <- (config_keys_Permutation _ _ Hp1).
Qed.

Lemma forallb_Permutation {A} (f : A -> bool) (l l' : list A) :
  l ≡ₚ l' -> forallb f l = forallb f l'.
Proof.
  induction 1 as [|x l l' _ IH|x y l|l1 l2 l3 _ IH1 _ IH2]; simpl.
  - done.
  - by rewrite IH.
  - destruct (f x), (f y); done.
  - by etransitivity.
Qed.

Lemma is_max_digit_Permutation (keys keys' : list string) (m : Z) :
  keys ≡ₚ keys' -> is_max_digit (join keys) m -> is_max_digit (join keys') m.
Proof.
  intros Hperm [Hin Hle]. unfold is_max_digit, digit_values in *.
  pose proof (chars_join_Permutation _ _ Hperm) as Hc.
  split.
  - by rewrite <- Hc.
  - by rewrite <- Hc.
Qed.

(** On digit keys [max_index] does not depend on the order of the keys. *)
Lemma max_index_of_Permutation cfg cfg' :
  all_digits (join (config_keys cfg)) = true ->
  cfg ≡ₚ cfg' -> max_index_of cfg' = max_index_of cfg.
Proof.
  intros Hd Hperm.
  pose proof (config_keys_Permutation _ _ Hperm) as Hk.
  pose proof (chars_join_Permutation _ _ Hk) as Hc.
  assert (Hd' : all_digits (join (config_keys cfg')) = true).
  { unfold all_digits in *. by rewrite <- (forallb_Permutation _ _ _ Hc). }
  destruct (string_dec (join (config_keys cfg)) "") as [Hb | Hb].
  - rewrite (max_index_of_blank _ Hb). apply max_index_of_blank.
    apply chars_nil. rewrite Hb in Hc. by apply Permutation_nil in Hc.
  - destruct (max_index_of_digits _ Hd Hb) as (m & -> & Hm).
    apply max_index_of_max_digit; [done |].
    by eapply is_max_digit_Permutation.
Qed.

Lemma py_for_ext {A B} (body1 body2 : B -> A -> Py B) (l : list A) (acc : B) st :
  (forall acc x st, body1 acc x st = body2 acc x st) ->
  py_for l acc body1 st = py_for l acc body2 st.
Proof.
  intros Hext. revert acc st. induction l as [|x l IH]; intros acc st; simpl; [done |].
  unfold bind. rewrite Hext.
  destruct (body2 acc x st) as [[acc1|e] st1]; [apply IH | done].
Qed.

Lemma slab_step_with_config a cfg' (s0 : Structure) (fws : list Firework) slab st :
  (forall k, config_get cfg' k = config_get (adsorbate_config a) k) ->
  slab_step (with_config a cfg') s0 fws slab st = slab_step a s0 fws slab st.
Proof.
  intros Hget. unfold slab_step. cbn [adsorbate_config with_config].
  rewrite Hget.
  by destruct (config_get (adsorbate_config a) (mi_string_of slab)).
Qed.

Lemma jobs_from_slabs_with_config a cfg' (s0 : Structure) (fws : list Firework)
    slabs st :
  NoDup (config_keys (adsorbate_config a)) ->
  adsorbate_config a ≡ₚ cfg' ->
  jobs_from_slabs (with_config a cfg') s0 fws slabs st
  = jobs_from_slabs a s0 fws slabs st.
Proof.
  intros Hnd Hperm. unfold jobs_from_slabs. cbn [adsorbate_config with_config].
  pose proof (forallb_Permutation
                (fun key => bool_decide (key ∈ map mi_string_of slabs)) _ _
                (config_keys_Permutation _ _ Hperm)) as Hf.
  destruct (forallb (fun key => bool_decide (key ∈ map mi_string_of slabs))
              (config_keys (adsorbate_config a))) eqn:Hk.
  - symmetry in Hf.
    rewrite (bind_eq_Return _ _ _ _ _ (check_keys_ok _ _ st Hf)).
    rewrite (bind_eq_Return _ _ _ _ _ (check_keys_ok _ _ st Hk)).
    unfold bind.
    rewrite (py_for_ext (slab_step (with_config a cfg') s0) (slab_step a s0)); [done |].
    intros acc slab s. apply slab_step_with_config.
    intros k. by apply config_get_Permutation.
  - symmetry in Hf.
    rewrite (bind_eq_Raise _ _ _ _ _ (check_keys_fail _ _ st Hf)).
    by rewrite (bind_eq_Raise _ _ _ _ _ (check_keys_fail _ _ st Hk)).
Qed.

(** X14.  With keys made of digits, the outcome of a call, the workflow or
    the error, and the state it leaves do not depend on the order in
    which the dictionary [adsorbate_config] yields its items. *)
Theorem key_order_is_irrelevant a cfg' st :
  NoDup (config_keys (adsorbate_config a)) ->
  all_digits (join (config_keys (adsorbate_config a))) = true ->
  adsorbate_config a ≡ₚ cfg' ->
  get_wf_adsorption (with_config a cfg') st = get_wf_adsorption a st.
Proof.
  intros Hnd Hd Hperm.
  rewrite !get_wf_adsorption_after_defaults.
  change (ldau_defaults (with_config a cfg') (bulk_input_set (with_config a cfg')) st)
    with (ldau_defaults a (bulk_input_set a) st).
  generalize (snd (ldau_defaults a (bulk_input_set a) st)). intros st0.
  unfold after_defaults.
  change (new_fw (bulk_job (with_config a cfg'))) with (new_fw (bulk_job a)).
  unfold bind at 1 3. unfold new_fw at 1 2.
  unfold bind at 1 2. cbn [adsorbate_config with_config].
  rewrite !compute_max_index_stateless.
  rewrite (max_index_of_Permutation _ _ Hd Hperm).
  destruct (max_index_of (adsorbate_config a)) as [m|e]; [| done].
  by apply jobs_from_slabs_with_config.
Qed.

End KeyOrder.

(** ** Further properties of [get_wf_molecules] *)

Section MoleculeExtras.
Context `{VaspSets} `{PyUnicode}.

Lemma molecule_jobs_loop_exact (mvs : float) (cmd : string) (db : option string)
    (l : list (Molecule * option InputSet)) (acc : list Firework) (st : Interp) :
  py_for l acc (molecule_job_step mvs cmd db) st
  = (Return (acc ++ map (molecule_job mvs cmd db) l),
     {| dicts := dicts st;
        fireworks_built := (fireworks_built st + length l)%nat |}).
Proof.
  revert acc st. induction l as [|[molecule vis] l IH]; intros acc st.
  - simpl. rewrite app_nil_r. unfold ret. destruct st. simpl.
    by rewrite Nat.add_0_r.
  - cbn [py_for]. unfold molecule_job_step at 1.
    unfold new_fw at 1. unfold bind at 1 2. unfold ret at 1.
    rewrite IH. cbn [map length dicts fireworks_built].
    f_equal; [f_equal; by rewrite <- app_assoc | f_equal; lia].
Qed.


End MoleculeExtras.

(** ** The builders at work on palladium *)

Import Demo.

(** ** Molecules in their cell *)

Lemma wrap_fits (y : Q) : (0 <= y)%Q -> (y < 1)%Q -> (wrap y == y)%Q.
Proof.
  intros Hlo Hhi. unfold wrap.
  pose proof (Qfloor_le y) as Hf. pose proof (Qlt_floor y) as Hc.
  assert (E : Qfloor y = 0%Z).
  { assert (Qfloor y < 1)%Z.
    { rewrite Zlt_Qlt. eapply Qle_lt_trans; [exact Hf | exact Hhi]. }
    assert (0 < Qfloor y + 1)%Z.
    { rewrite Zlt_Qlt. eapply Qle_lt_trans; [exact Hlo | exact Hc]. }
    lia. }
  rewrite E. change (inject_Z 0) with 0%Q. ring.
Qed.

Lemma qsum_shift (t : Q) (xs : list Q) :
  Forall (fun x => (0 <= x + t)%Q /\ (x + t < 1)%Q) xs ->
  (qsum (map (fun x => wrap (x + t)) xs)
   == qsum xs + inject_Z (Z.of_nat (length xs)) * t)%Q.
Proof.
  induction 1 as [|x xs [Hlo Hhi] _ IH].
  - simpl. ring.
  - cbn [map qsum foldr length]. fold (qsum (map (fun x => wrap (x + t)) xs)).
    fold (qsum xs).
    rewrite IH, (wrap_fits _ Hlo Hhi).
    rewrite Nat2Z.inj_succ, <- Z.add_1_r, inject_Z_plus. ring.
Qed.

Lemma mean_centred (xs : list Q) :
  xs <> [] ->
  Forall (fun x => (0 <= x + ((1 # 2) - mean xs))%Q
                   /\ (x + ((1 # 2) - mean xs) < 1)%Q) xs ->
  (mean (map (fun x => wrap (x + ((1 # 2) - mean xs))) xs) == 1 # 2)%Q.
Proof.
  intros Hne Hfit. unfold mean at 1. rewrite (qsum_shift _ _ Hfit), length_map.
  unfold mean.
  assert (Hn : ~ (inject_Z (Z.of_nat (length xs)) == 0)%Q).
  { destruct xs; [done |]. cbn [length]. intros E.
    unfold Qeq in E. simpl in E. lia. }
  field. exact Hn.
Qed.

Lemma imap_all {A} (f : A -> A) (l : list A) :
  imap (fun i s => if bool_decide (i ∈ seq 0 (length l)) then f s else s) l
  = map f l.
Proof.
  etrans; [| apply (imap_const f l)].
  apply imap_ext. intros i x Hi. simpl.
  apply lookup_lt_Some in Hi.
  rewrite bool_decide_eq_true_2; [done |].
  apply elem_of_seq. lia.
Qed.

Lemma nth_moved (f : list Q) (t0 t1 t2 : Q) (k : nat) :
  length f = 3%nat -> (k < 3)%nat ->
  nth k (map wrap (zip_with Qplus f [t0; t1; t2])) 0%Q
  = wrap (nth k f 0 + nth k [t0; t1; t2] 0)%Q.
Proof.
  intros Hf Hk.
  destruct f as [|x0 [|x1 [|x2 [|]]]]; try discriminate.
  destruct k as [|[|[|]]]; try lia; reflexivity.
Qed.

Lemma has_atoms_spec (m : molecule) :
  has_atoms m = true ->
  m_atoms m <> [] /\ Forall (fun at_ => length (snd at_) = 3%nat) (m_atoms m).
Proof.
  unfold has_atoms. intros [Hne Hall]%andb_prop. split.
  - apply negb_true_iff, bool_decide_eq_false in Hne. done.
  - apply Forall_forall. intros at_ Hin. rewrite forallb_forall in Hall.
    apply list_elem_of_In, Hall, bool_decide_eq_true in Hin. done.
Qed.

Lemma fits_cell_spec (a : Q) (m : molecule) (k : nat) :
  fits_cell a m = true -> (k < 3)%nat ->
  let xs := axis k (cubic_cell_structure a m) in
  Forall (fun x => (0 <= x + ((1 # 2) - mean xs))%Q
                   /\ (x + ((1 # 2) - mean xs) < 1)%Q) xs.
Proof.
  intros Hfit Hk xs. unfold fits_cell in Hfit. cbv zeta in Hfit.
  rewrite forallb_forall in Hfit.
  assert (Hin : In k [0; 1; 2]%nat).
  { destruct k as [|[|[|]]]; simpl; tauto || lia. }
  specialize (Hfit _ Hin). fold xs in Hfit.
  rewrite forallb_forall in Hfit.
  apply Forall_forall. intros x Hx%list_elem_of_In.
  apply Hfit in Hx. apply andb_prop in Hx as [Hlo Hhi].
  apply Qle_bool_iff in Hlo. apply negb_true_iff in Hhi.
  assert (Hhi' : ~ ((1 # 2) <= x - mean xs)%Q).
  { intros Hle%Qle_bool_iff. congruence. }
  split; lra.
Qed.

Lemma axis_centred (a : Q) (m : molecule) (k : nat) :
  has_atoms m = true -> (k < 3)%nat ->
  let xs := axis k (cubic_cell_structure a m) in
  axis k (centred a m) = map (fun x => wrap (x + ((1 # 2) - mean xs))%Q) xs.
Proof.
  intros [_ Hlen]%has_atoms_spec Hk xs. unfold centred. subst xs.
  cbn [translate_sites demo_pymatgen num_sites average_frac_coords
       float_sub float_lit_0_5 q_float cubic_cell_structure].
  unfold shift_sites, axis at 1. cbn [c_sites].
  rewrite imap_all, map_map. unfold axis at 2. cbn [c_sites]. rewrite !map_map.
  apply map_ext_in. intros at_ Hin.
  rewrite Forall_forall in Hlen.
  apply list_elem_of_In, Hlen in Hin.
  cbn [s_frac tagged replicate centroid map zip_with].
  rewrite nth_moved; [| by rewrite length_map | done].
  f_equal. f_equal.
  destruct k as [|[|[|]]]; try lia; reflexivity.
Qed.

Lemma axis_elem (a : Q) (m : molecule) (k : nat) (at_ : string * list Q) :
  at_ ∈ m_atoms m ->
  nth k (map (fun x => x / a)%Q (snd at_)) 0%Q ∈ axis k (cubic_cell_structure a m).
Proof.
  intros Hin. unfold axis.
  cbn [cubic_cell_structure demo_pymatgen c_sites]. rewrite map_map.
  apply list_elem_of_fmap. by exists at_.
Qed.

Lemma site_centred (a : Q) (m : molecule) (at_ : string * list Q) :
  has_atoms m = true -> fits_cell a m = true -> at_ ∈ m_atoms m ->
  let t := zip_with Qminus [1 # 2; 1 # 2; 1 # 2]%Q
             (centroid (cubic_cell_structure a m)) in
  Forall2 Qeq
    (map wrap (zip_with Qplus (map (fun x => x / a)%Q (snd at_)) t))
    (zip_with Qplus (map (fun x => x / a)%Q (snd at_)) t).
Proof.
  intros Hatoms Hfit Hin t.
  destruct (has_atoms_spec _ Hatoms) as [_ Hlen].
  rewrite Forall_forall in Hlen. pose proof (Hlen _ Hin) as H3.
  pose proof (fun k Hk => proj1 (Forall_forall _ _) (fits_cell_spec a m k Hfit Hk)
                            _ (axis_elem a m k at_ Hin)) as Hk.
  destruct at_ as [sp [|x0 [|x1 [|x2 [|]]]]]; try discriminate.
  pose proof (Hk 0%nat ltac:(lia)) as [H0lo H0hi].
  pose proof (Hk 1%nat ltac:(lia)) as [H1lo H1hi].
  pose proof (Hk 2%nat ltac:(lia)) as [H2lo H2hi].
  subst t. cbn [snd map zip_with centroid nth] in *.
  repeat constructor; by apply wrap_fits.
Qed.

Lemma molecule_job_structure (a : Q) (m : molecule) (v : option InputSet)
    (cmd : string) (db : option string) :
  fw_structure (molecule_job a cmd db (m, v)) = centred a m.
Proof. reflexivity. Qed.

Lemma molecule_job_centred (a : Q) (m : molecule) (v : option InputSet)
    (cmd : string) (db : option string) :
  has_atoms m = true -> fits_cell a m = true ->
  centred_job a m (molecule_job a cmd db (m, v)).
Proof.
  intros Hatoms Hfit. unfold centred_job.
  cbv zeta. rewrite !molecule_job_structure.
  split; [done |]. split; [done |]. split.
  - unfold centred.
    cbn [translate_sites demo_pymatgen num_sites average_frac_coords
         float_sub float_lit_0_5 q_float cubic_cell_structure].
    unfold shift_sites. cbn [c_sites]. rewrite imap_all, map_map.
    apply Forall2_fmap_l, Forall_Forall2_diag, Forall_forall.
    intros at_ Hin. cbn [s_species s_frac tagged]. split; [done |].
    by apply (site_centred a m at_).
  - unfold centroid at 1. cbn [map].
    destruct (has_atoms_spec _ Hatoms) as [Hne _].
    assert (Haxis : forall k, axis k (cubic_cell_structure a m) <> []).
    { intros k E. apply map_eq_nil in E.
      cbn [cubic_cell_structure demo_pymatgen c_sites] in E.
      by apply map_eq_nil in E. }
    repeat constructor;
      (rewrite axis_centred by (done || lia));
      (apply mean_centred; [apply Haxis | apply fits_cell_spec; [done | lia]]).
Qed.




(** One molecule on one requested surface with one candidate site: the
    bulk job, the slab job and the adsorbate job. *)
Example pd_111_h2_has_three_jobs :
  map fw_transformations
    (returned_jobs (get_wf_adsorption (default_args [("111", [h2])]) fresh_interp))
  = [[]; ["SlabTransformation"]; trans_ads].
Proof. vm_compute. reflexivity. Qed.

(** A request for (111) written with fullwidth digits: [int] accepts
    them, [max_index] is 1, and the key is not among the generated
    strings. *)
Example fullwidth_key_reaches_the_slab_check :
  code_points fullwidth_111 = [65297; 65297; 65297]%N
  /\ all_digits fullwidth_111 = false
  /\ max_index_of (adsorbate_config (default_args [(fullwidth_111, [h2])]))
     = Return 1
  /\ fst (get_wf_adsorption (default_args [(fullwidth_111, [h2])]) fresh_interp)
     = Raise (ValueError_miller ["111"; "100"]).
Proof. repeat split; vm_compute; reflexivity. Qed.

(** A request for (222) when (111) and (100) are generated. *)
Example pd_222_lists_the_slabs :
  fst (get_wf_adsorption (default_args [("222", [h2])]) fresh_interp)
  = Raise (ValueError_miller ["111"; "100"]).
Proof. reflexivity. Qed.

(** C1, as stated, fails.  The key "222" is not the Miller-index string
    of a generated slab, yet the call does not fail before any job is
    created: the bulk job has been built when the error is raised.  And
    the key "1-10", not among the generated strings either, raises the
    error of [int] on "-", which lists no Miller-index string. *)
Lemma unknown_key_fails_after_bulk_job :
  (let a := default_args [("222", [h2])] in
   (("222" ∈ config_keys (adsorbate_config a))
    /\ ("222" ∉ generated_mi_strings a)
    /\ ~ (exists e st',
            get_wf_adsorption a fresh_interp = (Raise e, st')
            /\ fireworks_built st' = fireworks_built fresh_interp)))
  /\ (let a := default_args [("1-10", [h2])] in
      (("1-10" ∈ config_keys (adsorbate_config a))
       /\ ("1-10" ∉ generated_mi_strings a)
       /\ forall mi_strings,
            fst (get_wf_adsorption a fresh_interp)
            <> Raise (ValueError_miller mi_strings))).
Proof.
  split; cbv zeta.
  - split; [compute_done |]. split; [compute_done |].
    intros (e & st' & Hrun & Hbuilt).
    assert (E : fireworks_built
                  (snd (get_wf_adsorption (default_args [("222", [h2])]) fresh_interp))
                = 1%nat) by (vm_compute; reflexivity).
    rewrite Hrun in E. simpl in E. rewrite Hbuilt in E. discriminate.
  - split; [compute_done |]. split; [compute_done |].
    intros mi_strings Hrun.
    assert (E : match fst (get_wf_adsorption (default_args [("1-10", [h2])]) fresh_interp)
                with Raise (ValueError_int _) => true | _ => false end = true)
      by (vm_compute; reflexivity).
    rewrite Hrun in E. discriminate.
Qed.

(** The request for (222) on palladium, where (111) and (100) are
    generated. *)
Lemma unknown_miller_key_raises_witness :
  exists st',
    get_wf_adsorption (default_args [("222", [h2])]) fresh_interp
    = (Raise (ValueError_miller (generated_mi_strings (default_args [("222", [h2])]))), st')
    /\ fireworks_built st' = S (fireworks_built fresh_interp).
Proof.
  apply (unknown_miller_key_raises (default_args [("222", [h2])]) fresh_interp "222").
  - vm_compute. reflexivity.
  - vm_compute. discriminate.
  - compute_done.
  - compute_done.
Defined.

(** The call with [adsorbate_config={}]. *)
Lemma empty_config_raises_witness :
  exists st',
    get_wf_adsorption (default_args []) fresh_interp = (Raise ValueError_max_empty, st').
Proof.
  apply (proj1 (empty_config_raises (default_args []) fresh_interp)).
  reflexivity.
Defined.

(** The keys "111" and "210": the largest digit is 2. *)
Lemma max_index_is_largest_digit_witness :
  let a := default_args [("111", [h2]); ("210", [])] in
  compute_max_index (adsorbate_config a) fresh_interp = (Return 2, fresh_interp)
  /\ exists st1,
       get_wf_adsorption a fresh_interp
       = jobs_from_slabs a (normalized_structure a) [bulk_job a]
           (generate_decorated_slabs (normalized_structure a) 2
              (min_slab_size a) (min_vacuum_size a) (max_normal_search a)
              (center_slab a)) st1.
Proof.
  apply (max_index_is_largest_digit
           (default_args [("111", [h2]); ("210", [])]) fresh_interp 2).
  - repeat constructor; vm_compute; discriminate || reflexivity.
  - split; compute_done.
Defined.

(** H2 on Pd(111). *)
Lemma bulk_job_is_the_only_root_witness :
  let a := default_args [("111", [h2])] in
  exists wf st' rest,
    get_wf_adsorption a fresh_interp = (Return wf, st')
    /\ fws wf = bulk_job a :: rest
    /\ fw_parents (bulk_job a) = []
    /\ Forall (fun fw => fw_parents fw = [bulk_job a]) rest
    /\ length (filter (fun fw => parentless fw = true) (fws wf)) = 1%nat.
Proof.
  apply (bulk_job_is_the_only_root (default_args [("111", [h2])]) fresh_interp).
  vm_compute. reflexivity.
Defined.

(** Two molecules on (111) and one on (100). *)
Lemma adsorbate_job_count_witness :
  let a := default_args [("111", [h2; h2]); ("100", [h2])] in
  exists wf st',
    get_wf_adsorption a fresh_interp = (Return wf, st')
    /\ length (filter (fun fw => is_adsorbate_job fw = true) (fws wf))
       = candidate_count a (generated_slabs a).
Proof.
  apply (adsorbate_job_count
           (default_args [("111", [h2; h2]); ("100", [h2])]) fresh_interp).
  vm_compute. reflexivity.
Defined.

Example pd_two_surfaces_three_candidates :
  candidate_count (default_args [("111", [h2; h2]); ("100", [h2])])
    (generated_slabs (default_args [("111", [h2; h2]); ("100", [h2])])) = 3%nat.
Proof. vm_compute. reflexivity. Qed.

(** H2 on Pd(111). *)
Lemma adsorbate_jobs_carry_the_chain_witness :
  let a := default_args [("111", [h2])] in
  exists wf st' rest,
    get_wf_adsorption a fresh_interp = (Return wf, st')
    /\ fws wf = bulk_job a :: rest
    /\ Forall2
         (fun p fw =>
            match p with
            | SlabJob _ => is_adsorbate_job fw = false
            | AdsorbateJob slab molecule struct =>
                let s := prepared struct in
                let ads_sites :=
                  filter (fun site => adsorbate_tagged site = true) (sites s) in
                fw_transformations fw
                = ["SlabTransformation"; "SupercellTransformation";
                   "InsertSitesTransformation"; "AddSitePropertyTransformation"]
                /\ fw_transformation_params fw
                   = [SlabParams (slab_cut_params a slab);
                      SupercellParams
                        (py_round (float_div (lattice_a s)
                                     (lattice_a (slab_structure slab))))
                        (py_round (float_div (lattice_b s)
                                     (lattice_b (slab_structure slab))));
                      InsertSitesParams (map species_string ads_sites)
                        (map frac_coords ads_sites);
                      SitePropertyParams (site_properties s)]
            end)
         (job_plan a (generated_slabs a)) rest.
Proof.
  apply (adsorbate_jobs_carry_the_chain (default_args [("111", [h2])]) fresh_interp).
  vm_compute. reflexivity.
Defined.

(** The adsorbate job of Pd(111) with H2: the candidate cell is twice the
    slab cell along a and b, and the two hydrogen sites are inserted. *)
Example pd_111_h2_supercell_and_insertion :
  match returned_jobs (get_wf_adsorption (default_args [("111", [h2])]) fresh_interp)
          !! 2%nat with
  | Some fw =>
      match fw_transformation_params fw with
      | [_; SupercellParams sa sb; InsertSitesParams species coords; _] =>
          sa = 2 /\ sb = 2 /\ species = ["H"; "H"] /\ length coords = 2%nat
      | _ => False
      end
  | None => False
  end.
Proof. vm_compute. repeat split. Qed.

(** C3 fails on the code.  The call [get_wf_adsorption(pd, {"111": [h2]},
    auto_dipole=False)] made in a fresh interpreter gives the slab job
    overrides without dipole settings; the same call made after
    [get_wf_adsorption(pd, {"111": [h2]})] gives it the dipole settings
    the earlier call left in the default dictionary.  The two workflows
    differ, and the default dictionary is the state they share. *)
Lemma default_overrides_leak_between_calls :
  let first := get_wf_adsorption (default_args [("111", [h2])]) in
  let second := get_wf_adsorption (no_dipole_args [("111", [h2])]) in
  let alone := second fresh_interp in
  let after := second (snd (first fresh_interp)) in
  (slab_job_overrides alone !! "LDIPOL" = None
   /\ slab_job_overrides after !! "LDIPOL" = Some (PyStr "True")
   /\ fst alone <> fst after
   /\ (dicts (snd (first fresh_interp)) !! default_slab_incar_params)
        ≫= (fun d => d !! "LDIPOL") = Some (PyStr "True")).
Proof.
  cbv zeta.
  assert (E1 : slab_job_overrides
                 (get_wf_adsorption (no_dipole_args [("111", [h2])]) fresh_interp)
                 !! "LDIPOL" = None) by (vm_compute; reflexivity).
  assert (E2 : slab_job_overrides
                 (get_wf_adsorption (no_dipole_args [("111", [h2])])
                    (snd (get_wf_adsorption (default_args [("111", [h2])]) fresh_interp)))
                 !! "LDIPOL" = Some (PyStr "True")) by (vm_compute; reflexivity).
  split; [exact E1 |]. split; [exact E2 |]. split; [| vm_compute; reflexivity].
  intros Heq. unfold slab_job_overrides, returned_jobs in E1, E2.
  rewrite Heq in E1. rewrite E1 in E2. discriminate.
Qed.

(** A dictionary the caller passes as [slab_incar_params] is updated in
    place too: after the call it holds the dipole settings. *)
Example caller_overrides_are_updated :
  let st0 := snd (new_dict ∅ fresh_interp) in
  let a := pd_args [("111", [h2])] true true 2%nat default_ads_incar_params in
  (fst (new_dict ∅ fresh_interp) = Return 2%nat
   /\ dicts st0 !! 2%nat = Some ∅
   /\ (dicts (snd (get_wf_adsorption a st0)) !! 2%nat) ≫= (fun d => d !! "LDIPOL")
      = Some (PyStr "True")).
Proof. cbv zeta. split; [| split]; vm_compute; reflexivity. Qed.

(** C4 fails on the code.  Called with [center_slab=False], the builder
    still writes [center_slab = True] into the slab-cut parameters of
    the slab job and of the adsorbate job. *)
Lemma slab_cut_ignores_center_slab :
  center_slab (off_center_args [("111", [h2])]) = false
  /\ map fw_center_flags
       (returned_jobs (get_wf_adsorption (off_center_args [("111", [h2])]) fresh_interp))
     = [[]; [true]; [true]].
Proof. split; vm_compute; reflexivity. Qed.

(** The slab job of the call with [center_slab=False]. *)
Lemma slab_jobs_built_example :
  let a := off_center_args [("111", [h2])] in
  exists wf st',
    get_wf_adsorption a fresh_interp = (Return wf, st')
    /\ length (filter (fun fw => is_slab_job fw = true) (fws wf))
       = length (filter (fun slab =>
                           is_Some (config_get (adsorbate_config a) (mi_string_of slab)))
                   (generated_slabs a))
    /\ forall slab,
         slab ∈ generated_slabs a ->
         mi_string_of slab ∈ config_keys (adsorbate_config a) ->
         exists fw,
           fw ∈ fws wf
           /\ fw_parents fw = [bulk_job a]
           /\ fw_transformations fw = ["SlabTransformation"]
           /\ fw_transformation_params fw
              = [SlabParams
                   {| p_miller_index := miller_index slab;
                      p_min_slab_size := min_slab_size a;
                      p_min_vacuum_size := min_vacuum_size a;
                      p_shift := shift slab;
                      p_center_slab := true;
                      p_max_normal_search := max_normal_search a |}].
Proof.
  apply (slab_jobs_built (off_center_args [("111", [h2])]) fresh_interp).
  vm_compute. reflexivity.
Qed.

(** Molecule jobs built for two molecules have no parents. *)
Example two_molecule_jobs :
  map fw_parents
    (returned_jobs (get_wf_molecules [h2; h2] None 15%Q "vasp" None fresh_interp))
  = [[]; []].
Proof. reflexivity. Qed.

(** ** Further runs on palladium *)

(** H2 on Pd(111) returns a workflow. *)
Lemma returns_exactly_when_valid_witness :
  exists wf st',
    get_wf_adsorption (default_args [("111", [h2])]) fresh_interp = (Return wf, st').
Proof.
  apply (proj2 (returns_exactly_when_valid (default_args [("111", [h2])]) fresh_interp)).
  vm_compute. reflexivity.
Defined.

(** H2 on Pd(111) and on Pd(100), from the fresh default dictionaries. *)
Lemma returned_workflow_is_the_plan_witness :
  let a := default_args [("111", [h2]); ("100", [h2])] in
  exists wf st',
    get_wf_adsorption a fresh_interp = (Return wf, st')
    /\ fws wf
       = bulk_job a
         :: map (planned_job a
                   (overrides_after a (dict_at fresh_interp (slab_incar_params a)))
                   (overrides_after a (dict_at fresh_interp (ads_incar_params a))))
              (job_plan a (generated_slabs a))
    /\ wf_name wf
       = reduced_formula (normalized_structure a) +:+ ":Adsorbate calculations".
Proof.
  apply (returned_workflow_is_the_plan
           (default_args [("111", [h2]); ("100", [h2])]) fresh_interp).
  vm_compute. reflexivity.
Defined.

Lemma repeated_call_returns_the_same_workflow_witness :
  let a := default_args [("111", [h2])] in
  exists wf st' st'',
    get_wf_adsorption a fresh_interp = (Return wf, st')
    /\ get_wf_adsorption a st' = (Return wf, st'').
Proof.
  apply (repeated_call_returns_the_same_workflow
           (default_args [("111", [h2])]) fresh_interp).
  vm_compute. reflexivity.
Defined.

Lemma dictionaries_after_a_valid_call_witness :
  let a := default_args [("111", [h2])] in
  exists wf st',
    get_wf_adsorption a fresh_interp = (Return wf, st')
    /\ dict_at st' (slab_incar_params a)
       = overrides_after a (dict_at fresh_interp (slab_incar_params a))
    /\ dict_at st' (ads_incar_params a)
       = overrides_after a (dict_at fresh_interp (ads_incar_params a))
    /\ (auto_dipole a = true ->
        dict_at st' (slab_incar_params a) !! "LDIPOL" = Some (PyStr "True")
        /\ dict_at st' (ads_incar_params a) !! "LDIPOL" = Some (PyStr "True")).
Proof.
  apply (dictionaries_after_a_valid_call (default_args [("111", [h2])]) fresh_interp).
  vm_compute. reflexivity.
Defined.

(** Two molecules on (111) and one on (100): 1 + 2 + 3 jobs. *)
Lemma every_built_job_is_returned_witness :
  let a := default_args [("111", [h2; h2]); ("100", [h2])] in
  exists wf st',
    get_wf_adsorption a fresh_interp = (Return wf, st')
    /\ fireworks_built st' = (fireworks_built fresh_interp + length (fws wf))%nat
    /\ length (fws wf)
       = (1 + length (requested_slabs a (generated_slabs a))
          + candidate_count a (generated_slabs a))%nat.
Proof.
  apply (every_built_job_is_returned
           (default_args [("111", [h2; h2]); ("100", [h2])]) fresh_interp).
  vm_compute. reflexivity.
Defined.

Example pd_two_surfaces_six_jobs :
  length (returned_jobs
            (get_wf_adsorption (default_args [("111", [h2; h2]); ("100", [h2])])
               fresh_interp)) = 6%nat.
Proof. vm_compute. reflexivity. Qed.

(** Only (111) is requested; (100) is generated too and gets no job. *)
Lemma jobs_only_for_requested_slabs_witness :
  let a := default_args [("111", [h2])] in
  exists wf st',
    get_wf_adsorption a fresh_interp = (Return wf, st')
    /\ forall fw,
         fw ∈ fws wf ->
         fw = bulk_job a
         \/ exists slab,
              slab ∈ generated_slabs a
              /\ mi_string_of slab ∈ config_keys (adsorbate_config a)
              /\ head (fw_transformation_params fw)
                 = Some (SlabParams (slab_cut_params a slab)).
Proof.
  apply (jobs_only_for_requested_slabs (default_args [("111", [h2])]) fresh_interp).
  vm_compute. reflexivity.
Defined.

(** A default call, then the same surface with [auto_dipole=False]. *)
Lemma dipole_settings_reach_the_next_call_witness :
  exists wf_a st' wf_b st'',
    get_wf_adsorption (default_args [("111", [h2])]) fresh_interp = (Return wf_a, st')
    /\ get_wf_adsorption (no_dipole_args [("111", [h2])]) st' = (Return wf_b, st'')
    /\ forall fw,
         fw ∈ fws wf_b -> is_slab_job fw = true ->
         user_incar_settings_of (fw_vasp_input_set fw) !! "LDIPOL"
         = Some (PyStr "True").
Proof.
  apply (dipole_settings_reach_the_next_call
           (default_args [("111", [h2])]) (no_dipole_args [("111", [h2])]) fresh_interp).
  - vm_compute. reflexivity.
  - vm_compute. reflexivity.
  - reflexivity.
  - reflexivity.
Defined.

(** The keys "210" and "111", the second written with fullwidth
    digits. *)
Lemma max_index_is_a_single_digit_witness :
  0 <= 2 <= 9
  /\ exists ds,
      map unicode_decimal
        (code_points (join (config_keys [("210", [h2]); (fullwidth_111, [])])))
      = map Some ds
      /\ 2 ∈ ds
      /\ Forall (fun d => d <= 2) ds.
Proof.
  apply (max_index_is_a_single_digit (H0 := demo_pymatgen)
           [("210", [h2]); (fullwidth_111, [])] 2).
  vm_compute. reflexivity.
Defined.

(** A request for the key "1x-1": the letter comes before the minus
    sign. *)
Lemma non_digit_key_raises_witness :
  let a := default_args [("1x-1", [h2])] in
  exists st',
    get_wf_adsorption a fresh_interp = (Raise (ValueError_int 120), st')
    /\ fireworks_built st' = S (fireworks_built fresh_interp).
Proof.
  apply (non_digit_key_raises (default_args [("1x-1", [h2])]) fresh_interp
           [49%N] [45%N; 49%N] 120%N).
  - vm_compute. reflexivity.
  - constructor; [by exists 1 | constructor].
  - vm_compute. reflexivity.
Defined.

(** A slab cut along (1,-1,0), requested as "1-10". *)
Lemma negative_miller_index_cannot_be_requested_witness :
  exists c st',
    unicode_decimal c = None
    /\ get_wf_adsorption (default_args [("1-10", [h2])]) fresh_interp
       = (Raise (ValueError_int c), st')
    /\ fireworks_built st' = S (fireworks_built fresh_interp).
Proof.
  apply (negative_miller_index_cannot_be_requested
           (default_args [("1-10", [h2])]) fresh_interp
           {| sl_crystal := pd; sl_miller := [1; -1; 0]; sl_shift := 0%Q |} (-1)).
  - compute_done.
  - lia.
  - compute_done.
Defined.

(** A dictionary at another location, and another key of the default
    slab dictionary. *)
Lemma only_the_four_incar_keys_are_written_witness :
  dict_at (snd (get_wf_adsorption (default_args [("111", [h2])]) fresh_interp))
    default_slab_incar_params !! "ENCUT"
  = dict_at fresh_interp default_slab_incar_params !! "ENCUT".
Proof.
  apply (only_the_four_incar_keys_are_written
           (default_args [("111", [h2])]) fresh_interp
           default_slab_incar_params "ENCUT").
  right. repeat split; discriminate.
Defined.

(** The request for (222), which raises. *)
Lemma ldau_default_is_written_whatever_the_outcome_witness :
  let a := default_args [("222", [h2])] in
  dict_at (snd (get_wf_adsorption a fresh_interp)) (slab_incar_params a) !! "LDAU"
  = Some (PyBool false)
  /\ dict_at (snd (get_wf_adsorption a fresh_interp)) (ads_incar_params a) !! "LDAU"
     = Some (PyBool false).
Proof.
  apply (ldau_default_is_written_whatever_the_outcome
           (default_args [("222", [h2])]) fresh_interp).
  reflexivity.
Defined.

(** The request for (222): the Miller-index error. *)
Lemma exceptions_of_get_wf_adsorption_witness :
  let a := default_args [("222", [h2])] in
  let e := ValueError_miller ["111"; "100"] in
  (e = ValueError_max_empty /\ join (config_keys (adsorbate_config a)) = "")
  \/ (exists c,
        e = ValueError_int c /\ unicode_decimal c = None
        /\ c ∈ code_points (join (config_keys (adsorbate_config a))))
  \/ (e = ValueError_miller (generated_mi_strings a)
      /\ exists key,
           key ∈ config_keys (adsorbate_config a) /\ key ∉ generated_mi_strings a)
  \/ (e = KeyError "surface_properties"
      /\ candidates_tagged a (generated_slabs a) = false).
Proof.
  apply (exceptions_of_get_wf_adsorption
           (default_args [("222", [h2])]) fresh_interp
           (ValueError_miller ["111"; "100"])
           (snd (get_wf_adsorption (default_args [("222", [h2])]) fresh_interp))).
  reflexivity.
Defined.

(** The items ("111", ..), ("100", ..) in the other order. *)
Lemma key_order_is_irrelevant_witness :
  get_wf_adsorption
    (with_config (default_args [("111", [h2]); ("100", [])])
       [("100", []); ("111", [h2])]) fresh_interp
  = get_wf_adsorption (default_args [("111", [h2]); ("100", [])]) fresh_interp.
Proof.
  apply (key_order_is_irrelevant
           (default_args [("111", [h2]); ("100", [])])
           [("100", []); ("111", [h2])] fresh_interp).
  - compute_done.
  - vm_compute. reflexivity.
  - apply perm_swap.
Defined.

(** Three molecules and two input sets: two jobs. *)
Example three_molecules_two_input_sets :
  length (returned_jobs
            (get_wf_molecules [h2; h2; h2] (Some [None; None]) 15%Q "vasp" None
               fresh_interp)) = 2%nat.
Proof. reflexivity. Qed.
